(** * nsx-operator: the resource synchronisation core

    A shallow embedding of the ChildSubnet service
    ([pkg/nsx/services/childsubnet]: [childsubnet.go], [wrap.go],
    [t1builder.go], [types.go], the stores and the comparable adapters)
    and of the hierarchical builder of the subnet-binding service
    ([hNode], [mergeChildNode], [buildTree],
    [buildOrgRootBySubnetConnectionBindingMaps]).

    Conventions.
    - A Go pointer [*T] is an [option T]; [None] is the nil pointer.  A
      slice of pointers is a [list (option T)].
    - A Go call either returns a value, returns a non-nil [error], or
      panics; this is the type [outcome].
    - Code that mutates the object behind a pointer returns the updated
      object next to its result.
    - The vAPI data values the SDK converter produces are the untyped
      trees of [DataValue]. *)

From Stdlib Require Import ZArith Lia Ascii.
From stdpp Require Import base option list strings pretty gmap sets.

Set Warnings "-register-all".

(** ** Results of Go calls *)

(** The run-time faults the embedded code can raise. *)
Inductive fault : Type :=
  | NilDereference        (* a field read or write through a nil pointer *)
  | InterfaceConversion   (* a type assertion [i.(T)] on another dynamic type *)
  | NilMapAssignment      (* an insertion into a map that was never made *)
  | IndexOutOfRange.      (* [s[0]] on an empty slice *)

(** One structured error of the backend, as [model.RelatedApiError]. *)
Record RelatedApiError : Type := mkRelatedApiError {
  rel_ErrorCode : option Z;
  rel_ErrorMessage : option string;
}.

(** [model.ApiError]: only the list the code walks is needed. *)
Record ApiError : Type := mkApiError {
  RelatedErrors : list RelatedApiError;
}.

(** The Go [error] values that occur. *)
Inductive error : Type :=
  | Errorf (msg : string)
      (* fmt.Errorf / errors.New *)
  | BackendError (api : option ApiError) (msg : string)
      (* an error returned by the NSX client; it may carry a structured
         ApiError *)
  | IPBlockExhaustedError (Desc : string).
      (* nsxutil.IPBlockExhaustedError *)

Inductive outcome (A : Type) : Type :=
  | Ret (a : A)
  | Fail (e : error)
  | Panic (f : fault).
Arguments Ret {A} a.
Arguments Fail {A} e.
Arguments Panic {A} f.

Definition obind {A B : Type} (c : outcome A) (k : A -> outcome B) : outcome B :=
  match c with
  | Ret a => k a
  | Fail e => Fail e
  | Panic f => Panic f
  end.

#[global] Instance outcome_ret : MRet outcome := fun A a => Ret a.
#[global] Instance outcome_bind : MBind outcome := fun A B k c => obind c k.

(** [*p] for a pointer [p]. *)
Definition deref {A : Type} (p : option A) : outcome A :=
  match p with
  | Some a => Ret a
  | None => Panic NilDereference
  end.

(** A loop whose body may return early with an error or panic. *)
Fixpoint foldM {A B : Type} (f : B -> A -> outcome B) (b : B) (l : list A) : outcome B :=
  match l with
  | [] => Ret b
  | x :: l' => b' ← f b x; foldM f b' l'
  end.

(** ** vAPI data values ([runtime/data]) *)

Inductive DataValue : Type :=
  | StringValue (s : string)
  | IntegerValue (z : Z)
  | BooleanValue (b : bool)
  | OptionalValue (o : option DataValue)
  | ListValue (l : list DataValue)
  | StructValue (name : string) (fields : list (string * DataValue)).

Definition optString (o : option string) : DataValue :=
  OptionalValue (StringValue <$> o).
Definition optInteger (o : option Z) : DataValue :=
  OptionalValue (IntegerValue <$> o).
Definition optBoolean (o : option bool) : DataValue :=
  OptionalValue (BooleanValue <$> o).

(** ** The policy model ([services/nsxt/model]), restricted to the fields
    the embedded code reads or writes *)

Record Tag : Type := mkTag {
  Scope : option string;
  TagValue : option string;   (* field [Tag] *)
}.

Definition Tag_data (t : Tag) : DataValue :=
  StructValue "Tag" [("scope", optString (Scope t)); ("tag", optString (TagValue t))].
Definition Tags_data (ts : list Tag) : DataValue :=
  OptionalValue (Some (ListValue (Tag_data <$> ts))).

Module SubnetConnectionBindingMap.
Record t : Type := mk {
  Id : option string;
  DisplayName : option string;
  ParentPath : option string;
  Path : option string;
  SubnetPath : option string;
  VlanTrafficTag : option Z;
  Tags : list Tag;
  MarkedForDelete : option bool;
  ResourceType : option string;
}.
Definition setMarkedForDelete (m : option bool) (b : t) : t :=
  mk (Id b) (DisplayName b) (ParentPath b) (Path b) (SubnetPath b)
     (VlanTrafficTag b) (Tags b) m (ResourceType b).
Definition setResourceType (r : option string) (b : t) : t :=
  mk (Id b) (DisplayName b) (ParentPath b) (Path b) (SubnetPath b)
     (VlanTrafficTag b) (Tags b) (MarkedForDelete b) r.
Definition data (b : t) : DataValue :=
  StructValue "SubnetConnectionBindingMap"
    [("id", optString (Id b)); ("display_name", optString (DisplayName b));
     ("parent_path", optString (ParentPath b)); ("path", optString (Path b));
     ("subnet_path", optString (SubnetPath b));
     ("vlan_traffic_tag", optInteger (VlanTrafficTag b));
     ("tags", Tags_data (Tags b));
     ("marked_for_delete", optBoolean (MarkedForDelete b));
     ("resource_type", optString (ResourceType b))].
End SubnetConnectionBindingMap.

Module SegmentConnectionBindingMap.
Record t : Type := mk {
  Id : option string;
  DisplayName : option string;
  SegmentPath : option string;
  ParentPath : option string;
  VlanTrafficTag : option Z;
  Tags : list Tag;
  MarkedForDelete : option bool;
  ResourceType : option string;
}.
Definition setMarkedForDelete (m : option bool) (b : t) : t :=
  mk (Id b) (DisplayName b) (SegmentPath b) (ParentPath b)
     (VlanTrafficTag b) (Tags b) m (ResourceType b).
Definition setResourceType (r : option string) (b : t) : t :=
  mk (Id b) (DisplayName b) (SegmentPath b) (ParentPath b)
     (VlanTrafficTag b) (Tags b) (MarkedForDelete b) r.
Definition data (b : t) : DataValue :=
  StructValue "SegmentConnectionBindingMap"
    [("id", optString (Id b)); ("display_name", optString (DisplayName b));
     ("segment_path", optString (SegmentPath b));
     ("parent_path", optString (ParentPath b));
     ("vlan_traffic_tag", optInteger (VlanTrafficTag b));
     ("tags", Tags_data (Tags b));
     ("marked_for_delete", optBoolean (MarkedForDelete b));
     ("resource_type", optString (ResourceType b))].
End SegmentConnectionBindingMap.

Module IpAddressPool.
Record t : Type := mk {
  Id : option string;
  DisplayName : option string;
  Tags : list Tag;
  MarkedForDelete : option bool;
  ResourceType : option string;
  Children : list DataValue;
}.
Definition setMarkedForDelete (m : option bool) (b : t) : t :=
  mk (Id b) (DisplayName b) (Tags b) m (ResourceType b) (Children b).
Definition setResourceType (r : option string) (b : t) : t :=
  mk (Id b) (DisplayName b) (Tags b) (MarkedForDelete b) r (Children b).
Definition setChildren (c : list DataValue) (b : t) : t :=
  mk (Id b) (DisplayName b) (Tags b) (MarkedForDelete b) (ResourceType b) c.
Definition data (b : t) : DataValue :=
  StructValue "IpAddressPool"
    [("id", optString (Id b)); ("display_name", optString (DisplayName b));
     ("tags", Tags_data (Tags b));
     ("marked_for_delete", optBoolean (MarkedForDelete b));
     ("resource_type", optString (ResourceType b));
     ("children", OptionalValue (Some (ListValue (Children b))))].
End IpAddressPool.

Module IpAddressPoolBlockSubnet.
Record t : Type := mk {
  Id : option string;
  DisplayName : option string;
  IpBlockPath : option string;
  Size : option Z;
  Tags : list Tag;
  MarkedForDelete : option bool;
  ResourceType : string;
}.
Definition setMarkedForDelete (m : option bool) (b : t) : t :=
  mk (Id b) (DisplayName b) (IpBlockPath b) (Size b) (Tags b) m (ResourceType b).
Definition setResourceType (r : string) (b : t) : t :=
  mk (Id b) (DisplayName b) (IpBlockPath b) (Size b) (Tags b) (MarkedForDelete b) r.
Definition data (b : t) : DataValue :=
  StructValue "IpAddressPoolBlockSubnet"
    [("id", optString (Id b)); ("display_name", optString (DisplayName b));
     ("ip_block_path", optString (IpBlockPath b));
     ("size", optInteger (Size b));
     ("tags", Tags_data (Tags b));
     ("marked_for_delete", optBoolean (MarkedForDelete b));
     ("resource_type", StringValue (ResourceType b))].
End IpAddressPoolBlockSubnet.

Module Segment.
Record t : Type := mk {
  Id : option string;
  DisplayName : option string;
  ConnectivityPath : option string;
  TransportZonePath : option string;
  Path : option string;
  Subnets : list (option string);        (* the GatewayAddress of each SegmentSubnet *)
  AdvancedConfig : option (list string); (* AddressPoolPaths *)
  Tags : list Tag;
  MarkedForDelete : option bool;
  ResourceType : option string;
  Children : list DataValue;
}.
Definition setMarkedForDelete (m : option bool) (b : t) : t :=
  mk (Id b) (DisplayName b) (ConnectivityPath b) (TransportZonePath b) (Path b)
     (Subnets b) (AdvancedConfig b) (Tags b) m (ResourceType b) (Children b).
Definition setResourceType (r : option string) (b : t) : t :=
  mk (Id b) (DisplayName b) (ConnectivityPath b) (TransportZonePath b) (Path b)
     (Subnets b) (AdvancedConfig b) (Tags b) (MarkedForDelete b) r (Children b).
Definition setChildren (c : list DataValue) (b : t) : t :=
  mk (Id b) (DisplayName b) (ConnectivityPath b) (TransportZonePath b) (Path b)
     (Subnets b) (AdvancedConfig b) (Tags b) (MarkedForDelete b) (ResourceType b) c.
Definition data (b : t) : DataValue :=
  StructValue "Segment"
    [("id", optString (Id b)); ("display_name", optString (DisplayName b));
     ("connectivity_path", optString (ConnectivityPath b));
     ("transport_zone_path", optString (TransportZonePath b));
     ("path", optString (Path b));
     ("subnets", ListValue ((fun g => StructValue "SegmentSubnet"
                                        [("gateway_address", optString g)])
                            <$> Subnets b));
     ("advanced_config",
        OptionalValue ((fun ps => StructValue "SegmentAdvancedConfig"
                                    [("address_pool_paths", ListValue (StringValue <$> ps))])
                       <$> AdvancedConfig b));
     ("tags", Tags_data (Tags b));
     ("marked_for_delete", optBoolean (MarkedForDelete b));
     ("resource_type", optString (ResourceType b));
     ("children", OptionalValue (Some (ListValue (Children b))))].
End Segment.

Module Tier1.
Record t : Type := mk {
  Id : option string;
  Path : option string;
  Tags : list Tag;
  MarkedForDelete : option bool;
  ResourceType : option string;
  Children : list DataValue;
}.
Definition setResourceType (r : option string) (b : t) : t :=
  mk (Id b) (Path b) (Tags b) (MarkedForDelete b) r (Children b).
Definition setChildren (c : list DataValue) (b : t) : t :=
  mk (Id b) (Path b) (Tags b) (MarkedForDelete b) (ResourceType b) c.
Definition data (b : t) : DataValue :=
  StructValue "Tier1"
    [("id", optString (Id b)); ("path", optString (Path b));
     ("tags", Tags_data (Tags b));
     ("marked_for_delete", optBoolean (MarkedForDelete b));
     ("resource_type", optString (ResourceType b));
     ("children", OptionalValue (Some (ListValue (Children b))))].
End Tier1.

Module PolicyNat.
Record t : Type := mk {
  Id : option string;
  DisplayName : option string;
  NatType : option string;
  MarkedForDelete : option bool;
  ResourceType : option string;
  Children : list DataValue;
}.
Definition setResourceType (r : option string) (b : t) : t :=
  mk (Id b) (DisplayName b) (NatType b) (MarkedForDelete b) r (Children b).
Definition setChildren (c : list DataValue) (b : t) : t :=
  mk (Id b) (DisplayName b) (NatType b) (MarkedForDelete b) (ResourceType b) c.
Definition data (b : t) : DataValue :=
  StructValue "PolicyNat"
    [("id", optString (Id b)); ("display_name", optString (DisplayName b));
     ("nat_type", optString (NatType b));
     ("marked_for_delete", optBoolean (MarkedForDelete b));
     ("resource_type", optString (ResourceType b));
     ("children", OptionalValue (Some (ListValue (Children b))))].
End PolicyNat.

Module PolicyNatRule.
Record t : Type := mk {
  Id : option string;
  DisplayName : option string;
  Action : option string;
  SourceNetwork : option string;
  DestinationNetwork : option string;
  Tags : list Tag;
  MarkedForDelete : option bool;
  ResourceType : option string;
}.
Definition setMarkedForDelete (m : option bool) (b : t) : t :=
  mk (Id b) (DisplayName b) (Action b) (SourceNetwork b) (DestinationNetwork b)
     (Tags b) m (ResourceType b).
Definition setResourceType (r : option string) (b : t) : t :=
  mk (Id b) (DisplayName b) (Action b) (SourceNetwork b) (DestinationNetwork b)
     (Tags b) (MarkedForDelete b) r.
Definition data (b : t) : DataValue :=
  StructValue "PolicyNatRule"
    [("id", optString (Id b)); ("display_name", optString (DisplayName b));
     ("action", optString (Action b));
     ("source_network", optString (SourceNetwork b));
     ("destination_network", optString (DestinationNetwork b));
     ("tags", Tags_data (Tags b));
     ("marked_for_delete", optBoolean (MarkedForDelete b));
     ("resource_type", optString (ResourceType b))].
End PolicyNatRule.

(** [model.Infra] *)
Record Infra : Type := mkInfra {
  Infra_Children : list DataValue;
  Infra_ResourceType : option string;
}.

(** One extended attribute and one entity of a realized-state listing
    ([model.AttributeVal], [model.GenericPolicyRealizedResource]). *)
Record AttributeVal : Type := mkAttributeVal {
  attr_Key : option string;
  attr_Values : list string;
}.
Record GenericPolicyRealizedResource : Type := mkRealized {
  EntityType : option string;
  ExtendedAttributes : list AttributeVal;
}.

(** [net.IP], [net.IPMask] and [net.IPNet]; a nil [net.IP] is the [None]
    of [option net_IP]. *)
Definition net_IP : Type := list Z.
Record IPNet : Type := mkIPNet {
  IP : option net_IP;
  Mask : list Z;
}.

(** ** The custom resource ([v1alpha1.ChildSubnet]) and the parent
    configuration ([types.go]) *)

Record ChildSubnet : Type := mkChildSubnet {
  UID : string;
  Name : string;
  Namespace : string;
  Spec_Parent : string;
  Spec_SubnetPrefixLength : Z;
  Spec_AccessMode : string;
  Status_Vlan : Z;
}.

Definition AccessModePublic : string := "Public".

Record ParentConfig : Type := mkParentConfig {
  id : string;
  name : string;
  namespace : string;
  tier1Path : string;
  transportZonePath : string;
  segmentPaths : gset string;
  publicIPBlockPath : string;
  privateIPBlockPath : string;
  markedForDelete : option bool;
}.

(** [model.OrgRoot] *)
Record OrgRoot : Type := mkOrgRoot {
  OrgRoot_Children : list DataValue;
  OrgRoot_ResourceType : option string;
}.

(** ** What the embedded code takes from the rest of the repository

    [common], [util] and [nsxutil] are outside the sources at hand; their
    constants and helpers are the fields of [Env]. *)

(** [common.VPCResourceInfo], the fields the builder reads. *)
Record VPCResourceInfo : Type := mkVPCResourceInfo {
  OrgID : string;
  ProjectID : string;
  VPCID : string;
  ID : string;
}.

Class Env : Type := mkEnv {
  (* common.ParseVPCResourcePath *)
  ParseVPCResourcePath : string -> error + VPCResourceInfo;
  (* whether the SDK converter reports errors for a value *)
  converterError : DataValue -> option error;
  (* common.ResourceTypeSubnetConnectionBIndingMap *)
  ResourceTypeSubnetConnectionBIndingMap : string;
  (* common.ResourceTypeIPPool, ... *)
  ResourceTypeIPPool : string;
  ResourceTypeIPPoolBlockSubnet : string;
  ResourceTypeSegment : string;
  ResourceTypeSegmentConnectionBindingMap : string;
  ResourceTypeTier1 : string;
  ResourceTypePolicyNAT : string;
  ResourceTypePolicyNATRule : string;
  (* common.TagScopeParentConfigUID, common.TagScopeChildSubnetUID *)
  TagScopeParentConfigUID : string;
  TagScopeChildSubnetUID : string;
  (* common.RealizeMaxRetries *)
  RealizeMaxRetries : Z;
  (* util.GenerateID resID prefix suffix index *)
  GenerateID : string -> string -> string -> string -> string;
  (* util.GenerateDisplayName resName prefix suffix project cluster *)
  GenerateDisplayName : string -> string -> string -> string -> string -> string;
  (* util.CalculateSubnetSize *)
  CalculateSubnetSize : Z -> Z;
  (* ippool.BuildIPPool id name tags *)
  BuildIPPool : option string -> option string -> list Tag -> option IpAddressPool.t;
  (* ippool.BuildIPSubnet id name ipBlockPath tags size *)
  BuildIPSubnet : option string -> option string -> option string -> list Tag ->
                  option Z -> option IpAddressPoolBlockSubnet.t;
  (* net.ParseCIDR (the IPNet pointer it returns, nil on a parse error),
     net.ParseIP, and the String method of net.IPNet *)
  ParseCIDR : string -> option IPNet;
  ParseIP : string -> option net_IP;
  IPNet_String : IPNet -> string;
}.

(** [NewConverter().ConvertToVapi(v, bindingType)] followed by the
    callers' [if len(errors) > 0 { return nil, errors[0] }]. *)
Definition ConvertToVapi `{Env} (v : DataValue) : outcome DataValue :=
  match converterError v with
  | Some e => Fail e
  | None => Ret v
  end.

(** ** Subnet-binding service: the hierarchical builder *)

Module subnetbinding.
Section builder.
Context `{Env}.

Definition leafType : string := "SubnetConnectionBindingMap".

Inductive hNode : Type :=
  mkHNode (resourceType : string) (resourceID : string)
          (bindingMap : option SubnetConnectionBindingMap.t)
          (childNodes : list hNode).

Definition resourceType (n : hNode) : string :=
  match n with mkHNode t _ _ _ => t end.
Definition resourceID (n : hNode) : string :=
  match n with mkHNode _ i _ _ => i end.
Definition bindingMap (n : hNode) : option SubnetConnectionBindingMap.t :=
  match n with mkHNode _ _ b _ => b end.
Definition childNodes (n : hNode) : list hNode :=
  match n with mkHNode _ _ _ c => c end.

(** [cn.resourceType == node.resourceType && cn.resourceID == node.resourceID] *)
Definition sameSegment (cn node : hNode) : bool :=
  bool_decide (resourceType cn = resourceType node)
  && bool_decide (resourceID cn = resourceID node).

(** The loop of [mergeChildNode] over [n.childNodes]: the first child with
    the segment of [node] is replaced by [into cn]; [None] when no child
    matches (the loop ends without returning). *)
Fixpoint mergeFirst (into : hNode -> hNode) (node : hNode) (l : list hNode)
  : option (list hNode) :=
  match l with
  | [] => None
  | cn :: l' =>
      if sameSegment cn node then Some (into cn :: l')
      else cons cn <$> mergeFirst into node l'
  end.

(** [n.mergeChildNode(node)]; the result is [n] after the call. *)
Fixpoint mergeChildNode (node : hNode) (n : hNode) {struct node} : hNode :=
  match n with
  | mkHNode t i b ch =>
      match node with
      | mkHNode nt ni nb nch =>
          if bool_decide (nt = leafType) then mkHNode t i b (ch ++ [node])
          else
            match mergeFirst
                    (fun cn => fold_left (fun cn chN => mergeChildNode chN cn) nch cn)
                    node ch with
            | Some ch' => mkHNode t i b ch'
            | None => mkHNode t i b (ch ++ [node])
            end
      end
  end.

(** [wrapChildResourceReference] *)
Definition ChildResourceReference_data (targetType resID : string)
    (children : list DataValue) : DataValue :=
  StructValue "ChildResourceReference"
    [("id", optString (Some resID));
     ("resource_type", StringValue "ChildResourceReference");
     ("target_type", optString (Some targetType));
     ("children", OptionalValue (Some (ListValue children)))].

Definition wrapChildResourceReference (targetType resID : string)
    (children : list DataValue) : outcome (list DataValue) :=
  dataValue ← ConvertToVapi (ChildResourceReference_data targetType resID children);
  Ret [dataValue].

(** [wrapSubnetBindingMap]; the binding map behind the pointer gets its
    resource type. *)
Definition ChildSubnetConnectionBindingMap_data
    (bm : SubnetConnectionBindingMap.t) : DataValue :=
  StructValue "ChildSubnetConnectionBindingMap"
    [("id", optString (SubnetConnectionBindingMap.Id bm));
     ("marked_for_delete", optBoolean (SubnetConnectionBindingMap.MarkedForDelete bm));
     ("resource_type", StringValue "ChildSubnetConnectionBindingMap");
     ("SubnetConnectionBindingMap",
        OptionalValue (Some (SubnetConnectionBindingMap.data bm)))].

Definition wrapSubnetBindingMap (bindingMap : option SubnetConnectionBindingMap.t)
  : outcome DataValue :=
  bm ← deref bindingMap;
  let bm := SubnetConnectionBindingMap.setResourceType
              (Some ResourceTypeSubnetConnectionBIndingMap) bm in
  ConvertToVapi (ChildSubnetConnectionBindingMap_data bm).

(** [n.buildTree()] *)
Fixpoint buildTree (n : hNode) : outcome (list DataValue) :=
  match n with
  | mkHNode t i b ch =>
      if bool_decide (t = leafType) then
        dataValue ← wrapSubnetBindingMap b; Ret [dataValue]
      else
        children ← (fix loop (l : list hNode) (children : list DataValue)
                     : outcome (list DataValue) :=
                     match l with
                     | [] => Ret children
                     | cn :: l' =>
                         cnDataValues ← buildTree cn;
                         loop l' (children ++ cnDataValues)
                     end) ch [];
        if bool_decide (t = "OrgRoot") then Ret children
        else wrapChildResourceReference t i children
  end.

(** [buildHNodeFromSubnetConnectionBindingMap] *)
Definition buildHNodeFromSubnetConnectionBindingMap (subnetPath : string)
    (bindingMap : option SubnetConnectionBindingMap.t) : outcome hNode :=
  match ParseVPCResourcePath subnetPath with
  | inl err => Fail err
  | inr vpcInfo =>
      bm ← deref bindingMap;
      id ← deref (SubnetConnectionBindingMap.Id bm);
      Ret (mkHNode "Org" (OrgID vpcInfo) None
            [mkHNode "Project" (ProjectID vpcInfo) None
              [mkHNode "Vpc" (VPCID vpcInfo) None
                [mkHNode "Subnet" (ID vpcInfo) None
                  [mkHNode leafType id bindingMap []]]]])
  end.

(** One iteration of the loop of
    [buildOrgRootBySubnetConnectionBindingMaps]. *)
Definition insertBindingMap (markForDelete : option bool) (subnetPath : string)
    (rootNode : hNode) (bm : option SubnetConnectionBindingMap.t) : outcome hNode :=
  bm ← match markForDelete with
       | Some _ =>
           b ← deref bm;
           Ret (Some (SubnetConnectionBindingMap.setMarkedForDelete markForDelete b))
       | None => Ret bm
       end;
  parentPath ← (if bool_decide (subnetPath = "") then
                  b ← deref bm; deref (SubnetConnectionBindingMap.ParentPath b)
                else Ret subnetPath);
  match buildHNodeFromSubnetConnectionBindingMap parentPath bm with
  | Fail err =>
      (* log.Error(err, ..., "bindingMap", *bm.Path); continue *)
      b ← deref bm;
      _ ← deref (SubnetConnectionBindingMap.Path b);
      Ret rootNode
  | Panic f => Panic f
  | Ret orgNode => Ret (mergeChildNode orgNode rootNode)
  end.

Definition mergedRoot (bindingMaps : list (option SubnetConnectionBindingMap.t))
    (markForDelete : option bool) (subnetPath : string) : outcome hNode :=
  foldM (insertBindingMap markForDelete subnetPath)
        (mkHNode "OrgRoot" "" None []) bindingMaps.

(** [buildOrgRootBySubnetConnectionBindingMaps]; the result is the pointer
    the function returns ([None] would be a nil request). *)
Definition buildOrgRootBySubnetConnectionBindingMaps
    (bindingMaps : list (option SubnetConnectionBindingMap.t))
    (markForDelete : option bool) (subnetPath : string)
  : outcome (option OrgRoot) :=
  rootNode ← mergedRoot bindingMaps markForDelete subnetPath;
  children ← buildTree rootNode;
  Ret (Some (mkOrgRoot children (Some "OrgRoot"))).

End builder.
End subnetbinding.

(** ** ChildSubnet service *)

(** The indexed cache behind every resource store ([cache.Indexer], reached
    through [common.ResourceStore]); it is outside the sources at hand and
    enters as an interface.  [ByIndex c index value] lists the objects filed
    under [value] in the index [index]. *)
Class Indexer : Type := mkIndexer {
  Cache : Type -> Type;
  ByIndex : forall {T : Type}, Cache T -> string -> string -> error + list T;
  Add : forall {T : Type}, Cache T -> T -> error + Cache T;
  Delete : forall {T : Type}, Cache T -> T -> error + Cache T;
}.

(** The NSX client: requests sent so far and the backend's answers.  The
    answer to a call may depend on how many calls of its kind came before. *)
Record NSXClient : Type := mkNSXClient {
  patchReply : nat -> Infra -> option error;
  listReply : nat -> string -> error + list GenericPolicyRealizedResource;
  patched : list Infra;
  listed : nat;
}.

(** [NSXClient.InfraClient.Patch(infra, &EnforceRevisionCheckParam)] *)
Definition InfraClient_Patch (c : NSXClient) (infra : Infra) : option error * NSXClient :=
  (patchReply c (length (patched c)) infra,
   mkNSXClient (patchReply c) (listReply c) (patched c ++ [infra]) (listed c)).

(** [NSXClient.InfraRealizedStateClient.List(intentPath, nil)] *)
Definition InfraRealizedStateClient_List (c : NSXClient) (intentPath : string)
  : (error + list GenericPolicyRealizedResource) * NSXClient :=
  (listReply c (listed c) intentPath,
   mkNSXClient (patchReply c) (listReply c) (patched c) (S (listed c))).

(** The dynamic values handed to the stores' [Apply(i interface{})]. *)
Inductive iface : Type :=
  | I_IpAddressPool (p : option IpAddressPool.t)
  | I_IpAddressPools (l : list (option IpAddressPool.t))
  | I_IpAddressPoolBlockSubnets (l : list (option IpAddressPoolBlockSubnet.t))
  | I_Segments (l : list (option Segment.t))
  | I_SegmentConnectionBindingMaps (l : list (option SegmentConnectionBindingMap.t))
  | I_PolicyNatRule (p : option PolicyNatRule.t)
  | I_PolicyNatRules (l : list (option PolicyNatRule.t))
  | I_nil.

(** A [common.Comparable] interface value: nil, or a pointer of one of the
    two adapter types. *)
Inductive Comparable : Type :=
  | C_nil
  | C_SegmentConnectionBindingMap (p : option SegmentConnectionBindingMap.t)
  | C_Segment (p : option Segment.t).

(** [model.IpAddressBlock], the fields the parent configuration reads. *)
Module IpAddressBlock.
Record t : Type := mk {
  Id : option string;
  Path : option string;
  Tags : list Tag;
  MarkedForDelete : option bool;
}.
End IpAddressBlock.

(** [vnet.VirtualNetwork], the fields the service reads. *)
Record VirtualNetwork : Type := mkVirtualNetwork {
  vnet_UID : string;
  vnet_Name : string;
  vnet_Namespace : string;
}.

(** More of what the embedded code takes from the rest of the repository:
    tag scopes and a search key of [common], the comparison of
    [common.CompareResources]
    (given the existing and the expected resources it returns the changed
    and the stale ones), [util.BuildBasicTags], and the cluster name of the
    configuration. *)
Class Common : Type := mkCommon {
  TagScopeNCPCluster : string;
  TagScopeNCPProjectUID : string;
  TagScopeNCPVNetworkUID : string;
  (* common.ResourceType, the key of the resource type in a search query *)
  ResourceType : string;
  CompareResources : list Comparable -> list Comparable ->
                     outcome (list Comparable * list Comparable);
  (* util.BuildBasicTags cluster obj namespaceID *)
  BuildBasicTags : string -> ChildSubnet -> string -> list Tag;
  (* service.NSXConfig.Cluster *)
  NSXConfig_Cluster : string;
}.

Module childsubnet.
Section service.
Context `{Env} `{Indexer}.

(** *** wrap.go *)

Definition Child_data (kind : string) (id : option string) (markedForDelete : option bool)
    (field : string) (body : DataValue) : DataValue :=
  StructValue kind
    [("id", optString id); ("marked_for_delete", optBoolean markedForDelete);
     ("resource_type", StringValue kind); (field, body)].

Definition wrapInfra (children : list DataValue) : outcome (option Infra) :=
  Ret (Some (mkInfra children (Some "Infra"))).

Definition wrapIPSubnets (IPSubnets : list (option IpAddressPoolBlockSubnet.t))
  : outcome (list DataValue * list (option IpAddressPoolBlockSubnet.t)) :=
  foldM (fun acc IPSubnet =>
           s ← deref IPSubnet;
           let s := IpAddressPoolBlockSubnet.setResourceType ResourceTypeIPPoolBlockSubnet s in
           dataValue ← ConvertToVapi (IpAddressPoolBlockSubnet.data s);
           dataValue ← ConvertToVapi
             (Child_data "ChildIpAddressPoolSubnet" (IpAddressPoolBlockSubnet.Id s)
                (IpAddressPoolBlockSubnet.MarkedForDelete s) "IpAddressPoolSubnet" dataValue);
           Ret (acc.1 ++ [dataValue], acc.2 ++ [Some s]))
        ([], []) IPSubnets.

Definition wrapIPPool (iap : option IpAddressPool.t)
  : outcome (DataValue * option IpAddressPool.t) :=
  p ← deref iap;
  let p := IpAddressPool.setResourceType (Some ResourceTypeIPPool) p in
  dataValue ← ConvertToVapi
    (Child_data "ChildIpAddressPool" (IpAddressPool.Id p) (IpAddressPool.MarkedForDelete p)
       "IpAddressPool" (IpAddressPool.data p));
  Ret (dataValue, Some p).

Definition wrapIPPoolAndSubnets (ipPool : option IpAddressPool.t)
    (ipSubnets : list (option IpAddressPoolBlockSubnet.t))
  : outcome (DataValue * option IpAddressPool.t * list (option IpAddressPoolBlockSubnet.t)) :=
  r ← wrapIPSubnets ipSubnets;
  p ← deref ipPool;
  let p := IpAddressPool.setChildren (IpAddressPool.Children p ++ r.1) p in
  w ← wrapIPPool (Some p);
  Ret (w.1, w.2, r.2).

Definition wrapSegmentConnectionBindingMap
    (bindingMaps : list (option SegmentConnectionBindingMap.t))
  : outcome (list DataValue * list (option SegmentConnectionBindingMap.t)) :=
  foldM (fun acc bindingMap =>
           b ← deref bindingMap;
           let b := SegmentConnectionBindingMap.setResourceType
                      (Some ResourceTypeSegmentConnectionBindingMap) b in
           dataValue ← ConvertToVapi
             (Child_data "ChildSegmentConnectionBindingMap" (SegmentConnectionBindingMap.Id b)
                (SegmentConnectionBindingMap.MarkedForDelete b) "SegmentConnectionBindingMap"
                (SegmentConnectionBindingMap.data b));
           Ret (acc.1 ++ [dataValue], acc.2 ++ [Some b]))
        ([], []) bindingMaps.

Definition wrapSegments (segment : option Segment.t)
  : outcome (DataValue * option Segment.t) :=
  s ← deref segment;
  let s := Segment.setResourceType (Some ResourceTypeSegment) s in
  dataValue ← ConvertToVapi
    (Child_data "ChildSegment" (Segment.Id s) (Segment.MarkedForDelete s)
       "Segment" (Segment.data s));
  Ret (dataValue, Some s).

Definition wrapSegmentAndConnectionBindingMaps (segment : option Segment.t)
    (bindingMaps : list (option SegmentConnectionBindingMap.t))
  : outcome (DataValue * option Segment.t * list (option SegmentConnectionBindingMap.t)) :=
  r ← wrapSegmentConnectionBindingMap bindingMaps;
  segment ← (if bool_decide (0 < length r.1) then
               s ← deref segment;
               Ret (Some (Segment.setChildren (Segment.Children s ++ r.1) s))
             else Ret segment);
  w ← wrapSegments segment;
  Ret (w.1, w.2, r.2).

Definition wrapPolicyNatRules (rules : list (option PolicyNatRule.t))
  : outcome (list DataValue * list (option PolicyNatRule.t)) :=
  foldM (fun acc natRule =>
           r ← deref natRule;
           let r := PolicyNatRule.setResourceType (Some ResourceTypePolicyNATRule) r in
           dataValue ← ConvertToVapi
             (Child_data "ChildPolicyNatRule" (PolicyNatRule.Id r)
                (PolicyNatRule.MarkedForDelete r) "PolicyNatRule" (PolicyNatRule.data r));
           Ret (acc.1 ++ [dataValue], acc.2 ++ [Some r]))
        ([], []) rules.

Definition wrapPolicyNats (nat : option PolicyNat.t)
  : outcome (DataValue * option PolicyNat.t) :=
  n ← deref nat;
  let n := PolicyNat.setResourceType (Some ResourceTypePolicyNAT) n in
  dataValue ← ConvertToVapi
    (Child_data "ChildPolicyNat" (PolicyNat.Id n) (PolicyNat.MarkedForDelete n)
       "PolicyNat" (PolicyNat.data n));
  Ret (dataValue, Some n).

Definition wrapPolicyTier1s (tier1 : option Tier1.t)
  : outcome (DataValue * option Tier1.t) :=
  t ← deref tier1;
  let t := Tier1.setResourceType (Some ResourceTypeTier1) t in
  dataValue ← ConvertToVapi
    (Child_data "ChildTier1" (Tier1.Id t) (Tier1.MarkedForDelete t) "Tier1" (Tier1.data t));
  Ret (dataValue, Some t).

Definition wrapTier1AndNATRules (tier1 : option Tier1.t) (nat : option PolicyNat.t)
    (natRules : list (option PolicyNatRule.t))
  : outcome (DataValue * option Tier1.t * option PolicyNat.t * list (option PolicyNatRule.t)) :=
  r ← wrapPolicyNatRules natRules;
  n ← deref nat;
  let n := PolicyNat.setChildren (PolicyNat.Children n ++ r.1) n in
  wn ← wrapPolicyNats (Some n);
  t ← deref tier1;
  let t := Tier1.setChildren (Tier1.Children t ++ [wn.1]) t in
  wt ← wrapPolicyTier1s (Some t);
  Ret (wt.1, wt.2, wn.2, r.2).

(** The objects a hierarchy wrapper was given, as they are after the call. *)
Record Wrapped : Type := mkWrapped {
  w_ipPool : option IpAddressPool.t;
  w_ipSubnet : option IpAddressPoolBlockSubnet.t;
  w_segment : option Segment.t;
  w_bindingMaps : list (option SegmentConnectionBindingMap.t);
  w_tier1 : option Tier1.t;
  w_nat : option PolicyNat.t;
  w_natRules : list (option PolicyNatRule.t);
}.

Definition WrapHierarchyInfra (ipPool : option IpAddressPool.t)
    (ipSubnet : option IpAddressPoolBlockSubnet.t) (segment : option Segment.t)
    (bindingMaps : list (option SegmentConnectionBindingMap.t))
    (tier1 : option Tier1.t) (nat : option PolicyNat.t)
    (natRules : list (option PolicyNatRule.t))
  : outcome (option Infra * Wrapped) :=
  let infraChildren : list DataValue := [] in
  let w := mkWrapped ipPool ipSubnet segment bindingMaps tier1 nat natRules in
  r1 ← match ipPool with
       | Some _ =>
           r ← wrapIPPoolAndSubnets ipPool [ipSubnet];
           Ret (infraChildren ++ [r.1.1],
                mkWrapped r.1.2 (default None (head r.2)) segment bindingMaps tier1 nat natRules)
       | None => Ret (infraChildren, w)
       end;
  r2 ← match segment with
       | Some _ =>
           r ← wrapSegmentAndConnectionBindingMaps segment bindingMaps;
           Ret (r1.1 ++ [r.1.1],
                mkWrapped (w_ipPool r1.2) (w_ipSubnet r1.2) r.1.2 r.2 tier1 nat natRules)
       | None => Ret r1
       end;
  r3 ← (if bool_decide (tier1 <> None) && bool_decide (0 < length natRules) then
          r ← wrapTier1AndNATRules tier1 nat natRules;
          Ret (r2.1 ++ [r.1.1.1],
               mkWrapped (w_ipPool r2.2) (w_ipSubnet r2.2) (w_segment r2.2)
                 (w_bindingMaps r2.2) r.1.1.2 r.1.2 r.2)
        else Ret r2);
  if bool_decide (length r3.1 = 0) then Ret (None, r3.2)
  else infra ← wrapInfra r3.1; Ret (infra, r3.2).

Definition WrapHierarchyIPPool (iap : option IpAddressPool.t)
    (iapbs : option IpAddressPoolBlockSubnet.t)
  : outcome (option Infra * option IpAddressPool.t * option IpAddressPoolBlockSubnet.t) :=
  r ← wrapIPPoolAndSubnets iap [iapbs];
  infra ← wrapInfra [r.1.1];
  Ret (infra, r.1.2, default None (head r.2)).

Definition WrapHierarchySegmentAndNAT (segment : option Segment.t)
    (bindingMaps : list (option SegmentConnectionBindingMap.t))
    (tier1 : option Tier1.t) (nat : option PolicyNat.t)
    (natRules : list (option PolicyNatRule.t))
  : outcome (option Infra * Wrapped) :=
  let infraChildren : list DataValue := [] in
  r ← wrapSegmentAndConnectionBindingMaps segment bindingMaps;
  let infraChildren := infraChildren ++ [r.1.1] in
  let w := mkWrapped None None r.1.2 r.2 tier1 nat natRules in
  r2 ← match tier1 with
       | Some _ =>
           t ← wrapTier1AndNATRules tier1 nat natRules;
           Ret (infraChildren ++ [t.1.1.1],
                mkWrapped None None r.1.2 r.2 t.1.1.2 t.1.2 t.2)
       | None => Ret (infraChildren, w)
       end;
  infra ← wrapInfra r2.1;
  Ret (infra, r2.2).

Definition WrapHierarchyChildSegment (segment : option Segment.t)
    (bindingMaps : list (option SegmentConnectionBindingMap.t))
  : outcome (option Infra * option Segment.t * list (option SegmentConnectionBindingMap.t)) :=
  r ← wrapSegmentAndConnectionBindingMaps segment bindingMaps;
  infra ← wrapInfra [r.1.1];
  Ret (infra, r.1.2, r.2).

(** *** t1builder.go *)

Definition ipPoolPPrefix : string := "ipc".
Definition ipPoolSubnetPrefix : string := "ibs".
Definition childSegmentPrefix : string := "cs".
Definition segmentConnectionBindingMapPrefix : string := "scbm".
Definition policyNATRulePrefix : string := "pnr".
Definition defaultNAT : string := "DEFAULT".

Definition buildIPPoolID (childSubnet : ChildSubnet) : string :=
  GenerateID (UID childSubnet) ipPoolPPrefix "" "".
Definition buildIPPoolName (childSubnet : ChildSubnet) : string :=
  GenerateDisplayName (Name childSubnet) ipPoolPPrefix "" "" "".
Definition buildIPPoolIntentPath (childSubnet : ChildSubnet) : string :=
  "/infra/ip-pools" +:+ "/" +:+ buildIPPoolID childSubnet.
Definition buildIPSubnetID (childSubnet : ChildSubnet) : string :=
  GenerateID (UID childSubnet) ipPoolSubnetPrefix "" "".
Definition buildIPSubnetName (childSubnet : ChildSubnet) : string :=
  GenerateDisplayName (Name childSubnet) ipPoolSubnetPrefix "" "" "".
Definition buildIPSubnetIntentPath (childSubnet : ChildSubnet) : string :=
  "/infra/ip-pools" +:+ "/" +:+ buildIPPoolID childSubnet +:+ "/" +:+ "ip-subnets"
  +:+ "/" +:+ buildIPSubnetID childSubnet.

Definition buildIPSubnet (childSubnet : ChildSubnet) (ipBlockPath : option string)
    (basicTags : list Tag) : option IpAddressPoolBlockSubnet.t :=
  BuildIPSubnet (Some (buildIPSubnetID childSubnet)) (Some (buildIPSubnetName childSubnet))
    ipBlockPath basicTags
    (Some (CalculateSubnetSize (Spec_SubnetPrefixLength childSubnet))).

Definition buildIPPoolWithSubnets (childSubnet : ChildSubnet) (ipBlockPath : option string)
    (basicTags : list Tag)
  : option IpAddressPool.t * option IpAddressPoolBlockSubnet.t :=
  (BuildIPPool (Some (buildIPPoolID childSubnet)) (Some (buildIPPoolName childSubnet)) basicTags,
   buildIPSubnet childSubnet ipBlockPath basicTags).

Definition buildSegmentID (childSubnet : ChildSubnet) : string :=
  GenerateID (UID childSubnet) childSegmentPrefix "" "".
Definition buildSegmentName (childSubnet : ChildSubnet) : string :=
  GenerateDisplayName (Name childSubnet) childSegmentPrefix "" "" "".
Definition buildSegmentIntentPath (childSubnet : ChildSubnet) : string :=
  "/infra/segments" +:+ "/" +:+ buildSegmentID childSubnet.

(** [BuildSegment]; [gateways[i].String()] reads through each pointer. *)
Definition BuildSegment (id name connectivityPath tzPath : option string)
    (gateways : list (option IPNet)) (ipPoolPath : string) (tags : list Tag)
  : outcome (option Segment.t) :=
  subnets ← foldM (fun acc g => n ← deref g; Ret (acc ++ [Some (IPNet_String n)]))
                  [] gateways;
  Ret (Some (Segment.mk id name connectivityPath tzPath None subnets
               (Some [ipPoolPath]) tags None None [])).

Definition buildSegment (childSubnet : ChildSubnet) (parentConfig : ParentConfig)
    (ipPoolPath : string) (subnetGateways : list (option IPNet)) (tags : list Tag)
  : outcome (option Segment.t) :=
  BuildSegment (Some (buildSegmentID childSubnet)) (Some (buildSegmentName childSubnet))
    (Some (tier1Path parentConfig)) (Some (transportZonePath parentConfig))
    subnetGateways ipPoolPath tags.

(** [strings.Split(path, "/")] and the last item of its result. *)
Fixpoint lastItem (acc : string) (s : string) : string :=
  match s with
  | EmptyString => acc
  | String c s' =>
      if bool_decide (c = "/"%char) then lastItem "" s'
      else lastItem (acc +:+ String c EmptyString) s'
  end.
Definition getSegmentIDFromPath (path : string) : string := lastItem "" path.

Definition buildSegmentBindingMapID (childSubnet : ChildSubnet) (parentID : string) : string :=
  GenerateID (UID childSubnet) segmentConnectionBindingMapPrefix parentID "".
Definition buildSegmentBindingMapName (childSubnet : ChildSubnet) (parentID : string) : string :=
  GenerateDisplayName (Name childSubnet) segmentConnectionBindingMapPrefix parentID "" "".

Definition BuildSegmentConnectionBindingMap (id name parentPath : option string)
    (vlanTag : Z) (tags : list Tag) : option SegmentConnectionBindingMap.t :=
  Some (SegmentConnectionBindingMap.mk id name parentPath None (Some vlanTag) tags None None).

(** [buildSegmentConnectionBindingMaps].  The slice is made with
    [len(parentPaths)] elements, all nil, and the binding maps are then
    appended to it.  The set is ranged over in the order of [elements]. *)
Definition buildSegmentConnectionBindingMaps (childSubnet : ChildSubnet)
    (parentConfig : ParentConfig) (vlanTag : Z) (tags : list Tag)
  : list (option SegmentConnectionBindingMap.t) :=
  let parentPaths := segmentPaths parentConfig in
  let bindingMaps : list (option SegmentConnectionBindingMap.t) :=
    replicate (size parentPaths) None in
  let bindMapTags :=
    tags ++ [mkTag (Some TagScopeParentConfigUID) (Some (id parentConfig))] in
  fold_left (fun bindingMaps parentPath =>
               let parentID := getSegmentIDFromPath parentPath in
               let id := Some (buildSegmentBindingMapID childSubnet parentID) in
               let name := Some (buildSegmentBindingMapName childSubnet parentID) in
               let bindingMap :=
                 BuildSegmentConnectionBindingMap id name (Some parentPath) vlanTag bindMapTags in
               bindingMaps ++ [bindingMap])
            (elements parentPaths) bindingMaps.

Definition BuildDefaultSNAT : option PolicyNat.t :=
  Some (PolicyNat.mk (Some defaultNAT) (Some defaultNAT) (Some "DEFAULT") None None []).

Definition BuildNATRules (id name natAction : option string) (networkCIDR : option IPNet)
    (isSrc : bool) (tags : list Tag) : outcome (option PolicyNatRule.t) :=
  n ← deref networkCIDR;
  let network := Some (IPNet_String n) in
  Ret (Some (if isSrc
             then PolicyNatRule.mk id name natAction network None tags None None
             else PolicyNatRule.mk id name natAction None network tags None None)).

(** [fmt.Sprintf("%d", index)] for the indexes that occur. *)
Definition showIndex (index : nat) : string := pretty index.

Definition buildPolicyNATRuleID (childSubnet : ChildSubnet) (index : nat) : string :=
  GenerateID (UID childSubnet) policyNATRulePrefix "" (showIndex index).
Definition buildPolicyNATRuleName (childSubnet : ChildSubnet) (index : nat) : string :=
  GenerateDisplayName (Name childSubnet) policyNATRulePrefix (showIndex index) "" "".

Definition buildPolicySNATRules (childSubnet : ChildSubnet)
    (subnetNetworks : list (option IPNet)) (tags : list Tag)
  : outcome (list (option PolicyNatRule.t)) :=
  let snatAction :=
    if bool_decide (Spec_AccessMode childSubnet = AccessModePublic)
    then Some "NO_SNAT" else Some "SNAT" in
  r ← foldM (fun acc networkCDIR =>
               let indexBase := (acc.1 * 2)%nat in
               r1 ← BuildNATRules (Some (buildPolicyNATRuleID childSubnet indexBase))
                      (Some (buildPolicyNATRuleName childSubnet indexBase))
                      snatAction networkCDIR true tags;
               r2 ← BuildNATRules (Some (buildPolicyNATRuleID childSubnet (indexBase + 1)))
                      (Some (buildPolicyNATRuleName childSubnet (indexBase + 1)))
                      snatAction networkCDIR false tags;
               Ret (S acc.1, acc.2 ++ [r1; r2]))
            (0%nat, []) subnetNetworks;
  Ret r.2.

(** *** The comparable adapters *)

(** [SegmentConnectionBindingMap.Key] *)
Definition Key (scbm : option SegmentConnectionBindingMap.t) : outcome string :=
  b ← deref scbm; deref (SegmentConnectionBindingMap.Id b).

(** [SegmentConnectionBindingMap.Value]: a copy holding the id, the display
    name and the tags is converted; the converter's errors are dropped, and
    with them the value. *)
Definition Value (scbm : option SegmentConnectionBindingMap.t) : outcome (option DataValue) :=
  b ← deref scbm;
  let s := SegmentConnectionBindingMap.mk
             (SegmentConnectionBindingMap.Id b) (SegmentConnectionBindingMap.DisplayName b)
             None None None (SegmentConnectionBindingMap.Tags b) None None in
  match ConvertToVapi (SegmentConnectionBindingMap.data s) with
  | Ret dataValue => Ret (Some dataValue)
  | _ => Ret None
  end.

Definition SegmentConnectionBindingMapToComparable
    (scbm : option SegmentConnectionBindingMap.t) : Comparable :=
  C_SegmentConnectionBindingMap scbm.

(** [SegmentConnectionBindingMapsToComparable]: again a slice made with
    [len(scbms)] nil elements, then appended to. *)
Definition SegmentConnectionBindingMapsToComparable
    (scbms : list (option SegmentConnectionBindingMap.t)) : list Comparable :=
  let bindingMaps : list Comparable := replicate (length scbms) C_nil in
  fold_left (fun bindingMaps scbm =>
               bindingMaps ++ [SegmentConnectionBindingMapToComparable scbm])
            scbms bindingMaps.

(** *** The stores *)

Definition parentSegmentPathKey : string := "parentSegment".
Definition t1PathIndexer : string := "t1PolicyPath".
Definition namespacedNameIndexKey : string := "namespacedName".

(** The [getByIndex] method of every store: the objects the index lists,
    or the error of the lookup. *)
Definition getByIndex {T : Type} (store : Cache T) (key value : string) : outcome (list T) :=
  match ByIndex store key value with
  | inl err => Fail err
  | inr indexResults => Ret indexResults
  end.

(** [SegmentStore.getByChildSubnet], [IPPoolStore.GetByChildSubnet],
    [IPPoolBlockSubnetStore.GetByChildSubnet]: the first object filed under
    the ChildSubnet, or nil. *)
Definition getByChildSubnet {T : Type} (store : Cache T) (uid : string) : outcome (option T) :=
  l ← getByIndex store TagScopeChildSubnetUID uid;
  Ret (head l).

(** [SegmentConnectionBindingMapStore.listByChildSubnet],
    [NATRuleStore.GetNATRulesByChildSubnet] *)
Definition listByChildSubnet {T : Type} (store : Cache T) (uid : string) : outcome (list T) :=
  getByIndex store TagScopeChildSubnetUID uid.

Definition listByParentSegmentPath (store : Cache SegmentConnectionBindingMap.t)
    (path : string) : outcome (list SegmentConnectionBindingMap.t) :=
  getByIndex store parentSegmentPathKey path.

Definition getByPolicyPath (store : Cache Tier1.t) (policyPath : string)
  : outcome (option Tier1.t) :=
  tier1s ← getByIndex store t1PathIndexer policyPath;
  Ret (head tier1s).

Definition getNamespacedName (namespace name : string) : string :=
  namespace +:+ "/" +:+ name.

(** [ParentConfigStore.getByNamespaceName(name, namespace)] *)
Definition getByNamespaceName (store : Cache ParentConfig) (name namespace : string)
  : outcome (option ParentConfig) :=
  pcs ← getByIndex store namespacedNameIndexKey (getNamespacedName namespace name);
  Ret (head pcs).

(** The body of an [Apply] for one object: delete it when it is marked for
    delete, add it otherwise. *)
Definition applyObject {T : Type} (marked : T -> option bool) (store : Cache T) (o : T)
  : error + Cache T :=
  if bool_decide (marked o = Some true) then Delete store o else Add store o.

(** The loop of the [Apply] methods that take a slice. *)
Fixpoint applyObjects {T : Type} (marked : T -> option bool) (store : Cache T)
    (l : list (option T)) : outcome unit * Cache T :=
  match l with
  | [] => (Ret (), store)
  | p :: l' =>
      match p with
      | None => (Panic NilDereference, store)
      | Some o =>
          match applyObject marked store o with
          | inl err => (Fail err, store)
          | inr store' => applyObjects marked store' l'
          end
      end
  end.

(** [IPPoolStore.Apply]: it asserts that [i] is one pointer to a
    [model.IpAddressPool]. *)
Definition IPPoolStore_Apply (store : Cache IpAddressPool.t) (i : iface)
  : outcome unit * Cache IpAddressPool.t :=
  match i with
  | I_IpAddressPool p => applyObjects IpAddressPool.MarkedForDelete store [p]
  | _ => (Panic InterfaceConversion, store)
  end.

(** [IPPoolBlockSubnetStore.Apply]: [i.([]*model.IpAddressPoolBlockSubnet)]. *)
Definition IPPoolBlockSubnetStore_Apply (store : Cache IpAddressPoolBlockSubnet.t) (i : iface)
  : outcome unit * Cache IpAddressPoolBlockSubnet.t :=
  match i with
  | I_IpAddressPoolBlockSubnets l =>
      applyObjects IpAddressPoolBlockSubnet.MarkedForDelete store l
  | _ => (Panic InterfaceConversion, store)
  end.

(** [SegmentStore.Apply]: [i.([]*model.Segment)]. *)
Definition SegmentStore_Apply (store : Cache Segment.t) (i : iface)
  : outcome unit * Cache Segment.t :=
  match i with
  | I_Segments l => applyObjects Segment.MarkedForDelete store l
  | _ => (Panic InterfaceConversion, store)
  end.

(** [SegmentConnectionBindingMapStore.Apply] *)
Definition SegmentConnectionBindingMapStore_Apply
    (store : Cache SegmentConnectionBindingMap.t) (i : iface)
  : outcome unit * Cache SegmentConnectionBindingMap.t :=
  match i with
  | I_SegmentConnectionBindingMaps l =>
      applyObjects SegmentConnectionBindingMap.MarkedForDelete store l
  | _ => (Panic InterfaceConversion, store)
  end.

(** [NATRuleStore.Apply]: [if i == nil { return nil }], and then it asserts
    that [i] is one pointer to a [model.PolicyNatRule]. *)
Definition NATRuleStore_Apply (store : Cache PolicyNatRule.t) (i : iface)
  : outcome unit * Cache PolicyNatRule.t :=
  match i with
  | I_nil => (Ret (), store)
  | I_PolicyNatRule p => applyObjects PolicyNatRule.MarkedForDelete store [p]
  | _ => (Panic InterfaceConversion, store)
  end.

(** *** childsubnet.go *)

(** The service.  [exhaustedIPBlock] is a Go map: [None] is the nil map of a
    service whose field was never made, as [InitializeChildSubnet] leaves
    it. *)
Record ChildSubnetService : Type := mkService {
  ipPoolStore : Cache IpAddressPool.t;
  ipBlockSubnetStore : Cache IpAddressPoolBlockSubnet.t;
  childSegmentStore : Cache Segment.t;
  connectionBindingMapStore : Cache SegmentConnectionBindingMap.t;
  tier1Store : Cache Tier1.t;
  natRuleStore : Cache PolicyNatRule.t;
  parentConfigStore : Cache ParentConfig;
  exhaustedIPBlock : option (gset string);
  NSX : NSXClient;
}.

Definition setNSX (c : NSXClient) (s : ChildSubnetService) : ChildSubnetService :=
  mkService (ipPoolStore s) (ipBlockSubnetStore s) (childSegmentStore s)
    (connectionBindingMapStore s) (tier1Store s) (natRuleStore s) (parentConfigStore s)
    (exhaustedIPBlock s) c.
Definition setExhaustedIPBlock (e : option (gset string)) (s : ChildSubnetService)
  : ChildSubnetService :=
  mkService (ipPoolStore s) (ipBlockSubnetStore s) (childSegmentStore s)
    (connectionBindingMapStore s) (tier1Store s) (natRuleStore s) (parentConfigStore s)
    e (NSX s).

(** The result of a method of the service and the service after it. *)
Definition SO (A : Type) : Type := outcome A * ChildSubnetService.

(** [x, err := c; if err != nil { return err }] in service state [s]. *)
Definition sbind {A B : Type} (c : outcome A) (s : ChildSubnetService) (k : A -> SO B) : SO B :=
  match c with
  | Ret a => k a
  | Fail e => (Fail e, s)
  | Panic f => (Panic f, s)
  end.

(** [sets.Set[string]]: [Has], [Insert] and [Delete] on a Go map. *)
Definition Has (s : option (gset string)) (item : string) : bool :=
  match s with
  | Some s => bool_decide (item ∈ s)
  | None => false
  end.
Definition Insert (s : option (gset string)) (item : string) : outcome (option (gset string)) :=
  match s with
  | Some s => Ret (Some ({[item]} ∪ s))
  | None => Panic NilMapAssignment
  end.
Definition SetDelete (s : option (gset string)) (item : string) : option (gset string) :=
  (fun s => s ∖ {[item]}) <$> s.

Notation "x ←[ s ] c ; k" := (sbind c s (fun x => k))
  (at level 20, c at level 100, k at level 200, only parsing, right associativity).

(** [nsxutil.DumpAPIError]: the structured error a backend error carries,
    if it carries one. *)
Definition DumpAPIError (err : error) : option ApiError :=
  match err with
  | BackendError api _ => api
  | _ => None
  end.

(** [regexp.MustCompile(`path=\[([^\]]+)\]`).FindStringSubmatch]: the first
    capture group of the leftmost match, [None] when nothing matches. *)
Fixpoint dropPrefix (p s : string) : option string :=
  match p, s with
  | EmptyString, _ => Some s
  | String a p', String b s' => if bool_decide (a = b) then dropPrefix p' s' else None
  | String _ _, EmptyString => None
  end.

(** The longest run of characters other than a closing bracket, and what
    follows it. *)
Fixpoint spanNotBracket (s : string) : string * string :=
  match s with
  | EmptyString => (EmptyString, EmptyString)
  | String c s' =>
      if bool_decide (c = "]"%char) then (EmptyString, s)
      else let r := spanNotBracket s' in (String c r.1, r.2)
  end.

(** A match that starts at the first character of [s]. *)
Definition matchPathHere (s : string) : option string :=
  match dropPrefix "path=[" s with
  | Some rest =>
      let r := spanNotBracket rest in
      match r.1, r.2 with
      | String _ _, String _ _ => Some r.1
      | _, _ => None
      end
  | None => None
  end.

Fixpoint FindStringSubmatch (s : string) : option string :=
  match matchPathHere s with
  | Some path => Some path
  | None =>
      match s with
      | EmptyString => None
      | String _ s' => FindStringSubmatch s'
      end
  end.

(** The loop of [createChildSubnets] over [apiErr.RelatedErrors], up to the
    point where it has the path of an exhausted block in hand. *)
Fixpoint exhaustedBlockPath (items : list RelatedApiError) : outcome (option string) :=
  match items with
  | [] => Ret None
  | apiErrItem :: rest =>
      code ← deref (rel_ErrorCode apiErrItem);
      if bool_decide (code = 520012%Z) then
        msg ← deref (rel_ErrorMessage apiErrItem);
        match FindStringSubmatch msg with
        | Some path => Ret (Some path)
        | None => exhaustedBlockPath rest
        end
      else exhaustedBlockPath rest
  end.

Definition getValidIPBlockPath (accessMode : string) (parentConfig : ParentConfig) : string :=
  if bool_decide (accessMode = AccessModePublic) then publicIPBlockPath parentConfig
  else privateIPBlockPath parentConfig.

Definition getParentConfig (service : ChildSubnetService) (childSubnet : ChildSubnet)
  : outcome ParentConfig :=
  parentConfig ← getByNamespaceName (parentConfigStore service)
                   (Spec_Parent childSubnet) (Namespace childSubnet);
  match parentConfig with
  | None =>
      Fail (Errorf ("no parent configuration found for ChildSubnet " +:+ UID childSubnet
                    +:+ " with value " +:+ Spec_Parent childSubnet))
  | Some parentConfig => Ret parentConfig
  end.

Definition getTier1ByParent (service : ChildSubnetService) (childSubnetID : string)
    (parentConfig : ParentConfig) : outcome (option Tier1.t) :=
  let tier1Path := tier1Path parentConfig in
  if bool_decide (tier1Path = "") then Ret None
  else getByPolicyPath (tier1Store service) tier1Path.

(** The body of the inner loop of [nextVlan]:
    [existingVlans.Insert( *bm.VlanTrafficTag)]. *)
Definition insertVlan (existingVlans : gset Z) (bm : SegmentConnectionBindingMap.t)
  : outcome (gset Z) :=
  tag ← deref (SegmentConnectionBindingMap.VlanTrafficTag bm);
  Ret ({[tag]} ∪ existingVlans).

(** The body of the outer loop of [nextVlan], for one parent path. *)
Definition collectPath (service : ChildSubnetService) (existingVlans : gset Z)
    (parentPath : string) : outcome (gset Z) :=
  match listByParentSegmentPath (connectionBindingMapStore service) parentPath with
  | Fail _ => Ret existingVlans          (* log.Error; continue *)
  | Panic f => Panic f
  | Ret bindingMaps => foldM insertVlan existingVlans bindingMaps
  end.

(** The VLAN tags [nextVlan] collects: for every parent path whose listing
    succeeds, the tag of every binding map listed. *)
Definition collectVlans (service : ChildSubnetService) (parentPaths : list string)
  : outcome (gset Z) :=
  foldM (collectPath service) (∅ : gset Z) parentPaths.

Definition nextVlan (service : ChildSubnetService) (childSubnet : ChildSubnet)
    (parentConfig : ParentConfig) : outcome Z :=
  let parentPaths := segmentPaths parentConfig in
  existingVlans ← collectVlans service (elements parentPaths);
  match List.find (fun i => bool_decide (i ∉ existingVlans)) (seqZ 1 4094) with
  | Some i => Ret i
  | None =>
      Fail (Errorf ("no valid VLAN for segment connection binding maps for ChildSubnet "
                    +:+ UID childSubnet +:+ " to parent " +:+ Spec_Parent childSubnet))
  end.

(** The two nested loops of [acquireSegmentCIDRAndGateway] over the
    realized entities and their extended attributes. *)
Definition readRealized (results : list GenericPolicyRealizedResource)
  : outcome (option IPNet * option net_IP) :=
  foldM (fun acc realizedEntity =>
           entityType ← deref (EntityType realizedEntity);
           if bool_decide (entityType = "IpBlockSubnet") then
             foldM (fun (acc : option IPNet * option net_IP) attr =>
                      key ← deref (attr_Key attr);
                      if bool_decide (key = "cidr") then
                        match attr_Values attr with
                        | [] => Panic IndexOutOfRange
                        | v :: _ => Ret (ParseCIDR v, acc.2)
                        end
                      else if bool_decide (key = "gateway_ip") then
                        match attr_Values attr with
                        | [] => Panic IndexOutOfRange
                        | v :: _ => Ret (acc.1, ParseIP v)
                        end
                      else Ret acc)
                   acc (ExtendedAttributes realizedEntity)
           else Ret acc)
        (None, None) results.

(** [acquireSegmentCIDRAndGateway] with [retry] further attempts left.  The
    pause between two attempts changes nothing in the state and is not
    represented. *)
Fixpoint acquireAttempts (retry : nat) (intentPath : string) (c : NSXClient)
  : outcome (option IPNet * option net_IP) * NSXClient :=
  let r := InfraRealizedStateClient_List c intentPath in
  match r.1 with
  | inl err => (Fail err, r.2)
  | inr results =>
      match readRealized results with
      | Ret (Some cidr, Some gw) => (Ret (Some cidr, Some gw), r.2)
      | Ret _ =>
          match retry with
          | S retry' => acquireAttempts retry' intentPath r.2
          | O => (Ret (None, None), r.2)
          end
      | Fail e => (Fail e, r.2)
      | Panic f => (Panic f, r.2)
      end
  end.

Definition acquireSegmentCIDRAndGateway (service : ChildSubnetService)
    (childSubnet : ChildSubnet) (retry : Z) : SO (option IPNet * option net_IP) :=
  let r := acquireAttempts (Z.to_nat retry) (buildIPSubnetIntentPath childSubnet) (NSX service) in
  (r.1, setNSX r.2 service).

(** [applyResourcesInStore].  Each store is handed the value the call site
    builds: a slice for the pool store, the subnet store and the segment
    store, the slices it was given for the other two. *)
Definition applyResourcesInStore (service : ChildSubnetService)
    (nsxIPPool : option IpAddressPool.t)
    (nsxIPPoolSubnet : option IpAddressPoolBlockSubnet.t)
    (segment : option Segment.t)
    (bindingMaps : list (option SegmentConnectionBindingMap.t))
    (natRules : list (option PolicyNatRule.t)) : SO () :=
  let r := IPPoolStore_Apply (ipPoolStore service) (I_IpAddressPools [nsxIPPool]) in
  let service := mkService r.2 (ipBlockSubnetStore service) (childSegmentStore service)
                   (connectionBindingMapStore service) (tier1Store service)
                   (natRuleStore service) (parentConfigStore service)
                   (exhaustedIPBlock service) (NSX service) in
  _ ←[service] match r.1 with
               | Fail err => _ ← deref nsxIPPool; Fail err
               | o => o
               end;
  let r := IPPoolBlockSubnetStore_Apply (ipBlockSubnetStore service)
             (I_IpAddressPoolBlockSubnets [nsxIPPoolSubnet]) in
  let service := mkService (ipPoolStore service) r.2 (childSegmentStore service)
                   (connectionBindingMapStore service) (tier1Store service)
                   (natRuleStore service) (parentConfigStore service)
                   (exhaustedIPBlock service) (NSX service) in
  _ ←[service] match r.1 with
               | Fail err => _ ← deref nsxIPPoolSubnet; Fail err
               | o => o
               end;
  let r := SegmentStore_Apply (childSegmentStore service) (I_Segments [segment]) in
  let service := mkService (ipPoolStore service) (ipBlockSubnetStore service) r.2
                   (connectionBindingMapStore service) (tier1Store service)
                   (natRuleStore service) (parentConfigStore service)
                   (exhaustedIPBlock service) (NSX service) in
  _ ←[service] match r.1 with
               | Fail err => _ ← deref segment; Fail err
               | o => o
               end;
  let r := SegmentConnectionBindingMapStore_Apply (connectionBindingMapStore service)
             (I_SegmentConnectionBindingMaps bindingMaps) in
  let service := mkService (ipPoolStore service) (ipBlockSubnetStore service)
                   (childSegmentStore service) r.2 (tier1Store service)
                   (natRuleStore service) (parentConfigStore service)
                   (exhaustedIPBlock service) (NSX service) in
  _ ←[service] r.1;
  let r := NATRuleStore_Apply (natRuleStore service) (I_PolicyNatRules natRules) in
  let service := mkService (ipPoolStore service) (ipBlockSubnetStore service)
                   (childSegmentStore service) (connectionBindingMapStore service)
                   (tier1Store service) r.2 (parentConfigStore service)
                   (exhaustedIPBlock service) (NSX service) in
  _ ←[service] r.1;
  (Ret (), service).

(** The branch of [createChildSubnets] taken when the Patch of the IP pool
    fails with [err]. *)
Definition handlePatchError (service : ChildSubnetService) (err : error)
  : SO (string * option IPNet * Z) :=
  match DumpAPIError err with
  | Some apiErr =>
      found ←[service] exhaustedBlockPath (RelatedErrors apiErr);
      match found with
      | Some path =>
          let exhausted := IPBlockExhaustedError ("ip block " +:+ path +:+ " is exhausted") in
          if Has (exhaustedIPBlock service) path then (Fail exhausted, service)
          else
            e ←[service] Insert (exhaustedIPBlock service) path;
            (Fail exhausted, setExhaustedIPBlock e service)
      | None => (Fail err, service)
      end
  | None => (Fail err, service)
  end.

(** The function deferred by [createChildSubnets]; [nsxErr] is the value of
    the variable when the function is left. *)
Definition rollbackIPPool (nsxErr : option error)
    (nsxIPPool : option IpAddressPool.t)
    (nsxIPPoolSubnet : option IpAddressPoolBlockSubnet.t)
    (service : ChildSubnetService) : SO () :=
  match nsxErr with
  | None => (Ret (), service)
  | Some _ =>
      p ←[service] deref nsxIPPool;
      let nsxIPPool := Some (IpAddressPool.setMarkedForDelete (Some true) p) in
      s ←[service] deref nsxIPPoolSubnet;
      let nsxIPPoolSubnet := Some (IpAddressPoolBlockSubnet.setMarkedForDelete (Some true) s) in
      let deleteInfraIPPool :=
        match WrapHierarchyIPPool nsxIPPool nsxIPPoolSubnet with
        | Ret r => r.1.1
        | _ => None
        end in
      infra ←[service] deref deleteInfraIPPool;
      let r := InfraClient_Patch (NSX service) infra in
      (Ret (), setNSX r.2 service)
  end.

(** [createChildSubnets] after the Patch of the IP pool has succeeded, up
    to the point where the function is left: its result, and [nsxErr]. *)
Definition createSegmentAndNAT (service : ChildSubnetService) (childSubnet : ChildSubnet)
    (parentConfig : ParentConfig) (tags : list Tag) (vlan : Z) (tier1 : option Tier1.t)
    (nsxIPPool : option IpAddressPool.t)
    (nsxIPPoolSubnet : option IpAddressPoolBlockSubnet.t)
  : SO (string * option IPNet * Z) * option error :=
  let a := acquireSegmentCIDRAndGateway service childSubnet RealizeMaxRetries in
  let service := a.2 in
  match a.1 with
  | Fail nsxErr => ((Fail nsxErr, service), Some nsxErr)
  | Panic f => ((Panic f, service), None)
  | Ret (cidr, gw) =>
      match cidr with
      | None => ((Panic NilDereference, service), None)     (* cidr.Mask *)
      | Some c =>
          let gwNet := Some (mkIPNet gw (Mask c)) in
          let ipPoolIntentPath := buildIPPoolIntentPath childSubnet in
          match
            segment ← buildSegment childSubnet parentConfig ipPoolIntentPath [gwNet] tags;
            let bindingMaps := buildSegmentConnectionBindingMaps childSubnet parentConfig vlan tags in
            let nat := BuildDefaultSNAT in
            natRules ← buildPolicySNATRules childSubnet [cidr] tags;
            Ret (WrapHierarchySegmentAndNAT segment bindingMaps tier1 nat natRules)
          with
          | Panic f => ((Panic f, service), None)
          | Fail e => ((Fail e, service), None)
          | Ret (Panic f) => ((Panic f, service), None)
          | Ret (Fail err) => ((Fail err, service), Some err)       (* nsxErr = err *)
          | Ret (Ret (infraUpdate, w)) =>
              match infraUpdate with
              | None => ((Panic NilDereference, service), None)
              | Some infra =>
                  let r := InfraClient_Patch (NSX service) infra in
                  let service := setNSX r.2 service in
                  match r.1 with
                  | Some nsxErr => ((Fail nsxErr, service), Some nsxErr)
                  | None =>
                      let segmentPath := buildSegmentIntentPath childSubnet in
                      (* on an error of the store the function returns the
                         error together with the path, gateway and VLAN *)
                      let r := applyResourcesInStore service nsxIPPool nsxIPPoolSubnet
                                 (w_segment w) (w_bindingMaps w) (w_natRules w) in
                      (_ ←[r.2] r.1; (Ret (segmentPath, gwNet, vlan), r.2), None)
                  end
              end
          end
      end
  end.

Definition createChildSubnets (service : ChildSubnetService) (childSubnet : ChildSubnet)
    (parentConfig : ParentConfig) (tags : list Tag) : SO (string * option IPNet * Z) :=
  vlan ←[service] nextVlan service childSubnet parentConfig;
  tier1 ←[service] getTier1ByParent service (UID childSubnet) parentConfig;
  let ipBlockPath := Some (getValidIPBlockPath (Spec_AccessMode childSubnet) parentConfig) in
  let b := buildIPPoolWithSubnets childSubnet ipBlockPath tags in
  r ←[service] WrapHierarchyIPPool b.1 b.2;
  let nsxIPPool := r.1.2 in
  let nsxIPPoolSubnet := r.2 in
  infraIPPool ←[service] deref r.1.1;
  let p := InfraClient_Patch (NSX service) infraIPPool in
  let service := setNSX p.2 service in
  match p.1 with
  | Some err => handlePatchError service err
  | None =>
      let body := createSegmentAndNAT service childSubnet parentConfig tags vlan tier1
                    nsxIPPool nsxIPPoolSubnet in
      let d := rollbackIPPool body.2 nsxIPPool nsxIPPoolSubnet body.1.2 in
      match d.1 with
      | Ret _ => (body.1.1, d.2)
      | Fail e => (Fail e, d.2)
      | Panic f => (Panic f, d.2)
      end
  end.

(** The last statements of [DeleteChildSubnet]: the bookkeeping of the
    exhausted IP blocks. *)
Definition releaseExhaustedIPBlock (service : ChildSubnetService)
    (ipPoolSubnet : option IpAddressPoolBlockSubnet.t) : SO () :=
  s ←[service] deref ipPoolSubnet;
  match IpAddressPoolBlockSubnet.IpBlockPath s with
  | Some ipBlockPath =>
      if Has (exhaustedIPBlock service) ipBlockPath then
        (Ret (), setExhaustedIPBlock (SetDelete (exhaustedIPBlock service) ipBlockPath) service)
      else (Ret (), service)
  | None => (Ret (), service)
  end.

Definition DeleteChildSubnet (service : ChildSubnetService) (childSubnet : ChildSubnet) : SO () :=
  childSegment ←[service] getByChildSubnet (childSegmentStore service) (UID childSubnet);
  match childSegment with
  | None => (Ret (), service)
  | Some segment =>
      let childSegment := Some (Segment.setMarkedForDelete (Some true) segment) in
      (* the error of this listing is overwritten by the next assignment *)
      let bindingMaps :=
        match listByChildSubnet (connectionBindingMapStore service) (UID childSubnet) with
        | Ret l => (fun b => Some (SegmentConnectionBindingMap.setMarkedForDelete (Some true) b)) <$> l
        | _ => []
        end in
      parentConfig ←[service] getParentConfig service childSubnet;
      tier1 ←[service] getTier1ByParent service (UID childSubnet) parentConfig;
      natRules ←[service] listByChildSubnet (natRuleStore service) (UID childSubnet);
      let natRules := (fun r => Some (PolicyNatRule.setMarkedForDelete (Some true) r)) <$> natRules in
      let nat := BuildDefaultSNAT in
      ipPool ←[service] getByChildSubnet (ipPoolStore service) (UID childSubnet);
      let ipPool := IpAddressPool.setMarkedForDelete (Some true) <$> ipPool in
      ipPoolSubnet ←[service] getByChildSubnet (ipBlockSubnetStore service) (UID childSubnet);
      let ipPoolSubnet := IpAddressPoolBlockSubnet.setMarkedForDelete (Some true) <$> ipPoolSubnet in
      r ←[service] WrapHierarchyInfra ipPool ipPoolSubnet childSegment bindingMaps tier1 nat natRules;
      let w := r.2 in
      let p := match r.1 with
               | Some infraUpdate =>
                   let p := InfraClient_Patch (NSX service) infraUpdate in
                   (p.1, setNSX p.2 service)
               | None => (None, service)
               end in
      let service := p.2 in
      match p.1 with
      | Some err => (Fail err, service)
      | None =>
          let a := applyResourcesInStore service (w_ipPool w) (w_ipSubnet w) (w_segment w)
                     (w_bindingMaps w) (w_natRules w) in
          _ ←[a.2] a.1;
          releaseExhaustedIPBlock a.2 (w_ipSubnet w)
      end
  end.

(** *** types.go *)

Section rest.
Context `{Common}.

(** [ParentConfig.getNamespacedName] *)
Definition ParentConfig_getNamespacedName (c : option ParentConfig) : outcome string :=
  c ← deref c; Ret (getNamespacedName (namespace c) (name c)).

(** [ParentConfig.setIPBlockPaths(privateIPBlock, publicIPBlock)]; the
    result is the configuration after the call. *)
Definition setIPBlockPaths (c : ParentConfig)
    (privateIPBlock publicIPBlock : option IpAddressBlock.t) : outcome ParentConfig :=
  b ← deref privateIPBlock;
  private ← deref (IpAddressBlock.Path b);
  b ← deref publicIPBlock;
  public ← deref (IpAddressBlock.Path b);
  Ret (mkParentConfig (id c) (name c) (namespace c) (tier1Path c) (transportZonePath c)
         (segmentPaths c) public private (markedForDelete c)).

(** [ParentConfig.equals]; [sets.String.Equal] holds of two sets with the
    same members. *)
Definition equals (c config : option ParentConfig) : outcome bool :=
  c ← deref c;
  config ← deref config;
  if bool_decide (id c <> id config) || bool_decide (namespace c <> namespace config)
     || bool_decide (name c <> name config) || bool_decide (tier1Path c <> tier1Path config)
     || bool_decide (transportZonePath c <> transportZonePath config)
     || bool_decide (publicIPBlockPath c <> publicIPBlockPath config)
     || bool_decide (privateIPBlockPath c <> privateIPBlockPath config)
  then Ret false
  else Ret (bool_decide (segmentPaths c = segmentPaths config)).

(** *** The other comparable adapters *)

(** [ComparableToSegmentConnectionBindingMap]: the type assertion panics on
    a nil interface and on the other adapter type. *)
Definition ComparableToSegmentConnectionBindingMap (scbm : Comparable)
  : outcome (option SegmentConnectionBindingMap.t) :=
  match scbm with
  | C_SegmentConnectionBindingMap p => Ret p
  | _ => Panic InterfaceConversion
  end.

(** [ComparableToSegmentConnectionBindingMaps]: a slice made with
    [len(scbms)] nil elements, then appended to. *)
Definition ComparableToSegmentConnectionBindingMaps (scbms : list Comparable)
  : outcome (list (option SegmentConnectionBindingMap.t)) :=
  foldM (fun bindingMaps scbm =>
           bindingMap ← ComparableToSegmentConnectionBindingMap scbm;
           Ret (bindingMaps ++ [bindingMap]))
        (replicate (length scbms) None) scbms.

(** [Segment.Key] and [Segment.Value] *)
Definition Segment_Key (s : option Segment.t) : outcome string :=
  s ← deref s; deref (Segment.Id s).

Definition Segment_Value (s : option Segment.t) : outcome (option DataValue) :=
  s ← deref s;
  let segment := Segment.mk (Segment.Id s) (Segment.DisplayName s) None None None []
                   None (Segment.Tags s) None None [] in
  match ConvertToVapi (Segment.data segment) with
  | Ret dataValue => Ret (Some dataValue)
  | _ => Ret None
  end.

Definition SegmentToComparable (s : option Segment.t) : Comparable := C_Segment s.

Definition ComparableToSegment (s : Comparable) : outcome (option Segment.t) :=
  match s with
  | C_Segment p => Ret p
  | _ => Panic InterfaceConversion
  end.

Definition SegmentsToComparable (ss : list (option Segment.t)) : list Comparable :=
  let segments : list Comparable := replicate (length ss) C_nil in
  fold_left (fun segments s => segments ++ [SegmentToComparable s]) ss segments.

Definition ComparableToSegments (ss : list Comparable) : outcome (list (option Segment.t)) :=
  foldM (fun segments s =>
           segment ← ComparableToSegment s;
           Ret (segments ++ [segment]))
        (replicate (length ss) None) ss.

(** *** The entry points of childsubnet.go *)

(** [parseParentPathFromBindingMaps] *)
Definition parseParentPathFromBindingMaps
    (bindingMaps : list (option SegmentConnectionBindingMap.t)) : outcome (gset string) :=
  foldM (fun (parentPaths : gset string) bindingMap =>
           b ← deref bindingMap;
           p ← deref (SegmentConnectionBindingMap.ParentPath b);
           Ret ({[p]} ∪ parentPaths))
        ∅ bindingMaps.

(** [ApplySegmentConnectionBindingMaps] *)
Definition ApplySegmentConnectionBindingMaps (service : ChildSubnetService)
    (childSubnetID : string) (childSegment : option Segment.t)
    (finalBindingMaps : list (option SegmentConnectionBindingMap.t)) : SO () :=
  r ←[service] WrapHierarchyChildSegment childSegment finalBindingMaps;
  infraSegment ←[service] deref r.1.1;
  let p := InfraClient_Patch (NSX service) infraSegment in
  let service := setNSX p.2 service in
  match p.1 with
  | Some err =>
      (* the log line reads childSegment.Id *)
      _ ←[service] deref r.1.2;
      (Fail err, service)
  | None =>
      let a := SegmentConnectionBindingMapStore_Apply (connectionBindingMapStore service)
                 (I_SegmentConnectionBindingMaps r.2) in
      let service := mkService (ipPoolStore service) (ipBlockSubnetStore service)
                       (childSegmentStore service) a.2 (tier1Store service)
                       (natRuleStore service) (parentConfigStore service)
                       (exhaustedIPBlock service) (NSX service) in
      _ ←[service] a.1;
      (Ret (), service)
  end.

(** [updateChildSubnetBindingMaps] *)
Definition updateChildSubnetBindingMaps (service : ChildSubnetService)
    (childSubnet : ChildSubnet) (parentConfig : ParentConfig)
    (childSegment : option Segment.t) (tags : list Tag) : SO () :=
  let vlan := Status_Vlan childSubnet in
  let desiredBindingMaps :=
    buildSegmentConnectionBindingMaps childSubnet parentConfig vlan tags in
  existingBindingMaps ←[service]
    listByChildSubnet (connectionBindingMapStore service) (UID childSubnet);
  r ←[service] CompareResources
                 (SegmentConnectionBindingMapsToComparable (Some <$> existingBindingMaps))
                 (SegmentConnectionBindingMapsToComparable desiredBindingMaps);
  let changed := r.1 in
  let staled := r.2 in
  if bool_decide (length changed = 0%nat) && bool_decide (length staled = 0%nat) then
    (Ret (), service)
  else
    changedBindingMaps ←[service] ComparableToSegmentConnectionBindingMaps changed;
    staledBindingMaps ←[service] ComparableToSegmentConnectionBindingMaps staled;
    staledBindingMaps ←[service]
      foldM (fun marked bindingMap =>
               b ← deref bindingMap;
               Ret (marked ++ [Some (SegmentConnectionBindingMap.setMarkedForDelete
                                       (Some true) b)]))
            [] staledBindingMaps;
    let finalBindingMaps := changedBindingMaps ++ staledBindingMaps in
    ApplySegmentConnectionBindingMaps service (UID childSubnet) childSegment finalBindingMaps.

(** What [CreateOrUpdateChildSubnet] writes into the status of the
    ChildSubnet: the path of the child segment, the gateway address added to
    the addresses, and the VLAN. *)
Record StatusUpdate : Type := mkStatusUpdate {
  NSXResourcePath : string;
  IPAddress : string;
  Vlan : Z;
}.

(** [CreateOrUpdateChildSubnet]: the boolean and the error it returns, and
    the status it has written, if any. *)
Definition CreateOrUpdateChildSubnet (service : ChildSubnetService)
    (childSubnet : ChildSubnet) : SO (bool * option error * option StatusUpdate) :=
  match getParentConfig service childSubnet with
  | Panic f => (Panic f, service)
  | Fail err => (Ret (false, Some err, None), service)
  | Ret parentConfig =>
      let basicTags := BuildBasicTags NSXConfig_Cluster childSubnet "" in
      match getByChildSubnet (childSegmentStore service) (UID childSubnet) with
      | Panic f => (Panic f, service)
      | Fail err => (Ret (false, Some err, None), service)
      | Ret (Some childSegment) =>
          let r := updateChildSubnetBindingMaps service childSubnet parentConfig
                     (Some childSegment) basicTags in
          match r.1 with
          | Ret _ => (Ret (true, None, None), r.2)
          | Fail err => (Ret (true, Some err, None), r.2)
          | Panic f => (Panic f, r.2)
          end
      | Ret None =>
          let r := createChildSubnets service childSubnet parentConfig basicTags in
          match r.1 with
          | Panic f => (Panic f, r.2)
          | Fail err => (Ret (false, Some err, None), r.2)
          | Ret (childPath, gwNet, vlan) =>
              match gwNet with
              | None => (Panic NilDereference, r.2)
              | Some n =>
                  (Ret (true, None, Some (mkStatusUpdate childPath (IPNet_String n) vlan)), r.2)
              end
          end
      end
  end.

(** *** The resolution of parent configurations *)

(** [SegmentStore.listByParent] *)
Definition listByParent (store : Cache Segment.t) (uid : string) : outcome (list Segment.t) :=
  getByIndex store TagScopeNCPVNetworkUID uid.

(** [IPBlockStore.GetBySupervisorCluster] *)
Definition GetBySupervisorCluster (store : Cache IpAddressBlock.t) (clusterName : string)
  : outcome (option IpAddressBlock.t) :=
  ipBlocks ← getByIndex store TagScopeNCPCluster clusterName;
  match ipBlocks with
  | ipBlock :: _ => Ret (Some ipBlock)
  | [] => Fail (Errorf ("no IPBlock configured in cluster " +:+ clusterName))
  end.

(** [IPBlockStore.GetByNamespace] *)
Definition GetByNamespace (store : Cache IpAddressBlock.t) (uid : string)
  : outcome (list IpAddressBlock.t) :=
  getByIndex store TagScopeNCPProjectUID uid.

(** The loop of [ipBlockByOnlyClusterIndexFunc]: whether it returns from
    inside the loop.  The second test of the loop body repeats the first and
    is never reached, so that [index] is 0 when the loop ends. *)
Fixpoint hasClusterTag (tags : list Tag) : outcome bool :=
  match tags with
  | [] => Ret false
  | tag :: rest =>
      scope ← deref (Scope tag);
      if bool_decide (scope = TagScopeNCPCluster) then Ret true else hasClusterTag rest
  end.

(** [ipBlockByOnlyClusterIndexFunc].  The object is a pointer to an IP
    block, or, as [None], a value of another dynamic type. *)
Definition ipBlockByOnlyClusterIndexFunc (obj : option (option IpAddressBlock.t))
  : outcome (list string) :=
  match obj with
  | None => Fail (Errorf "indexFunc doesn't support unknown type")
  | Some ipBlock =>
      b ← deref ipBlock;
      returned ← hasClusterTag (IpAddressBlock.Tags b);
      if (returned : bool) then Ret []
      else
        match IpAddressBlock.Tags b with
        | [] => Panic IndexOutOfRange
        | tag :: _ => v ← deref (TagValue tag); Ret [v]
        end
  end.

(** [parseNamespaceIDFromTier1] *)
Definition parseNamespaceIDFromTier1 (tier1 : option Tier1.t) : outcome string :=
  t ← deref tier1;
  (fix loop (tags : list Tag) : outcome string :=
     match tags with
     | [] =>
         path ← deref (Tier1.Path t);
         Fail (Errorf ("unable to find Namespace ID from tier1 " +:+ path))
     | tag :: rest =>
         scope ← deref (Scope tag);
         if bool_decide (scope = TagScopeNCPProjectUID) then deref (TagValue tag)
         else loop rest
     end) (Tier1.Tags t).

(** The fields of the service that the resolution reads besides the
    tier-1 store. *)
Record ParentStores : Type := mkParentStores {
  ipBlockStore : Cache IpAddressBlock.t;
  parentSegmentStore : Cache Segment.t;
  vpcEnabled : bool;
}.

(** [buildParentConfigByVNet].  The configuration is built from a composite
    literal that sets the id, the name and the namespace: its set of segment
    paths is the nil map when the loop over the segments starts. *)
Definition buildParentConfigByVNet (service : ChildSubnetService) (parents : ParentStores)
    (vnet : VirtualNetwork) : outcome (option ParentConfig) :=
  segments ← listByParent (parentSegmentStore parents) (vnet_UID vnet);
  if bool_decide (length segments = 0%nat) then Ret None
  else
    ipBlock ← GetBySupervisorCluster (ipBlockStore parents) NSXConfig_Cluster;
    pc ← foldM (fun (pc : option (gset string) * string * string) segment =>
                  path ← deref (Segment.Path segment);
                  paths ← Insert pc.1.1 path;
                  t1 ← (if bool_decide (pc.1.2 = "")
                        then deref (Segment.ConnectivityPath segment) else Ret pc.1.2);
                  tz ← (if bool_decide (pc.2 = "")
                        then deref (Segment.TransportZonePath segment) else Ret pc.2);
                  Ret (paths, t1, tz))
               (None, "", "") segments;
    let pc := mkParentConfig (vnet_UID vnet) (vnet_Name vnet) (vnet_Namespace vnet)
                pc.1.2 pc.2 (default ∅ pc.1.1) "" "" None in
    pc ← (if vpcEnabled parents then Ret pc else setIPBlockPaths pc ipBlock ipBlock);
    if bool_decide (tier1Path pc <> "") then
      tier1 ← getByPolicyPath (tier1Store service) (tier1Path pc);
      match tier1 with
      | Some _ =>
          namespaceID ← parseNamespaceIDFromTier1 tier1;
          namespacedIPBlocks ← GetByNamespace (ipBlockStore parents) namespaceID;
          match namespacedIPBlocks with
          | ipBlock :: _ =>
              if vpcEnabled parents then
                pc ← setIPBlockPaths pc (Some ipBlock) (Some ipBlock); Ret (Some pc)
              else Ret (Some pc)
          | [] => Ret (Some pc)
          end
      | None => Ret (Some pc)
      end
    else Ret (Some pc).

(** *** The search query *)

(** [strings.Replace(s, old, new, -1)] for an [old] of one character. *)
Fixpoint replaceAll (old : ascii) (new : string) (s : string) : string :=
  match s with
  | EmptyString => EmptyString
  | String c s' =>
      (if bool_decide (c = old) then new else String c EmptyString) +:+ replaceAll old new s'
  end.

(** [generateQueryParams]; [strings.Join] is [String.concat]. *)
Definition generateQueryParams (resourceTypeValue : string) (tags : list Tag) : outcome string :=
  tagParams ← foldM (fun tagParams tag =>
                       scope ← deref (Scope tag);
                       let tagKey := replaceAll "/" "\/" scope in
                       let tagParams := tagParams ++ ["tags.scope:" +:+ tagKey] in
                       match TagValue tag with
                       | Some v =>
                           let tagValue := replaceAll ":" "\:" v in
                           Ret (tagParams ++ ["tags.tag:" +:+ tagValue])
                       | None => Ret tagParams
                       end)
                    [] tags;
  let resourceParam := ResourceType +:+ ":" +:+ resourceTypeValue in
  Ret (String.concat " AND " (resourceParam :: tagParams)).

End rest.

End service.
End childsubnet.

(** ** Vocabulary of the statements *)

Section shapes.
Context `{Env}.
Import subnetbinding.

(** The path [buildOrgRootBySubnetConnectionBindingMaps] parses for a
    binding map: the subnet path it was given, or the binding map's parent
    path when that is empty. *)
Definition parentPathOf (subnetPath : string) (bm : SubnetConnectionBindingMap.t)
  : option string :=
  if bool_decide (subnetPath = "") then SubnetConnectionBindingMap.ParentPath bm
  else Some subnetPath.

(** A binding map after the optional tombstone flag has been written. *)
Definition marked (markForDelete : option bool) (bm : SubnetConnectionBindingMap.t)
  : SubnetConnectionBindingMap.t :=
  match markForDelete with
  | Some _ => SubnetConnectionBindingMap.setMarkedForDelete markForDelete bm
  | None => bm
  end.

(** The leaf node of a binding map. *)
Definition leafNode (id : string) (bm : SubnetConnectionBindingMap.t) : hNode :=
  mkHNode leafType id (Some bm) [].

(** One organization, one project, one VPC and one subnet node, with the
    given nodes below the subnet. *)
Definition ancestorChain (info : VPCResourceInfo) (leaves : list hNode) : hNode :=
  mkHNode "Org" (OrgID info) None
    [mkHNode "Project" (ProjectID info) None
      [mkHNode "Vpc" (VPCID info) None
        [mkHNode "Subnet" (ID info) None leaves]]].

(** The leaf wrapper of a binding map in a request. *)
Definition leafWrapper (bm : SubnetConnectionBindingMap.t) : DataValue :=
  ChildSubnetConnectionBindingMap_data
    (SubnetConnectionBindingMap.setResourceType
       (Some ResourceTypeSubnetConnectionBIndingMap) bm).

(** The request for one ancestor chain: one child reference per ancestor,
    and the given wrappers below the subnet reference. *)
Definition ancestorChainData (info : VPCResourceInfo) (leaves : list DataValue) : DataValue :=
  ChildResourceReference_data "Org" (OrgID info)
    [ChildResourceReference_data "Project" (ProjectID info)
      [ChildResourceReference_data "Vpc" (VPCID info)
        [ChildResourceReference_data "Subnet" (ID info) leaves]]].

(** The segment a node stands for, and whether the node is an ancestor
    (anything but a leaf wrapper). *)
Definition segmentOf (n : hNode) : string * string := (resourceType n, resourceID n).
Definition isAncestor (n : hNode) : Prop := resourceType n <> leafType.
#[global] Instance isAncestor_dec n : Decision (isAncestor n).
Proof. unfold isAncestor. apply _. Defined.

(** No two ancestor nodes among the children of a node stand for the same
    segment, and so on below. *)
Fixpoint mergedOnce (n : hNode) : Prop :=
  match n with
  | mkHNode _ _ _ ch =>
      NoDup (segmentOf <$> filter isAncestor ch)
      /\ (fix all (l : list hNode) : Prop :=
            match l with
            | [] => True
            | c :: l' => mergedOnce c /\ all l'
            end) ch
  end.

(** A leaf of a tree with the segments of its ancestors, from the root
    down: the binding map's id and the binding map. *)
Definition leafEntry : Type :=
  list (string * string) * (string * option SubnetConnectionBindingMap.t).

Definition below (seg : string * string) (e : leafEntry) : leafEntry := (seg :: e.1, e.2).

(** The leaves of a tree, each with its ancestor path. *)
Fixpoint leafPaths (n : hNode) : list leafEntry :=
  match n with
  | mkHNode t i b ch =>
      if bool_decide (t = leafType) then [([], (i, b))]
      else below (t, i) <$>
             (fix all (l : list hNode) : list leafEntry :=
                match l with
                | [] => []
                | c :: l' => leafPaths c ++ all l'
                end) ch
  end.

(** The node that one iteration of the builder's loop merges into the
    root, if the binding map's path parses. *)
Definition insertedNode (markForDelete : option bool) (subnetPath : string)
    (bm : option SubnetConnectionBindingMap.t) : outcome (option hNode) :=
  insertBindingMap markForDelete subnetPath (mkHNode "OrgRoot" "" None []) bm
  ≫= fun r => Ret (head (childNodes r)).

Definition insertedLeaves (markForDelete : option bool) (subnetPath : string)
    (bm : option SubnetConnectionBindingMap.t) : list leafEntry :=
  match insertedNode markForDelete subnetPath bm with
  | Ret (Some node) => leafPaths node
  | _ => []
  end.

End shapes.

Section childsubnet_shapes.
Context `{Env} `{Indexer}.
Import childsubnet.

(** A VLAN tag is in use below a parent configuration when the
    parent-segment-path index lists, for one of the configuration's segment
    paths, a binding map that carries it. *)
Definition usedVlan (service : ChildSubnetService) (parentConfig : ParentConfig) (v : Z)
  : Prop :=
  exists parentPath bindingMaps bm,
    parentPath ∈ segmentPaths parentConfig
    /\ listByParentSegmentPath (connectionBindingMapStore service) parentPath = Ret bindingMaps
    /\ bm ∈ bindingMaps
    /\ SegmentConnectionBindingMap.VlanTrafficTag bm = Some v.

(** The binding map [buildSegmentConnectionBindingMaps] builds for one
    parent path. *)
Definition bindingMapFor (childSubnet : ChildSubnet) (parentConfig : ParentConfig)
    (vlanTag : Z) (tags : list Tag) (parentPath : string)
  : option SegmentConnectionBindingMap.t :=
  let parentID := getSegmentIDFromPath parentPath in
  BuildSegmentConnectionBindingMap
    (Some (buildSegmentBindingMapID childSubnet parentID))
    (Some (buildSegmentBindingMapName childSubnet parentID))
    (Some parentPath) vlanTag
    (tags ++ [mkTag (Some TagScopeParentConfigUID) (Some (id parentConfig))]).

(** A realized-state listing that does not yet show both the address block
    and the gateway of the pool subnet. *)
Definition unrealized (results : list GenericPolicyRealizedResource) : Prop :=
  match readRealized results with
  | Ret (Some _, Some _) => False
  | Ret _ => True
  | _ => False
  end.

End childsubnet_shapes.

(** ** More vocabulary *)

(** Whether a string holds a slash, and whether it holds a closing
    bracket. *)
Fixpoint hasSlash (s : string) : bool :=
  match s with
  | EmptyString => false
  | String c s' => bool_decide (c = "/"%char) || hasSlash s'
  end.

Fixpoint hasBracket (s : string) : bool :=
  match s with
  | EmptyString => false
  | String c s' => bool_decide (c = "]"%char) || hasBracket s'
  end.

#[global] Instance ParentConfig_eq_dec : EqDecision ParentConfig.
Proof. solve_decision. Defined.

Section more_shapes.
Context `{Env} `{Indexer} `{Common}.
Import childsubnet.



(** A parent configuration without its tombstone flag. *)
Definition unmarked (c : ParentConfig) : ParentConfig :=
  mkParentConfig (id c) (name c) (namespace c) (tier1Path c) (transportZonePath c)
    (segmentPaths c) (publicIPBlockPath c) (privateIPBlockPath c) None.

(** The wrapper of a binding map in a request, and the binding map as the
    wrapping leaves it. *)
Definition typedBindingMap (b : SegmentConnectionBindingMap.t) : SegmentConnectionBindingMap.t :=
  SegmentConnectionBindingMap.setResourceType (Some ResourceTypeSegmentConnectionBindingMap) b.
Definition bindingMapWrapper (b : SegmentConnectionBindingMap.t) : DataValue :=
  Child_data "ChildSegmentConnectionBindingMap" (SegmentConnectionBindingMap.Id b)
    (SegmentConnectionBindingMap.MarkedForDelete b) "SegmentConnectionBindingMap"
    (SegmentConnectionBindingMap.data (typedBindingMap b)).

(** The same for a segment with the given children. *)
Definition typedSegment (children : list DataValue) (s : Segment.t) : Segment.t :=
  Segment.setResourceType (Some ResourceTypeSegment) (Segment.setChildren children s).
Definition segmentWrapper (children : list DataValue) (s : Segment.t) : DataValue :=
  Child_data "ChildSegment" (Segment.Id s) (Segment.MarkedForDelete s) "Segment"
    (Segment.data (typedSegment children s)).

(** The same for an IP pool block subnet and for an IP pool. *)
Definition typedIPSubnet (s : IpAddressPoolBlockSubnet.t) : IpAddressPoolBlockSubnet.t :=
  IpAddressPoolBlockSubnet.setResourceType ResourceTypeIPPoolBlockSubnet s.
Definition ipSubnetWrapper (s : IpAddressPoolBlockSubnet.t) : DataValue :=
  Child_data "ChildIpAddressPoolSubnet" (IpAddressPoolBlockSubnet.Id s)
    (IpAddressPoolBlockSubnet.MarkedForDelete s) "IpAddressPoolSubnet"
    (IpAddressPoolBlockSubnet.data (typedIPSubnet s)).
Definition typedIPPool (children : list DataValue) (p : IpAddressPool.t) : IpAddressPool.t :=
  IpAddressPool.setResourceType (Some ResourceTypeIPPool) (IpAddressPool.setChildren children p).
Definition ipPoolWrapper (children : list DataValue) (p : IpAddressPool.t) : DataValue :=
  Child_data "ChildIpAddressPool" (IpAddressPool.Id p) (IpAddressPool.MarkedForDelete p)
    "IpAddressPool" (IpAddressPool.data (typedIPPool children p)).

(** Two states of the service that differ at most in the client of the
    backend and in the set of exhausted IP blocks: every store is the
    same. *)
Definition sameStores (service service' : ChildSubnetService) : Prop :=
  exists c e, service' = setExhaustedIPBlock e (setNSX c service).

(** The path a related error names as exhausted, if it is a capacity error
    (code 520012) whose message matches the pattern. *)
Definition capacityPathOf (apiErrItem : RelatedApiError) : option string :=
  match rel_ErrorCode apiErrItem, rel_ErrorMessage apiErrItem with
  | Some code, Some msg =>
      if bool_decide (code = 520012%Z) then FindStringSubmatch msg else None
  | _, _ => None
  end.

(** A related error that the loop of [createChildSubnets] can read: its
    code is set, and so is the message of a capacity error. *)
Definition readable (apiErrItem : RelatedApiError) : Prop :=
  match rel_ErrorCode apiErrItem with
  | Some code => code = 520012%Z -> is_Some (rel_ErrorMessage apiErrItem)
  | None => False
  end.

(** An entity of a realized-state listing that [acquireSegmentCIDRAndGateway]
    reads. *)
Definition isIpBlockSubnet (realizedEntity : GenericPolicyRealizedResource) : Prop :=
  EntityType realizedEntity = Some "IpBlockSubnet".
#[global] Instance isIpBlockSubnet_dec e : Decision (isIpBlockSubnet e).
Proof. unfold isIpBlockSubnet. apply _. Defined.

(** The terms a tag adds to a search query: one for its scope and, if it
    has a value, one for the value. *)
Definition tagTerms (tag : Tag) : list string :=
  match Scope tag with
  | Some scope =>
      ("tags.scope:" +:+ replaceAll "/" "\/" scope)
      :: match TagValue tag with
         | Some v => ["tags.tag:" +:+ replaceAll ":" "\:" v]
         | None => []
         end
  | None => []
  end.

End more_shapes.

Section more_builder_shapes.
Context `{Env}.
Import subnetbinding.

(** The leaf a binding map contributes to the tree, with the segments of
    its ancestors from the root down; none when its parent path does not
    parse. *)
Definition leafOf (markForDelete : option bool) (subnetPath : string)
    (bm : option SubnetConnectionBindingMap.t) : option leafEntry :=
  b ← bm;
  id ← SubnetConnectionBindingMap.Id b;
  path ← parentPathOf subnetPath b;
  match ParseVPCResourcePath path with
  | inr info =>
      Some ([("OrgRoot", ""); ("Org", OrgID info); ("Project", ProjectID info);
             ("Vpc", VPCID info); ("Subnet", ID info)],
            (id, Some (marked markForDelete b)))
  | inl _ => None
  end.

End more_builder_shapes.

(** ** A concrete environment, for running the embedding on examples *)

(** [strings.Split(s, "/")] *)
Fixpoint splitSlash (acc : string) (s : string) : list string :=
  match s with
  | EmptyString => [acc]
  | String c s' =>
      if bool_decide (c = "/"%char) then acc :: splitSlash "" s'
      else splitSlash (acc +:+ String c EmptyString) s'
  end.

(** Modelled from the spec: [common.ParseVPCResourcePath] is outside the
    sources at hand.  The spec has a leaf's ancestor path parsed into the
    ordered segments organization, project, virtual network and bound
    subnet; this parser reads them off a path of the form
    /orgs/O/projects/P/vpcs/V/subnets/S and rejects every other string. *)
Definition sampleParseVPCResourcePath (path : string) : error + VPCResourceInfo :=
  match splitSlash "" path with
  | [e; o; org; p; project; v; vpc; s; subnet] =>
      if bool_decide (e = "" /\ o = "orgs" /\ p = "projects" /\ v = "vpcs" /\ s = "subnets")
      then inr (mkVPCResourceInfo org project vpc subnet)
      else inl (Errorf ("invalid path '" +:+ path +:+ "'"))
  | _ => inl (Errorf ("invalid path '" +:+ path +:+ "'"))
  end.

(** The non-empty parts of an identifier, joined by [sep]. *)
Definition joinNonEmpty (sep : string) (parts : list string) : string :=
  match filter (fun p => p <> "") parts with
  | [] => ""
  | p :: ps => fold_left (fun acc q => acc +:+ sep +:+ q) ps p
  end.

#[local] Instance sampleEnv : Env := {|
  ParseVPCResourcePath := sampleParseVPCResourcePath;
  converterError := fun _ => None;
  ResourceTypeSubnetConnectionBIndingMap := "SubnetConnectionBindingMap";
  ResourceTypeIPPool := "IpAddressPool";
  ResourceTypeIPPoolBlockSubnet := "IpAddressPoolBlockSubnet";
  ResourceTypeSegment := "Segment";
  ResourceTypeSegmentConnectionBindingMap := "SegmentConnectionBindingMap";
  ResourceTypeTier1 := "Tier1";
  ResourceTypePolicyNAT := "PolicyNat";
  ResourceTypePolicyNATRule := "PolicyNatRule";
  TagScopeParentConfigUID := "nsx-op/parent_config_uid";
  TagScopeChildSubnetUID := "nsx-op/child_subnet_uid";
  RealizeMaxRetries := 3;
  GenerateID := fun resID prefix suffix index => joinNonEmpty "_" [prefix; resID; suffix; index];
  GenerateDisplayName := fun resName prefix suffix project cluster =>
    joinNonEmpty "-" [prefix; resName; suffix; project; cluster];
  CalculateSubnetSize := fun prefixLength => (2 ^ (32 - prefixLength))%Z;
  BuildIPPool := fun id name tags => Some (IpAddressPool.mk id name tags None None []);
  BuildIPSubnet := fun id name ipBlockPath tags size =>
    Some (IpAddressPoolBlockSubnet.mk id name ipBlockPath size tags None "");
  ParseCIDR := fun s =>
    if bool_decide (s = "") then None
    else Some (mkIPNet (Some [10; 0; 0; 0]%Z) [255; 255; 255; 0]%Z);
  ParseIP := fun s => if bool_decide (s = "") then None else Some [10; 0; 0; 1]%Z;
  IPNet_String := fun n => "10.0.0.1/24";
|}.

(** A cache in the manner of client-go's: the objects, and for every index
    name the function that gives the values an object is filed under. *)
Record listCache (T : Type) : Type := mkListCache {
  objects : list T;
  keyFunc : T -> string;
  indexers : list (string * (T -> list string));
}.
Arguments mkListCache {T} _ _ _.
Arguments objects {T} _.
Arguments keyFunc {T} _.
Arguments indexers {T} _.

Definition listCache_ByIndex {T : Type} (c : listCache T) (indexName indexedValue : string)
  : error + list T :=
  match list_find (fun e => e.1 = indexName) (indexers c) with
  | Some (_, (_, f)) => inr (filter (fun o => indexedValue ∈ f o) (objects c))
  | None => inl (Errorf ("Index with name " +:+ indexName +:+ " does not exist"))
  end.

Definition listCache_Delete {T : Type} (c : listCache T) (o : T) : error + listCache T :=
  inr (mkListCache (filter (fun x => keyFunc c x <> keyFunc c o) (objects c))
         (keyFunc c) (indexers c)).

Definition listCache_Add {T : Type} (c : listCache T) (o : T) : error + listCache T :=
  inr (mkListCache (filter (fun x => keyFunc c x <> keyFunc c o) (objects c) ++ [o])
         (keyFunc c) (indexers c)).

#[local] Instance sampleIndexer : Indexer := {|
  Cache := listCache;
  ByIndex := @listCache_ByIndex;
  Add := @listCache_Add;
  Delete := @listCache_Delete;
|}.

(** [filterTag]: the values of the tags with the given scope. *)
Definition filterTag (tags : list Tag) (tagScope : string) : list string :=
  omap (fun t => if bool_decide (Scope t = Some tagScope) then TagValue t else None) tags.

(** A store with the given objects, indexed by the ChildSubnet tag. *)
Definition storeOf {T : Type} (id : T -> option string) (tags : T -> list Tag)
    (objs : list T) : listCache T :=
  mkListCache objs (fun o => default "" (id o))
    [("nsx-op/child_subnet_uid", fun o => filterTag (tags o) "nsx-op/child_subnet_uid")].

(** Two binding maps of one subnet, as the subnet-binding service sends
    them. *)
Definition sampleSubnetPath : string := "/orgs/default/projects/p1/vpcs/v1/subnets/s1".
Definition sampleSubnetBindingMap (id : string) : SubnetConnectionBindingMap.t :=
  SubnetConnectionBindingMap.mk (Some id) (Some id) (Some sampleSubnetPath)
    (Some (sampleSubnetPath +:+ "/subnet-connection-binding-maps/" +:+ id))
    (Some "/orgs/default/projects/p1/vpcs/v1/subnets/s2") (Some 201%Z) [] None None.
Definition sampleVPCResourceInfo : VPCResourceInfo :=
  mkVPCResourceInfo "default" "p1" "v1" "s1".

(** A ChildSubnet, its parent configuration and the stores of a service. *)
Definition sampleUIDTag : Tag := mkTag (Some "nsx-op/child_subnet_uid") (Some "uid-1").
Definition sampleChildSubnet : ChildSubnet :=
  mkChildSubnet "uid-1" "child1" "ns1" "vnet1" 24 "Private" 0.
Definition sampleParentConfig : ParentConfig :=
  mkParentConfig "vnet-uid" "vnet1" "ns1" "" "/infra/sites/default/transport-zones/tz1"
    {["/infra/segments/parent1"]} "/infra/ip-blocks/public" "/infra/ip-blocks/block-test" None.

(** A binding map of the child segment to the parent segment, with a VLAN. *)
Definition sampleBindingMap (id : string) (vlan : Z) : SegmentConnectionBindingMap.t :=
  SegmentConnectionBindingMap.mk (Some id) (Some id) (Some "/infra/segments/parent1")
    (Some "/infra/segments/cs_uid-1") (Some vlan) [sampleUIDTag] None None.

Definition sampleSegment : Segment.t :=
  Segment.mk (Some "cs_uid-1") (Some "cs-child1") None None (Some "/infra/segments/cs_uid-1")
    [] None [sampleUIDTag] None None [].
Definition sampleIPPool : IpAddressPool.t :=
  IpAddressPool.mk (Some "ipc_uid-1") (Some "ipc-child1") [sampleUIDTag] None None [].
Definition sampleIPSubnet (id blockPath : string) : IpAddressPoolBlockSubnet.t :=
  IpAddressPoolBlockSubnet.mk (Some id) (Some id) (Some blockPath) (Some 256%Z)
    [sampleUIDTag] None "".

(** The store of binding maps: indexed by the ChildSubnet tag and, under
    the name of the parent-segment-path index, by segment path. *)
Definition sampleBindingMapStore (objs : list SegmentConnectionBindingMap.t)
  : listCache SegmentConnectionBindingMap.t :=
  mkListCache objs (fun o => default "" (SegmentConnectionBindingMap.Id o))
    [("nsx-op/child_subnet_uid",
      fun o => filterTag (SegmentConnectionBindingMap.Tags o) "nsx-op/child_subnet_uid");
     ("parentSegment",
      fun o => match SegmentConnectionBindingMap.SegmentPath o with
               | Some p => [p]
               | None => []
               end)].

(** The store of parent configurations, indexed by namespace and name. *)
Definition sampleParentConfigStore (objs : list ParentConfig) : listCache ParentConfig :=
  mkListCache objs id
    [("namespacedName", fun o => [childsubnet.getNamespacedName (namespace o) (name o)])].

(** The store of tier-1 gateways, indexed by policy path. *)
Definition sampleTier1Store (objs : list Tier1.t) : listCache Tier1.t :=
  mkListCache objs (fun o => default "" (Tier1.Id o))
    [("t1PolicyPath", fun o => match Tier1.Path o with Some p => [p] | None => [] end)].

Definition sampleService (pools : list IpAddressPool.t)
    (subnets : list IpAddressPoolBlockSubnet.t) (segments : list Segment.t)
    (bindingMaps : list SegmentConnectionBindingMap.t)
    (exhausted : option (gset string)) (nsx : NSXClient)
  : childsubnet.ChildSubnetService :=
  childsubnet.mkService
    (storeOf IpAddressPool.Id IpAddressPool.Tags pools)
    (storeOf IpAddressPoolBlockSubnet.Id IpAddressPoolBlockSubnet.Tags subnets)
    (storeOf Segment.Id Segment.Tags segments)
    (sampleBindingMapStore bindingMaps)
    (sampleTier1Store [])
    (storeOf PolicyNatRule.Id PolicyNatRule.Tags [])
    (sampleParentConfigStore [sampleParentConfig])
    exhausted nsx.

(** A backend that accepts every write and never shows a realized subnet. *)
Definition quietNSX : NSXClient :=
  mkNSXClient (fun _ _ => None) (fun _ _ => inr []) [] 0.

(** A backend that rejects the first write with the capacity error of the
    IP block [/infra/ip-blocks/block-test]. *)
Definition capacityError : error :=
  BackendError
    (Some (mkApiError
       [mkRelatedApiError (Some 520012%Z)
          (Some "IpAddressBlock path=[/infra/ip-blocks/block-test] with max size 256 does not have spare capacity to satisfy new block subnet of size 256")]))
    "Bad Request".
Definition fullBlockNSX : NSXClient :=
  mkNSXClient (fun _ _ => Some capacityError) (fun _ _ => inr []) [] 0.

(** A backend that accepts every write and shows the realized subnet at
    the first listing. *)
Definition realizedNSX : NSXClient :=
  mkNSXClient (fun _ _ => None)
    (fun _ _ => inr [mkRealized (Some "IpBlockSubnet")
                       [mkAttributeVal (Some "cidr") ["10.0.0.0/24"];
                        mkAttributeVal (Some "gateway_ip") ["10.0.0.1"]]])
    [] 0.

(** *** Samples for the rest of the service *)

(** Equality of data values. *)
Fixpoint DataValue_eqb (a b : DataValue) : bool :=
  match a, b with
  | StringValue s, StringValue t => bool_decide (s = t)
  | IntegerValue x, IntegerValue y => bool_decide (x = y)
  | BooleanValue x, BooleanValue y => bool_decide (x = y)
  | OptionalValue None, OptionalValue None => true
  | OptionalValue (Some x), OptionalValue (Some y) => DataValue_eqb x y
  | ListValue l, ListValue m =>
      (fix all (l m : list DataValue) : bool :=
         match l, m with
         | [], [] => true
         | x :: l', y :: m' => DataValue_eqb x y && all l' m'
         | _, _ => false
         end) l m
  | StructValue n f, StructValue n' f' =>
      bool_decide (n = n')
      && (fix all (f f' : list (string * DataValue)) : bool :=
            match f, f' with
            | [], [] => true
            | (k, x) :: l', (k', y) :: m' =>
                bool_decide (k = k') && DataValue_eqb x y && all l' m'
            | _, _ => false
            end) f f'
  | _, _ => false
  end.

(** The key and the value of a comparable, by its adapter. *)
Definition sampleKey (c : Comparable) : outcome string :=
  match c with
  | C_nil => Panic NilDereference
  | C_SegmentConnectionBindingMap p => childsubnet.Key p
  | C_Segment p => childsubnet.Segment_Key p
  end.
Definition sampleValue (c : Comparable) : outcome (option DataValue) :=
  match c with
  | C_nil => Panic NilDereference
  | C_SegmentConnectionBindingMap p => childsubnet.Value p
  | C_Segment p => childsubnet.Segment_Value p
  end.
Definition keyed (l : list Comparable)
  : outcome (list (string * option DataValue * Comparable)) :=
  foldM (fun acc c => k ← sampleKey c; v ← sampleValue c; Ret (acc ++ [(k, v, c)])) [] l.
Definition sameValue (a b : option DataValue) : bool :=
  match a, b with
  | Some x, Some y => DataValue_eqb x y
  | None, None => true
  | _, _ => false
  end.

(** Modelled from the spec: [common.CompareResources] is outside the
    sources at hand.  The spec has the existing resources indexed by key; an
    expected resource with no existing resource of its key, or with another
    value, is changed, and an existing resource whose key no expected
    resource has is stale. *)
Definition sampleCompareResources (existing expected : list Comparable)
  : outcome (list Comparable * list Comparable) :=
  e ← keyed existing;
  d ← keyed expected;
  Ret ((fun x => x.2)
         <$> List.filter
               (fun x => negb (existsb (fun y => bool_decide (y.1.1 = x.1.1)
                                                 && sameValue y.1.2 x.1.2) e)) d,
       (fun y => y.2)
         <$> List.filter
               (fun y => negb (existsb (fun x => bool_decide (x.1.1 = y.1.1)) d)) e).

#[local] Instance sampleCommon : Common := {|
  TagScopeNCPCluster := "ncp/cluster";
  TagScopeNCPProjectUID := "ncp/project_uid";
  TagScopeNCPVNetworkUID := "ncp/vnet_uid";
  ResourceType := "resource_type";
  CompareResources := sampleCompareResources;
  BuildBasicTags := fun cluster obj _ =>
    [mkTag (Some "ncp/cluster") (Some cluster);
     mkTag (Some "nsx-op/child_subnet_uid") (Some (UID obj))];
  NSXConfig_Cluster := "k8scl-one";
|}.

(** A parent configuration with no segment path, and a service with the
    given child segments and parent configurations and nothing else. *)
Definition sampleBareParentConfig : ParentConfig :=
  mkParentConfig "vnet-uid" "vnet1" "ns1" "" "" ∅ "" "" None.
Definition sampleServiceOf (segments : list Segment.t) (parentConfigs : list ParentConfig)
    (nsx : NSXClient) : childsubnet.ChildSubnetService :=
  childsubnet.mkService
    (storeOf IpAddressPool.Id IpAddressPool.Tags [])
    (storeOf IpAddressPoolBlockSubnet.Id IpAddressPoolBlockSubnet.Tags [])
    (storeOf Segment.Id Segment.Tags segments)
    (sampleBindingMapStore [])
    (sampleTier1Store [])
    (storeOf PolicyNatRule.Id PolicyNatRule.Tags [])
    (sampleParentConfigStore parentConfigs)
    None nsx.

(** The realized entity of a pool subnet, and a backend that shows it from
    the second listing on. *)
Definition sampleRealizedSubnet : GenericPolicyRealizedResource :=
  mkRealized (Some "IpBlockSubnet")
    [mkAttributeVal (Some "cidr") ["10.0.0.0/24"];
     mkAttributeVal (Some "gateway_ip") ["10.0.0.1"]].
Definition slowNSX : NSXClient :=
  mkNSXClient (fun _ _ => None)
    (fun n _ => match n with O => inr [] | S _ => inr [sampleRealizedSubnet] end) [] 0.

(** A backend that rejects every write with an error that has no
    structure. *)
Definition unavailableNSX : NSXClient :=
  mkNSXClient (fun _ _ => Some (BackendError None "Service Unavailable"))
    (fun _ _ => inr []) [] 0.

(** A binding map of a subnet whose parent path is no VPC path. *)
Definition sampleStraySubnetBindingMap : SubnetConnectionBindingMap.t :=
  SubnetConnectionBindingMap.mk (Some "bm3") (Some "bm3") (Some "/infra/segments/s3")
    (Some "/infra/segments/s3/subnet-connection-binding-maps/bm3") None (Some 203%Z)
    [] None None.

(** * Properties *)

Lemma Ret_inj {A : Type} (a b : A) : Ret a = Ret b -> a = b.
Proof. by intros [=]. Qed.

(** ** The hierarchical builder of the subnet-binding service *)

Section builder_facts.
Context `{Env}.
Import subnetbinding.

Lemma mergeChildNode_leaf node t i b ch :
  resourceType node = leafType ->
  mergeChildNode node (mkHNode t i b ch) = mkHNode t i b (ch ++ [node]).
Proof.
  intros Hl. destruct node as [nt ni nb nch]. simpl in Hl. subst nt.
  reflexivity.
Qed.

Lemma mergeChildNode_first node cn t i b ch :
  resourceType node <> leafType -> sameSegment cn node = true ->
  mergeChildNode node (mkHNode t i b (cn :: ch))
  = mkHNode t i b (fold_left (fun c chN => mergeChildNode chN c) (childNodes node) cn :: ch).
Proof.
  intros Hl Hs. destruct node as [nt ni nb nch]. simpl in Hl.
  cbn [mergeChildNode]. rewrite bool_decide_eq_false_2 by done.
  cbn [mergeFirst]. by rewrite Hs.
Qed.

Lemma mergeChildNode_nil node t i b :
  resourceType node <> leafType ->
  mergeChildNode node (mkHNode t i b []) = mkHNode t i b [node].
Proof.
  intros Hl. destruct node as [nt ni nb nch]. simpl in Hl.
  cbn [mergeChildNode]. by rewrite bool_decide_eq_false_2.
Qed.

Lemma sameSegment_same t i b c b' c' :
  sameSegment (mkHNode t i b c) (mkHNode t i b' c') = true.
Proof. unfold sameSegment. simpl. by rewrite !bool_decide_eq_true_2. Qed.

(** Inserting a second chain with the same four segments adds its leaf
    below the subnet node of the first. *)
Lemma merge_ancestorChain info la lb i b :
  resourceType la = leafType -> resourceType lb = leafType ->
  mergeChildNode (ancestorChain info [lb]) (mkHNode "OrgRoot" i b [ancestorChain info [la]])
  = mkHNode "OrgRoot" i b [ancestorChain info [la; lb]].
Proof.
  intros Ha Hb. unfold ancestorChain.
  do 4 (rewrite mergeChildNode_first; [|done|apply sameSegment_same];
        cbn [childNodes fold_left]).
  by rewrite mergeChildNode_leaf.
Qed.

Lemma insertBindingMap_parsed markForDelete subnetPath rootNode bm id path info :
  SubnetConnectionBindingMap.Id bm = Some id ->
  parentPathOf subnetPath bm = Some path ->
  ParseVPCResourcePath path = inr info ->
  insertBindingMap markForDelete subnetPath rootNode (Some bm)
  = Ret (mergeChildNode (ancestorChain info [leafNode id (marked markForDelete bm)]) rootNode).
Proof.
  intros Hid Hpath Hparse. unfold insertBindingMap, parentPathOf in *.
  destruct markForDelete as [m|]; simpl.
  - destruct (bool_decide (subnetPath = "")); simpl.
    + rewrite Hpath. simpl. unfold buildHNodeFromSubnetConnectionBindingMap.
      rewrite Hparse. simpl. rewrite Hid. reflexivity.
    + injection Hpath as <-. unfold buildHNodeFromSubnetConnectionBindingMap.
      rewrite Hparse. simpl. rewrite Hid. reflexivity.
  - destruct (bool_decide (subnetPath = "")); simpl.
    + rewrite Hpath. simpl. unfold buildHNodeFromSubnetConnectionBindingMap.
      rewrite Hparse. simpl. rewrite Hid. reflexivity.
    + injection Hpath as <-. unfold buildHNodeFromSubnetConnectionBindingMap.
      rewrite Hparse. simpl. rewrite Hid. reflexivity.
Qed.

(** The tree built from two binding maps below the same subnet. *)
Lemma mergedRoot_two_leaves markForDelete subnetPath a b ida idb pa pb info :
  SubnetConnectionBindingMap.Id a = Some ida ->
  SubnetConnectionBindingMap.Id b = Some idb ->
  parentPathOf subnetPath a = Some pa -> parentPathOf subnetPath b = Some pb ->
  ParseVPCResourcePath pa = inr info -> ParseVPCResourcePath pb = inr info ->
  mergedRoot [Some a; Some b] markForDelete subnetPath
  = Ret (mkHNode "OrgRoot" "" None
           [ancestorChain info [leafNode ida (marked markForDelete a);
                                leafNode idb (marked markForDelete b)]]).
Proof.
  intros Hida Hidb Hpa Hpb Ha Hb. unfold mergedRoot. cbn [foldM].
  rewrite (insertBindingMap_parsed _ _ _ _ _ _ _ Hida Hpa Ha).
  change (Ret ?x ≫= ?f) with (f x). cbv beta.
  rewrite (insertBindingMap_parsed _ _ _ _ _ _ _ Hidb Hpb Hb).
  change (Ret ?x ≫= ?f) with (f x). cbv beta.
  rewrite mergeChildNode_nil by done.
  by rewrite merge_ancestorChain.
Qed.

Lemma buildTree_two_leaves info ida idb a b :
  (forall v, converterError v = None) ->
  buildTree (mkHNode "OrgRoot" "" None [ancestorChain info [leafNode ida a; leafNode idb b]])
  = Ret [ancestorChainData info [leafWrapper a; leafWrapper b]].
Proof.
  intros Hconv. unfold ancestorChain, leafNode, ancestorChainData, leafWrapper.
  unfold leafType. cbn [buildTree].
  repeat (case_bool_decide; [try done | try done]).
  unfold wrapSubnetBindingMap, wrapChildResourceReference, ConvertToVapi. cbn.
  rewrite !Hconv. cbn. rewrite !Hconv. cbn. rewrite !Hconv. cbn.
  rewrite !Hconv. cbn. rewrite !Hconv. cbn. reflexivity.
Qed.

Lemma mergedOnce_unfold t i b ch :
  mergedOnce (mkHNode t i b ch)
  <-> NoDup (segmentOf <$> filter isAncestor ch) /\ Forall mergedOnce ch.
Proof.
  simpl. apply and_iff_compat_l. induction ch as [|c ch IH]; simpl.
  - split; [constructor|done].
  - rewrite Forall_cons. by rewrite IH.
Qed.

(** Induction on a node with the property at hand for all its children. *)
Lemma hNode_children_ind (P : hNode -> Prop) :
  (forall t i b ch, Forall P ch -> P (mkHNode t i b ch)) -> forall n, P n.
Proof.
  intros IH. fix rec 1. intros [t i b ch]. apply IH.
  induction ch as [|c ch IHch]; constructor; [apply rec|apply IHch].
Qed.

Lemma sameSegment_segmentOf a b : sameSegment a b = true <-> segmentOf a = segmentOf b.
Proof.
  unfold sameSegment, segmentOf. rewrite andb_true_iff, !bool_decide_eq_true.
  split; [intros [-> ->]; done | intros [=]; done].
Qed.

Lemma mergeChildNode_segment node n :
  resourceType (mergeChildNode node n) = resourceType n /\
  resourceID (mergeChildNode node n) = resourceID n.
Proof.
  destruct n as [t i b ch], node as [nt ni nb nch]. cbn [mergeChildNode].
  case_bool_decide; [done|]. by destruct mergeFirst.
Qed.

Lemma fold_merge_segment l cn :
  segmentOf (fold_left (fun c chN => mergeChildNode chN c) l cn) = segmentOf cn.
Proof.
  revert cn. induction l as [|x l IH]; intros cn; simpl; [done|].
  rewrite IH. unfold segmentOf. by destruct (mergeChildNode_segment x cn) as [-> ->].
Qed.

Lemma mergeFirst_None into node l :
  mergeFirst into node l = None <-> Forall (fun cn => sameSegment cn node = false) l.
Proof.
  induction l as [|c l IH]; simpl.
  - split; [constructor|done].
  - destruct (sameSegment c node) eqn:E.
    + split; [done|]. intros Hf. inversion Hf; congruence.
    + rewrite fmap_None, IH. split; [by constructor|]. by inversion 1.
Qed.

Lemma mergeFirst_Some into node l l' :
  mergeFirst into node l = Some l' ->
  exists l1 cn l2, l = l1 ++ cn :: l2 /\ l' = l1 ++ into cn :: l2 /\ sameSegment cn node = true.
Proof.
  revert l'. induction l as [|c l IH]; intros l'; simpl; [done|].
  destruct (sameSegment c node) eqn:E.
  - intros [= <-]. by exists [], c, l.
  - rewrite fmap_Some. intros (l0 & Hl0 & ->).
    destruct (IH _ Hl0) as (l1 & cn & l2 & -> & -> & Hs).
    by exists (c :: l1), cn, l2.
Qed.

(** Merging keeps the tree free of duplicate ancestor segments. *)
Lemma mergeChildNode_mergedOnce node : forall n,
  mergedOnce node -> mergedOnce n -> mergedOnce (mergeChildNode node n).
Proof.
  induction node as [nt ni nb nch IH] using hNode_children_ind.
  intros [t i b ch] Hnode Hn.
  cbn [mergeChildNode]. apply mergedOnce_unfold in Hn as [Hnd Hall].
  case_bool_decide as Hleaf.
  - apply mergedOnce_unfold. split.
    + rewrite filter_app. rewrite (filter_cons_False _ (mkHNode nt ni nb nch)).
      * by rewrite filter_nil, app_nil_r.
      * unfold isAncestor. simpl. tauto.
    + apply Forall_app. split; [done|]. by constructor.
  - destruct mergeFirst as [ch'|] eqn:Hm.
    + apply mergeFirst_Some in Hm as (l1 & cn & l2 & -> & -> & Hs).
      set (cn' := fold_left _ nch cn).
      assert (Hseg : segmentOf cn' = segmentOf cn) by apply fold_merge_segment.
      apply mergedOnce_unfold. split.
      * rewrite filter_app, filter_cons in *.
        assert (isAncestor cn' <-> isAncestor cn) as Hanc.
        { unfold isAncestor. injection Hseg as Ht _. by rewrite Ht. }
        destruct (decide (isAncestor cn)), (decide (isAncestor cn')); try tauto.
        rewrite fmap_app, fmap_cons in *. by rewrite Hseg.
      * apply Forall_app in Hall as [H1 H2]. apply Forall_cons in H2 as [Hcn H2].
        apply Forall_app. split; [done|]. apply Forall_cons. split; [|done].
        subst cn'. apply mergedOnce_unfold in Hnode as [_ Hch].
        clear -IH Hch Hcn. revert cn Hcn.
        induction nch as [|x l IHl]; intros cn Hcn; simpl; [done|].
        apply Forall_cons in IH as [IHx IH]. apply Forall_cons in Hch as [Hx Hch].
        apply IHl; [done|done|]. by apply IHx.
    + apply mergeFirst_None in Hm.
      apply mergedOnce_unfold. split.
      * rewrite filter_app, fmap_app. rewrite filter_cons_True by done.
        rewrite filter_nil. simpl. apply NoDup_app. split; [done|]. split.
        -- intros k Hk Hk'. apply list_elem_of_singleton in Hk'. subst k.
           apply list_elem_of_fmap in Hk as (c & Hc & Hin).
           apply list_elem_of_filter in Hin as [_ Hin].
           rewrite Forall_forall in Hm. specialize (Hm _ Hin).
           symmetry in Hc. apply sameSegment_segmentOf in Hc. congruence.
        -- apply NoDup_singleton.
      * apply Forall_app. split; [done|]. by constructor.
Qed.

Lemma ancestorChain_mergedOnce info leaf :
  resourceType leaf = leafType -> childNodes leaf = [] ->
  mergedOnce (ancestorChain info [leaf]).
Proof.
  intros Hl Hc. destruct leaf as [t i b c]. simpl in Hl, Hc. subst.
  unfold ancestorChain.
  repeat (apply mergedOnce_unfold; split;
          [ rewrite ?filter_cons_True, ?filter_nil by done; simpl;
            apply NoDup_singleton
          | apply Forall_cons; split; [|constructor] ]).
  apply mergedOnce_unfold. split.
  - rewrite filter_cons_False, filter_nil; [constructor|].
    unfold isAncestor. simpl. tauto.
  - apply Forall_cons. split; [|constructor].
    apply mergedOnce_unfold. split; constructor.
Qed.

Lemma insertBindingMap_mergedOnce markForDelete subnetPath rootNode bm rootNode' :
  mergedOnce rootNode ->
  insertBindingMap markForDelete subnetPath rootNode bm = Ret rootNode' ->
  mergedOnce rootNode'.
Proof.
  intros Hroot. unfold insertBindingMap.
  destruct (match markForDelete with Some _ => _ | None => _ end) as [bm'| |]; [|done..].
  cbn -[mergeChildNode].
  destruct (if bool_decide (subnetPath = "") then _ else _) as [pp| |]; [|done..].
  cbn -[mergeChildNode]. unfold buildHNodeFromSubnetConnectionBindingMap.
  destruct (ParseVPCResourcePath pp) as [err|info].
  - destruct bm' as [b|]; cbn -[mergeChildNode]; [|done].
    destruct (SubnetConnectionBindingMap.Path b); cbn -[mergeChildNode]; [|done].
    by intros [= <-].
  - destruct bm' as [b|]; cbn -[mergeChildNode]; [|done].
    destruct (SubnetConnectionBindingMap.Id b) as [id|]; cbn -[mergeChildNode]; [|done].
    intros Heq. apply Ret_inj in Heq. subst rootNode'.
    apply mergeChildNode_mergedOnce; [|done].
    by apply ancestorChain_mergedOnce.
Qed.

Lemma mergedRoot_mergedOnce bindingMaps markForDelete subnetPath rootNode :
  mergedRoot bindingMaps markForDelete subnetPath = Ret rootNode ->
  mergedOnce rootNode.
Proof.
  unfold mergedRoot.
  assert (Hinit : mergedOnce (mkHNode "OrgRoot" "" None [])).
  { apply mergedOnce_unfold. split; constructor. }
  revert Hinit. generalize (mkHNode "OrgRoot" "" None []).
  induction bindingMaps as [|bm l IH]; intros root Hroot; simpl.
  - by intros [= <-].
  - destruct (insertBindingMap markForDelete subnetPath root bm) as [root'| |] eqn:E;
      [|done..].
    simpl. apply IH. by eapply insertBindingMap_mergedOnce.
Qed.

Lemma leafPaths_unfold t i b ch :
  leafPaths (mkHNode t i b ch)
  = if bool_decide (t = leafType) then [([], (i, b))]
    else below (t, i) <$> (ch ≫= leafPaths).
Proof. simpl. case_bool_decide; [done|]. by f_equal. Qed.

Lemma leafPaths_ancestor n :
  isAncestor n ->
  leafPaths n = below (segmentOf n) <$> (childNodes n ≫= leafPaths).
Proof.
  destruct n as [t i b ch]. unfold isAncestor. simpl resourceType. intros Hn.
  rewrite leafPaths_unfold. by rewrite bool_decide_eq_false_2.
Qed.

Lemma mergeChildNode_isAncestor node n : isAncestor (mergeChildNode node n) <-> isAncestor n.
Proof. unfold isAncestor. by destruct (mergeChildNode_segment node n) as [-> _]. Qed.

(** Merging a node into an ancestor adds the leaves of the node, under the
    ancestor, and keeps the leaves that were there. *)
Lemma leafPaths_merge node : forall n,
  isAncestor n ->
  leafPaths (mergeChildNode node n) ≡ₚ leafPaths n ++ (below (segmentOf n) <$> leafPaths node).
Proof.
  induction node as [nt ni nb nch IH] using hNode_children_ind.
  intros [t i b ch] Hn.
  assert (Happ : leafPaths (mkHNode t i b (ch ++ [mkHNode nt ni nb nch]))
                 = leafPaths (mkHNode t i b ch)
                   ++ (below (t, i) <$> leafPaths (mkHNode nt ni nb nch))).
  { rewrite !(leafPaths_ancestor (mkHNode t i b _)) by done. simpl childNodes.
    rewrite bind_app, fmap_app. simpl. by rewrite app_nil_r. }
  cbn [mergeChildNode]. case_bool_decide as Hleaf.
  - by rewrite Happ.
  - destruct mergeFirst as [ch'|] eqn:Hm; [|by rewrite Happ].
    apply mergeFirst_Some in Hm as (l1 & cn & l2 & -> & -> & Hs).
    set (cn' := fold_left _ nch cn).
    apply sameSegment_segmentOf in Hs.
    assert (Hcn : isAncestor cn).
    { unfold isAncestor. injection Hs as -> _. done. }
    assert (Hfold : forall l c, Forall (fun node => forall n, isAncestor n ->
                       leafPaths (mergeChildNode node n)
                       ≡ₚ leafPaths n ++ (below (segmentOf n) <$> leafPaths node)) l ->
                     isAncestor c ->
                     leafPaths (fold_left (fun c chN => mergeChildNode chN c) l c)
                     ≡ₚ leafPaths c ++ (below (segmentOf c) <$> (l ≫= leafPaths))).
    { clear. induction l as [|x l IHl]; intros c Hall Hc; simpl.
      - by rewrite app_nil_r.
      - apply Forall_cons in Hall as [Hx Hall].
        rewrite IHl; [|done|by apply mergeChildNode_isAncestor].
        rewrite Hx by done. rewrite fmap_app.
        assert (segmentOf (mergeChildNode x c) = segmentOf c) as ->.
        { unfold segmentOf. by destruct (mergeChildNode_segment x c) as [-> ->]. }
        by rewrite <- app_assoc. }
    specialize (Hfold nch cn IH Hcn). fold cn' in Hfold.
    rewrite !(leafPaths_ancestor (mkHNode t i b _)) by done. simpl childNodes.
    rewrite (leafPaths_ancestor (mkHNode nt ni nb nch)) by done. simpl childNodes.
    rewrite !bind_app, !bind_cons, !fmap_app. rewrite Hfold.
    rewrite Hs. simpl segmentOf. rewrite !fmap_app.
    rewrite <- !app_assoc. apply Permutation_app_head. apply Permutation_app_head.
    apply Permutation_app_comm.
Qed.

(** What an iteration does to the root depends on the root only through
    the merge. *)
Lemma insertBindingMap_insertedNode markForDelete subnetPath rootNode bm :
  insertBindingMap markForDelete subnetPath rootNode bm
  = insertedNode markForDelete subnetPath bm
    ≫= fun o => Ret (match o with
                     | Some node => mergeChildNode node rootNode
                     | None => rootNode
                     end).
Proof.
  unfold insertedNode, insertBindingMap.
  destruct (match markForDelete with Some _ => _ | None => _ end) as [bm'| |]; [|done..].
  cbn -[mergeChildNode].
  destruct (if bool_decide (subnetPath = "") then _ else _) as [pp| |]; [|done..].
  cbn -[mergeChildNode]. unfold buildHNodeFromSubnetConnectionBindingMap.
  destruct (ParseVPCResourcePath pp) as [err|info].
  - destruct bm' as [b|]; cbn -[mergeChildNode]; [|done].
    by destruct (SubnetConnectionBindingMap.Path b).
  - destruct bm' as [b|]; cbn -[mergeChildNode]; [|done].
    destruct (SubnetConnectionBindingMap.Id b) as [id|]; cbn -[mergeChildNode]; [|done].
    by rewrite mergeChildNode_nil.
Qed.

Lemma foldM_insert_leafPaths markForDelete subnetPath l : forall rootNode r,
  isAncestor rootNode ->
  foldM (insertBindingMap markForDelete subnetPath) rootNode l = Ret r ->
  Forall (fun bm => exists o, insertedNode markForDelete subnetPath bm = Ret o) l
  /\ leafPaths r ≡ₚ leafPaths rootNode
       ++ (below (segmentOf rootNode) <$> (l ≫= insertedLeaves markForDelete subnetPath)).
Proof.
  induction l as [|bm l IH]; intros rootNode r Hroot; cbn [foldM].
  - intros Hr. apply Ret_inj in Hr. subst r. split; [constructor|].
    simpl. by rewrite app_nil_r.
  - rewrite insertBindingMap_insertedNode.
    destruct (insertedNode markForDelete subnetPath bm) as [o| |] eqn:Hnode; [|done..].
    change (Ret o ≫= ?f) with (f o). cbv beta.
    change (Ret ?x ≫= ?f) with (f x). cbv beta. intros Hrun.
    set (root1 := match o with Some node => mergeChildNode node rootNode | None => rootNode end)
      in *.
    assert (Hroot1 : isAncestor root1 /\ segmentOf root1 = segmentOf rootNode).
    { subst root1. destruct o as [node|]; [|done]. split.
      - by apply mergeChildNode_isAncestor.
      - unfold segmentOf. by destruct (mergeChildNode_segment node rootNode) as [-> ->]. }
    destruct Hroot1 as [Hanc Hseg].
    destruct (IH root1 r Hanc Hrun) as [Hall Hperm]. split.
    + constructor; [by exists o|done].
    + rewrite Hperm, Hseg. rewrite bind_cons, fmap_app, app_assoc.
      apply Permutation_app_tail. unfold insertedLeaves. rewrite Hnode.
      subst root1. destruct o as [node|].
      * by apply leafPaths_merge.
      * simpl. by rewrite app_nil_r.
Qed.

Lemma foldM_insert_runs markForDelete subnetPath l : forall rootNode,
  Forall (fun bm => exists o, insertedNode markForDelete subnetPath bm = Ret o) l ->
  exists r, foldM (insertBindingMap markForDelete subnetPath) rootNode l = Ret r.
Proof.
  induction l as [|bm l IH]; intros rootNode Hall; cbn [foldM].
  - by eexists.
  - apply Forall_cons in Hall as [[o Ho] Hall].
    rewrite insertBindingMap_insertedNode, Ho.
    change (Ret o ≫= ?f) with (f o). cbv beta.
    change (Ret ?x ≫= ?f) with (f x). cbv beta. apply IH, Hall.
Qed.

(** Reordering a batch keeps the leaves of the merged tree and their
    ancestor paths. *)
Lemma mergedRoot_reordered l l' markForDelete subnetPath r :
  l ≡ₚ l' ->
  mergedRoot l markForDelete subnetPath = Ret r ->
  exists r', mergedRoot l' markForDelete subnetPath = Ret r'
             /\ leafPaths r ≡ₚ leafPaths r'.
Proof.
  intros Hperm Hrun. unfold mergedRoot in *.
  assert (Hroot : isAncestor (mkHNode "OrgRoot" "" None [])) by done.
  destruct (foldM_insert_leafPaths _ _ _ _ _ Hroot Hrun) as [Hall Hpaths].
  rewrite Hperm in Hall.
  destruct (foldM_insert_runs markForDelete subnetPath l' (mkHNode "OrgRoot" "" None []) Hall)
    as [r' Hrun'].
  exists r'. split; [done|].
  destruct (foldM_insert_leafPaths _ _ _ _ _ Hroot Hrun') as [_ Hpaths'].
  rewrite Hpaths, Hpaths'. by rewrite Hperm.
Qed.

End builder_facts.

Section builder_claims.
Context `{Env}.
Import subnetbinding.

(** C1 (as amended).  For every batch and every reordering of it the
    builder merges ancestor nodes by (resource type, resource id): in the
    merged tree no two sibling ancestor nodes stand for the same segment,
    and the two orders give trees with the same leaves under the same
    ancestor paths.  Two leaves with the same org/project/VPC/subnet
    ancestor path give a request with exactly one child reference per
    ancestor and exactly two leaf wrappers below the subnet reference; the
    wrappers stand in insertion order, so the two insertion orders give
    requests that differ in the order of the two leaf wrappers and in
    nothing else. *)
Theorem C1_two_leaves_one_chain markForDelete subnetPath a b ida idb pa pb info :
  (forall v, converterError v = None) ->
  SubnetConnectionBindingMap.Id a = Some ida ->
  SubnetConnectionBindingMap.Id b = Some idb ->
  parentPathOf subnetPath a = Some pa -> parentPathOf subnetPath b = Some pb ->
  ParseVPCResourcePath pa = inr info -> ParseVPCResourcePath pb = inr info ->
  (forall bindingMaps reordered m p rootNode,
     bindingMaps ≡ₚ reordered ->
     mergedRoot bindingMaps m p = Ret rootNode ->
     mergedOnce rootNode
     /\ exists rootNode',
          mergedRoot reordered m p = Ret rootNode'
          /\ mergedOnce rootNode'
          /\ leafPaths rootNode ≡ₚ leafPaths rootNode')
  /\ buildOrgRootBySubnetConnectionBindingMaps [Some a; Some b] markForDelete subnetPath
     = Ret (Some (mkOrgRoot
                    [ancestorChainData info [leafWrapper (marked markForDelete a);
                                             leafWrapper (marked markForDelete b)]]
                    (Some "OrgRoot")))
  /\ buildOrgRootBySubnetConnectionBindingMaps [Some b; Some a] markForDelete subnetPath
     = Ret (Some (mkOrgRoot
                    [ancestorChainData info [leafWrapper (marked markForDelete b);
                                             leafWrapper (marked markForDelete a)]]
                    (Some "OrgRoot"))).
Proof.
  intros Hconv Hida Hidb Hpa Hpb Ha Hb. split; [|split].
  - intros bindingMaps reordered m p rootNode Hperm Hrun.
    split; [by eapply mergedRoot_mergedOnce|].
    destruct (mergedRoot_reordered _ _ _ _ _ Hperm Hrun) as (rootNode' & Hrun' & Hleaves).
    exists rootNode'. split; [done|]. split; [|done]. by eapply mergedRoot_mergedOnce.
  - unfold buildOrgRootBySubnetConnectionBindingMaps.
    rewrite (mergedRoot_two_leaves _ _ _ _ _ _ _ _ _ Hida Hidb Hpa Hpb Ha Hb).
    change (Ret ?x ≫= ?f) with (f x). cbv beta.
    by rewrite buildTree_two_leaves.
  - unfold buildOrgRootBySubnetConnectionBindingMaps.
    rewrite (mergedRoot_two_leaves _ _ _ _ _ _ _ _ _ Hidb Hida Hpb Hpa Hb Ha).
    change (Ret ?x ≫= ?f) with (f x). cbv beta.
    by rewrite buildTree_two_leaves.
Qed.

(** C7 (as amended).  For an empty batch the OrgRoot builder of the
    subnet-binding service returns, with no error, a request that is not
    nil: an OrgRoot with an empty list of children.  The infra wrapper of
    the ChildSubnet service returns a nil request and no error when it is
    given no IP pool, no segment, and no tier-1 or no NAT rule. *)
Theorem C7_empty_batch :
  (forall markForDelete subnetPath,
     buildOrgRootBySubnetConnectionBindingMaps [] markForDelete subnetPath
     = Ret (Some (mkOrgRoot [] (Some "OrgRoot"))))
  /\ (forall ipSubnet bindingMaps nat natRules,
        childsubnet.WrapHierarchyInfra None ipSubnet None bindingMaps None nat natRules
        = Ret (None, childsubnet.mkWrapped None ipSubnet None bindingMaps None nat natRules))
  /\ (forall ipSubnet bindingMaps tier1 nat,
        childsubnet.WrapHierarchyInfra None ipSubnet None bindingMaps tier1 nat []
        = Ret (None, childsubnet.mkWrapped None ipSubnet None bindingMaps tier1 nat [])).
Proof.
  split; [|split].
  - intros markForDelete subnetPath.
    unfold buildOrgRootBySubnetConnectionBindingMaps, mergedRoot. cbn [foldM].
    change (Ret ?x ≫= ?f) with (f x). cbv beta. unfold leafType. cbn [buildTree].
    repeat (case_bool_decide; [try done | try done]).
  - intros. reflexivity.
  - intros ipSubnet bindingMaps tier1 nat. unfold childsubnet.WrapHierarchyInfra.
    cbn. rewrite andb_false_r. reflexivity.
Qed.

End builder_claims.

(** C1, an input on which the claim as stated fails: the two binding maps
    [bm1] and [bm2] of one subnet, inserted in the two orders, give two
    different requests. *)
Lemma C1_insertion_order_shows :
  subnetbinding.buildOrgRootBySubnetConnectionBindingMaps
    [Some (sampleSubnetBindingMap "bm1"); Some (sampleSubnetBindingMap "bm2")] None ""
  <> subnetbinding.buildOrgRootBySubnetConnectionBindingMaps
       [Some (sampleSubnetBindingMap "bm2"); Some (sampleSubnetBindingMap "bm1")] None "".
Proof. vm_compute. discriminate. Qed.

Lemma C1_two_leaves_one_chain_witness :
  (forall bindingMaps reordered m p rootNode,
     bindingMaps ≡ₚ reordered ->
     subnetbinding.mergedRoot bindingMaps m p = Ret rootNode ->
     mergedOnce rootNode
     /\ exists rootNode',
          subnetbinding.mergedRoot reordered m p = Ret rootNode'
          /\ mergedOnce rootNode'
          /\ leafPaths rootNode ≡ₚ leafPaths rootNode')
  /\ subnetbinding.buildOrgRootBySubnetConnectionBindingMaps
       [Some (sampleSubnetBindingMap "bm1"); Some (sampleSubnetBindingMap "bm2")] None ""
     = Ret (Some (mkOrgRoot
                    [ancestorChainData sampleVPCResourceInfo
                       [leafWrapper (sampleSubnetBindingMap "bm1");
                        leafWrapper (sampleSubnetBindingMap "bm2")]]
                    (Some "OrgRoot")))
  /\ subnetbinding.buildOrgRootBySubnetConnectionBindingMaps
       [Some (sampleSubnetBindingMap "bm2"); Some (sampleSubnetBindingMap "bm1")] None ""
     = Ret (Some (mkOrgRoot
                    [ancestorChainData sampleVPCResourceInfo
                       [leafWrapper (sampleSubnetBindingMap "bm2");
                        leafWrapper (sampleSubnetBindingMap "bm1")]]
                    (Some "OrgRoot"))).
Proof.
  apply (C1_two_leaves_one_chain None "" (sampleSubnetBindingMap "bm1")
           (sampleSubnetBindingMap "bm2") "bm1" "bm2" sampleSubnetPath sampleSubnetPath
           sampleVPCResourceInfo); reflexivity.
Defined.

(** C7, an input on which the claim as stated fails: for the empty batch
    the OrgRoot builder does not return a nil request. *)
Lemma C7_empty_batch_not_nil :
  subnetbinding.buildOrgRootBySubnetConnectionBindingMaps [] None "" <> Ret None.
Proof. vm_compute. discriminate. Qed.

(** ** The ChildSubnet service *)

Section childsubnet_facts.
Context `{Env} `{Indexer}.
Import childsubnet.

Lemma fold_left_snoc {A B : Type} (f : A -> B) (l : list A) (init : list B) :
  fold_left (fun acc x => acc ++ [f x]) l init = init ++ (f <$> l).
Proof.
  revert init. induction l as [|x l IH]; intros init; simpl.
  - by rewrite app_nil_r.
  - rewrite IH. by rewrite <- app_assoc.
Qed.

(** C8.  [buildSegmentConnectionBindingMaps] returns, for a parent
    configuration with n segment paths, n nil entries followed by the n
    binding maps, 2n entries in all; [SegmentConnectionBindingMapsToComparable]
    likewise returns n nil comparables followed by the n adapters.  The
    claim asks for exactly n entries, none of them nil. *)
Theorem C8_nil_entries_precede childSubnet parentConfig vlanTag tags scbms :
  buildSegmentConnectionBindingMaps childSubnet parentConfig vlanTag tags
  = replicate (size (segmentPaths parentConfig)) None
    ++ (bindingMapFor childSubnet parentConfig vlanTag tags
        <$> elements (segmentPaths parentConfig))
  /\ length (buildSegmentConnectionBindingMaps childSubnet parentConfig vlanTag tags)
     = (2 * size (segmentPaths parentConfig))%nat
  /\ SegmentConnectionBindingMapsToComparable scbms
     = replicate (length scbms) C_nil ++ (C_SegmentConnectionBindingMap <$> scbms)
  /\ length (SegmentConnectionBindingMapsToComparable scbms) = (2 * length scbms)%nat.
Proof.
  assert (Hb : buildSegmentConnectionBindingMaps childSubnet parentConfig vlanTag tags
               = replicate (size (segmentPaths parentConfig)) None
                 ++ (bindingMapFor childSubnet parentConfig vlanTag tags
                     <$> elements (segmentPaths parentConfig))).
  { unfold buildSegmentConnectionBindingMaps.
    apply (fold_left_snoc (bindingMapFor childSubnet parentConfig vlanTag tags)). }
  assert (Hc : SegmentConnectionBindingMapsToComparable scbms
               = replicate (length scbms) C_nil ++ (C_SegmentConnectionBindingMap <$> scbms)).
  { unfold SegmentConnectionBindingMapsToComparable.
    apply (fold_left_snoc SegmentConnectionBindingMapToComparable). }
  split; [done|]. split; [|split; [done|]].
  - rewrite Hb, length_app, length_replicate, length_fmap.
    change (length (elements (segmentPaths parentConfig)))
      with (size (segmentPaths parentConfig)). lia.
  - rewrite Hc, length_app, length_replicate, length_fmap. lia.
Qed.

(** C6 (as amended).  The [Value()] of a segment connection binding map is
    made from its id, its display name and its tags and from nothing else:
    two binding maps with equal id, display name and tags have equal
    [Value()], whatever their VLAN traffic tags, segment paths and other
    fields are. *)
Theorem C6_value_of_id_name_tags (a b : SegmentConnectionBindingMap.t) :
  SegmentConnectionBindingMap.Id a = SegmentConnectionBindingMap.Id b ->
  SegmentConnectionBindingMap.DisplayName a = SegmentConnectionBindingMap.DisplayName b ->
  SegmentConnectionBindingMap.Tags a = SegmentConnectionBindingMap.Tags b ->
  Value (Some a) = Value (Some b).
Proof.
  intros Hid Hname Htags. unfold Value. simpl. by rewrite Hid, Hname, Htags.
Qed.

Lemma find_seqZ (P : Z -> bool) (k : nat) : forall m : Z,
  match List.find P (seqZ m (Z.of_nat k)) with
  | Some i => (m <= i < m + Z.of_nat k)%Z /\ P i = true /\
              forall j, (m <= j < i)%Z -> P j = false
  | None => forall j, (m <= j < m + Z.of_nat k)%Z -> P j = false
  end.
Proof.
  induction k as [|k IH]; intros m.
  - simpl. intros j Hj. lia.
  - rewrite seqZ_cons by lia. simpl. destruct (P m) eqn:E.
    + split; [lia|]. split; [done|]. intros j Hj. lia.
    + replace (Z.pred (Z.of_nat (S k))) with (Z.of_nat k) by lia.
      specialize (IH (Z.succ m)). destruct List.find as [i|].
      * destruct IH as (Hr & HP & Hmin). split; [lia|]. split; [done|].
        intros j Hj. destruct (decide (j = m)) as [->|]; [done|]. apply Hmin. lia.
      * intros j Hj. destruct (decide (j = m)) as [->|]; [done|]. apply IH. lia.
Qed.

(** The inner loop of [nextVlan] adds the tags of the binding maps. *)
Lemma foldM_insertVlan bindingMaps : forall existingVlans,
  Forall (fun bm => is_Some (SegmentConnectionBindingMap.VlanTrafficTag bm)) bindingMaps ->
  exists vlans,
    foldM insertVlan existingVlans bindingMaps = Ret vlans
    /\ forall v, v ∈ vlans <->
         v ∈ existingVlans
         \/ exists bm, bm ∈ bindingMaps
                       /\ SegmentConnectionBindingMap.VlanTrafficTag bm = Some v.
Proof.
  induction bindingMaps as [|bm l IH]; intros existingVlans Hall.
  - exists existingVlans. split; [done|]. intros v. split; [tauto|].
    intros [?|(bm & Hbm & _)]; [done|]. by apply elem_of_nil in Hbm.
  - apply Forall_cons in Hall as [[tag Htag] Hall].
    destruct (IH ({[tag]} ∪ existingVlans) Hall) as (vlans & Hrun & Hspec).
    exists vlans. split.
    + assert (Hins : insertVlan existingVlans bm = Ret ({[tag]} ∪ existingVlans)).
      { unfold insertVlan. by rewrite Htag. }
      cbn [foldM]. rewrite Hins. exact Hrun.
    + intros v. rewrite Hspec. rewrite elem_of_union, elem_of_singleton. split.
      * intros [[->|?]|(bm' & Hin & Hv)]; [right|by left|right].
        -- exists bm. split; [left|done].
        -- exists bm'. split; [by right|done].
      * intros [?|(bm' & Hin & Hv)]; [by left; right|].
        apply elem_of_cons in Hin as [->|Hin].
        -- left; left. congruence.
        -- right. by exists bm'.
Qed.

(** The outer loop of [nextVlan] collects the tags the index lists. *)
Lemma foldM_collectPath service parentPaths : forall existingVlans,
  (forall parentPath bindingMaps,
     parentPath ∈ parentPaths ->
     listByParentSegmentPath (connectionBindingMapStore service) parentPath = Ret bindingMaps ->
     Forall (fun bm => is_Some (SegmentConnectionBindingMap.VlanTrafficTag bm)) bindingMaps) ->
  exists vlans,
    foldM (collectPath service) existingVlans parentPaths = Ret vlans
    /\ forall v, v ∈ vlans <->
         v ∈ existingVlans
         \/ exists parentPath bindingMaps bm,
              parentPath ∈ parentPaths
              /\ listByParentSegmentPath (connectionBindingMapStore service) parentPath
                 = Ret bindingMaps
              /\ bm ∈ bindingMaps
              /\ SegmentConnectionBindingMap.VlanTrafficTag bm = Some v.
Proof.
  induction parentPaths as [|parentPath l IH]; intros existingVlans Htags.
  - exists existingVlans. split; [done|]. intros v. split; [tauto|].
    intros [?|(p & ? & ? & Hp & _)]; [done|]. by apply elem_of_nil in Hp.
  - assert (Hl : forall p bms, p ∈ l ->
               listByParentSegmentPath (connectionBindingMapStore service) p = Ret bms ->
               Forall (fun bm => is_Some (SegmentConnectionBindingMap.VlanTrafficTag bm)) bms).
    { intros p bms Hp. apply Htags. by right. }
    cbn [foldM].
    destruct (listByParentSegmentPath (connectionBindingMapStore service) parentPath)
      as [bindingMaps|err|f] eqn:Hlist.
    + destruct (foldM_insertVlan bindingMaps existingVlans) as (vlans1 & Hrun1 & Hspec1).
      { apply (Htags parentPath); [left|done]. }
      assert (Hstep : collectPath service existingVlans parentPath = Ret vlans1).
      { unfold collectPath. by rewrite Hlist. }
      rewrite Hstep. destruct (IH vlans1 Hl) as (vlans & Hrun & Hspec).
      exists vlans. split; [exact Hrun|]. intros v. rewrite Hspec, Hspec1. split.
      * intros [[?|(bm & Hin & Hv)]|(p & bms & bm & Hp & Hls & Hin & Hv)].
        -- by left.
        -- right. exists parentPath, bindingMaps, bm. split; [left|done].
        -- right. exists p, bms, bm. split; [by right|done].
      * intros [?|(p & bms & bm & Hp & Hls & Hin & Hv)]; [by left; left|].
        apply elem_of_cons in Hp as [->|Hp].
        -- left; right. rewrite Hlist in Hls. apply Ret_inj in Hls. subst bms.
           by exists bm.
        -- right. by exists p, bms, bm.
    + assert (Hstep : collectPath service existingVlans parentPath = Ret existingVlans).
      { unfold collectPath. by rewrite Hlist. }
      rewrite Hstep. destruct (IH existingVlans Hl) as (vlans & Hrun & Hspec).
      exists vlans. split; [exact Hrun|]. intros v. rewrite Hspec. split.
      * intros [?|(p & bms & bm & Hp & Hrest)]; [by left|].
        right. exists p, bms, bm. split; [by right|done].
      * intros [?|(p & bms & bm & Hp & Hls & Hrest)]; [by left|].
        apply elem_of_cons in Hp as [->|Hp]; [congruence|].
        right. by exists p, bms, bm.
    + unfold listByParentSegmentPath, getByIndex in Hlist. by destruct ByIndex.
Qed.

(** C5.  When every binding map the parent-segment-path index lists for a
    candidate parent segment path carries a VLAN traffic tag, [nextVlan]
    returns the smallest integer of [1, 4094] that none of these binding
    maps carries; when all 4094 are carried it returns the error that names
    the ChildSubnet and its parent. *)
Theorem C5_nextVlan_smallest_unused service childSubnet parentConfig :
  (forall parentPath bindingMaps,
     parentPath ∈ segmentPaths parentConfig ->
     listByParentSegmentPath (connectionBindingMapStore service) parentPath = Ret bindingMaps ->
     Forall (fun bm => is_Some (SegmentConnectionBindingMap.VlanTrafficTag bm)) bindingMaps) ->
  (exists v, nextVlan service childSubnet parentConfig = Ret v
             /\ (1 <= v <= 4094)%Z
             /\ ~ usedVlan service parentConfig v
             /\ forall j, (1 <= j < v)%Z -> usedVlan service parentConfig j)
  \/ (nextVlan service childSubnet parentConfig
      = Fail (Errorf ("no valid VLAN for segment connection binding maps for ChildSubnet "
                      +:+ UID childSubnet +:+ " to parent " +:+ Spec_Parent childSubnet))
      /\ forall j, (1 <= j <= 4094)%Z -> usedVlan service parentConfig j).
Proof.
  intros Htags.
  destruct (foldM_collectPath service (elements (segmentPaths parentConfig)) ∅)
    as (vlans & Hrun & Hspec).
  { intros p bms Hp. apply Htags. by apply elem_of_elements. }
  assert (Hused : forall v, v ∈ vlans <-> usedVlan service parentConfig v).
  { intros v. rewrite Hspec. unfold usedVlan. split.
    - intros [Hin|(p & bms & bm & Hp & Hrest)]; [by apply elem_of_empty in Hin|].
      exists p, bms, bm. split; [by apply elem_of_elements|done].
    - intros (p & bms & bm & Hp & Hrest). right.
      exists p, bms, bm. split; [by apply elem_of_elements|done]. }
  unfold nextVlan, collectVlans. rewrite Hrun.
  change (Ret ?x ≫= ?f) with (f x). cbv beta.
  pose proof (find_seqZ (fun i => bool_decide (i ∉ vlans)) 4094 1) as Hfind.
  change (Z.of_nat 4094) with 4094%Z in Hfind.
  destruct (List.find _ (seqZ 1 4094)) as [i|].
  - left. destruct Hfind as (Hr & Hi & Hmin). exists i. split; [done|].
    split; [lia|]. split.
    + rewrite <- Hused. by apply bool_decide_eq_true in Hi.
    + intros j Hj. apply Hused. specialize (Hmin j Hj).
      apply bool_decide_eq_false in Hmin. by apply dec_stable.
  - right. split; [done|]. intros j Hj. apply Hused.
    specialize (Hfind j ltac:(lia)). apply bool_decide_eq_false in Hfind.
    by apply dec_stable.
Qed.

(** The first store update of [applyResourcesInStore] hands a slice to
    [IPPoolStore.Apply], which asserts a single pointer: the call never
    returns. *)
Lemma applyResourcesInStore_panics service nsxIPPool nsxIPPoolSubnet segment bindingMaps natRules :
  applyResourcesInStore service nsxIPPool nsxIPPoolSubnet segment bindingMaps natRules
  = (Panic InterfaceConversion, service).
Proof. by destruct service. Qed.

Lemma wrapIPSubnets_nil_subnet (rest : list (option IpAddressPoolBlockSubnet.t)) :
  wrapIPSubnets (None :: rest) = Panic NilDereference.
Proof. reflexivity. Qed.

Lemma WrapHierarchyInfra_nil_subnet ipPool segment bindingMaps tier1 nat natRules :
  WrapHierarchyInfra (Some ipPool) None segment bindingMaps tier1 nat natRules
  = Panic NilDereference.
Proof. reflexivity. Qed.

(** With a child segment in the store, [DeleteChildSubnet] does not return
    success, whatever else the stores hold and the backend answers. *)
Lemma DeleteChildSubnet_with_segment service childSubnet segment :
  getByChildSubnet (childSegmentStore service) (UID childSubnet) = Ret (Some segment) ->
  (DeleteChildSubnet service childSubnet).1 <> Ret ().
Proof.
  intros Hseg. unfold DeleteChildSubnet. rewrite Hseg. cbn [sbind].
  destruct (getParentConfig service childSubnet) as [parentConfig| |]; [|done..].
  cbn [sbind].
  destruct (getTier1ByParent service (UID childSubnet) parentConfig) as [tier1| |]; [|done..].
  cbn [sbind].
  destruct (listByChildSubnet (natRuleStore service) (UID childSubnet)) as [natRules| |];
    [|done..].
  cbn [sbind].
  destruct (getByChildSubnet (ipPoolStore service) (UID childSubnet)) as [ipPool| |];
    [|done..].
  cbn [sbind].
  destruct (getByChildSubnet (ipBlockSubnetStore service) (UID childSubnet))
    as [ipPoolSubnet| |]; [|done..].
  cbn [sbind].
  destruct (WrapHierarchyInfra _ _ _ _ _ _ _) as [[infraUpdate w]| |]; [|done..].
  cbn [sbind fst snd].
  destruct infraUpdate as [infra|]; cbn [fst snd].
  - unfold InfraClient_Patch. cbn [fst snd].
    destruct (patchReply (NSX service) (length (patched (NSX service))) infra); [done|].
    by rewrite applyResourcesInStore_panics.
  - by rewrite applyResourcesInStore_panics.
Qed.

(** C10.  When the store of child segments has no segment for the
    ChildSubnet, [DeleteChildSubnet] returns a nil error and leaves the
    service as it was: every store, the exhausted IP-block set and the
    list of requests sent to the backend. *)
Theorem C10_delete_nothing_created service childSubnet :
  getByChildSubnet (childSegmentStore service) (UID childSubnet) = Ret None ->
  DeleteChildSubnet service childSubnet = (Ret (), service).
Proof. intros Hseg. unfold DeleteChildSubnet. by rewrite Hseg. Qed.

(** C9.  For a ChildSubnet whose child segment is in the store and whose
    IP pool block subnet is not, [DeleteChildSubnet] does not complete: it
    returns an error of an earlier step or it panics, and the bookkeeping
    of the exhausted blocks, given the absent block subnet, dereferences
    it.  The claim asks for a run without fault. *)
Theorem C9_absent_block_subnet_faults service childSubnet segment :
  getByChildSubnet (childSegmentStore service) (UID childSubnet) = Ret (Some segment) ->
  getByChildSubnet (ipBlockSubnetStore service) (UID childSubnet) = Ret None ->
  (DeleteChildSubnet service childSubnet).1 <> Ret ()
  /\ releaseExhaustedIPBlock service None = (Panic NilDereference, service).
Proof.
  intros Hseg Hsub. split; [|done]. by eapply DeleteChildSubnet_with_segment.
Qed.

(** C4 (as amended).  The bookkeeping at the end of [DeleteChildSubnet],
    given the deleted pool block subnet and its IP-block path, removes that
    path from the exhausted set and changes nothing else: the path is out
    of the set afterwards, every other path keeps its membership, and no
    store is consulted, so it does not matter whether other pool subnets
    carved from the same block remain. *)
Theorem C4_release_on_any_delete service ipPoolSubnet ipBlockPath :
  IpAddressPoolBlockSubnet.IpBlockPath ipPoolSubnet = Some ipBlockPath ->
  exists exhausted,
    releaseExhaustedIPBlock service (Some ipPoolSubnet)
    = (Ret (), setExhaustedIPBlock exhausted service)
    /\ Has exhausted ipBlockPath = false
    /\ forall path, path <> ipBlockPath ->
         Has exhausted path = Has (exhaustedIPBlock service) path.
Proof.
  intros Hpath. unfold releaseExhaustedIPBlock. cbn [deref sbind]. rewrite Hpath.
  destruct (Has (exhaustedIPBlock service) ipBlockPath) eqn:Hhas.
  - exists (SetDelete (exhaustedIPBlock service) ipBlockPath). split; [done|].
    destruct (exhaustedIPBlock service) as [ex|]; [|done]. simpl. split.
    + apply bool_decide_eq_false. rewrite elem_of_difference, elem_of_singleton. tauto.
    + intros path Hne. apply bool_decide_ext.
      rewrite elem_of_difference, elem_of_singleton. tauto.
  - exists (exhaustedIPBlock service). split; [by destruct service|]. by split.
Qed.

(** Polling sends nothing to the backend. *)
Lemma acquireAttempts_patched retry intentPath : forall c,
  patched (acquireAttempts retry intentPath c).2 = patched c.
Proof.
  induction retry as [|retry IH]; intros c; cbn [acquireAttempts].
  - cbn [InfraRealizedStateClient_List fst snd].
    destruct (listReply c (listed c) intentPath) as [err|results]; [done|].
    destruct (readRealized results) as [[[cidr|] [gw|]]| |]; done.
  - cbn [InfraRealizedStateClient_List fst snd].
    destruct (listReply c (listed c) intentPath) as [err|results]; [done|].
    destruct (readRealized results) as [[[cidr|] [gw|]]| |]; try done; by rewrite IH.
Qed.

(** When no listing within the budget shows the realized subnet, the
    polling ends after [retry + 1] listings with no values and no error. *)
Lemma acquireAttempts_exhausted retry intentPath : forall c,
  (forall k, (k <= retry)%nat ->
     exists results, listReply c (listed c + k)%nat intentPath = inr results
                     /\ unrealized results) ->
  acquireAttempts retry intentPath c
  = (Ret (None, None),
     mkNSXClient (patchReply c) (listReply c) (patched c) (listed c + retry + 1)%nat).
Proof.
  induction retry as [|retry IH]; intros c Hpoll; cbn [acquireAttempts].
  - destruct (Hpoll 0%nat) as (results & Hlist & Hun); [lia|].
    rewrite Nat.add_0_r in Hlist.
    cbn [InfraRealizedStateClient_List fst snd]. rewrite Hlist.
    unfold unrealized in Hun. rewrite Nat.add_0_r, Nat.add_1_r.
    destruct (readRealized results) as [[[cidr|] [gw|]]| |]; done.
  - destruct (Hpoll 0%nat) as (results & Hlist & Hun); [lia|].
    rewrite Nat.add_0_r in Hlist.
    cbn [InfraRealizedStateClient_List fst snd]. rewrite Hlist.
    unfold unrealized in Hun.
    assert (Hnext : acquireAttempts retry intentPath
                      (mkNSXClient (patchReply c) (listReply c) (patched c) (S (listed c)))
                    = (Ret (None, None),
                       mkNSXClient (patchReply c) (listReply c) (patched c)
                         (listed c + S retry + 1)%nat)).
    { rewrite IH.
      - cbn [patchReply listReply patched listed]. do 2 f_equal. lia.
      - intros k Hk. cbn [listReply listed].
        destruct (Hpoll (S k)) as (r & Hr & Hu); [lia|].
        exists r. split; [|done]. rewrite <- Hr. f_equal. lia. }
    destruct (readRealized results) as [[[cidr|] [gw|]]| |]; done.
Qed.

(** C2.  Once the IP pool and its block subnet are on the backend, a
    realized-state polling that uses up its retry budget makes
    [createChildSubnets] panic on the absent address block: no error is
    returned, the pool and the block subnet are not tombstoned, and the
    request that created them stays the last request sent.  The claim asks
    for the compensating delete. *)
Theorem C2_polling_exhausted_no_rollback service childSubnet parentConfig tags
    vlan tier1 infraIPPool nsxIPPool nsxIPPoolSubnet :
  nextVlan service childSubnet parentConfig = Ret vlan ->
  getTier1ByParent service (UID childSubnet) parentConfig = Ret tier1 ->
  (let b := buildIPPoolWithSubnets childSubnet
              (Some (getValidIPBlockPath (Spec_AccessMode childSubnet) parentConfig)) tags in
   WrapHierarchyIPPool b.1 b.2) = Ret (Some infraIPPool, nsxIPPool, nsxIPPoolSubnet) ->
  patchReply (NSX service) (length (patched (NSX service))) infraIPPool = None ->
  (forall k, (k <= Z.to_nat RealizeMaxRetries)%nat ->
     exists results,
       listReply (NSX service) (listed (NSX service) + k)%nat
         (buildIPSubnetIntentPath childSubnet) = inr results
       /\ unrealized results) ->
  exists service',
    createChildSubnets service childSubnet parentConfig tags = (Panic NilDereference, service')
    /\ patched (NSX service') = patched (NSX service) ++ [infraIPPool].
Proof.
  intros Hvlan Htier1 Hwrap Hpatch Hpoll. cbv zeta in Hwrap.
  unfold createChildSubnets. rewrite Hvlan. cbn [sbind]. rewrite Htier1. cbn [sbind].
  cbv zeta. rewrite Hwrap. cbn [sbind fst snd deref].
  unfold InfraClient_Patch. cbn [fst snd]. rewrite Hpatch.
  unfold createSegmentAndNAT, acquireSegmentCIDRAndGateway. cbv zeta.
  cbn [NSX setNSX fst snd].
  rewrite acquireAttempts_exhausted by exact Hpoll.
  cbn [fst snd rollbackIPPool].
  eexists. split; [reflexivity|]. reflexivity.
Qed.

(** What [createChildSubnets] does with a capacity error when the exhausted
    set has been made: the path named in the error is in the set
    afterwards, once, and the typed error is returned. *)
Lemma createChildSubnets_capacity_error service childSubnet parentConfig tags
    vlan tier1 infraIPPool nsxIPPool nsxIPPoolSubnet err apiErr path exhausted :
  nextVlan service childSubnet parentConfig = Ret vlan ->
  getTier1ByParent service (UID childSubnet) parentConfig = Ret tier1 ->
  (let b := buildIPPoolWithSubnets childSubnet
              (Some (getValidIPBlockPath (Spec_AccessMode childSubnet) parentConfig)) tags in
   WrapHierarchyIPPool b.1 b.2) = Ret (Some infraIPPool, nsxIPPool, nsxIPPoolSubnet) ->
  patchReply (NSX service) (length (patched (NSX service))) infraIPPool = Some err ->
  DumpAPIError err = Some apiErr ->
  exhaustedBlockPath (RelatedErrors apiErr) = Ret (Some path) ->
  exhaustedIPBlock service = Some exhausted ->
  createChildSubnets service childSubnet parentConfig tags
  = (Fail (IPBlockExhaustedError ("ip block " +:+ path +:+ " is exhausted")),
     setExhaustedIPBlock (Some ({[path]} ∪ exhausted))
       (setNSX (InfraClient_Patch (NSX service) infraIPPool).2 service))
  /\ (path ∈ exhausted -> {[path]} ∪ exhausted = exhausted).
Proof.
  intros Hvlan Htier1 Hwrap Hpatch Hdump Hfound Hset. cbv zeta in Hwrap.
  assert (Hin : path ∈ exhausted -> {[path]} ∪ exhausted = exhausted).
  { intros Hin. apply leibniz_equiv. intros x.
    rewrite elem_of_union, elem_of_singleton. split; [intros [->|?]; done|tauto]. }
  split; [|exact Hin].
  unfold createChildSubnets. rewrite Hvlan. cbn [sbind]. rewrite Htier1. cbn [sbind].
  cbv zeta. rewrite Hwrap. cbn [sbind fst snd deref].
  unfold InfraClient_Patch. cbn [fst snd]. rewrite Hpatch.
  unfold handlePatchError. rewrite Hdump, Hfound. cbn [sbind].
  cbn [exhaustedIPBlock setNSX]. rewrite Hset. cbn [Has Insert sbind].
  case_bool_decide as Hmem; [|done].
  rewrite (Hin Hmem). unfold setExhaustedIPBlock, setNSX. cbn. by rewrite Hset.
Qed.

(** C3.  On a service whose exhausted set was never made, which is how
    [InitializeChildSubnet] leaves it, a capacity error of the backend makes
    [createChildSubnets] panic on the insertion: the path is not recorded
    and no typed error is returned.  The claim asks for both. *)
Theorem C3_capacity_error_unmade_set service childSubnet parentConfig tags
    vlan tier1 infraIPPool nsxIPPool nsxIPPoolSubnet err apiErr path :
  nextVlan service childSubnet parentConfig = Ret vlan ->
  getTier1ByParent service (UID childSubnet) parentConfig = Ret tier1 ->
  (let b := buildIPPoolWithSubnets childSubnet
              (Some (getValidIPBlockPath (Spec_AccessMode childSubnet) parentConfig)) tags in
   WrapHierarchyIPPool b.1 b.2) = Ret (Some infraIPPool, nsxIPPool, nsxIPPoolSubnet) ->
  patchReply (NSX service) (length (patched (NSX service))) infraIPPool = Some err ->
  DumpAPIError err = Some apiErr ->
  exhaustedBlockPath (RelatedErrors apiErr) = Ret (Some path) ->
  exhaustedIPBlock service = None ->
  createChildSubnets service childSubnet parentConfig tags
  = (Panic NilMapAssignment, setNSX (InfraClient_Patch (NSX service) infraIPPool).2 service).
Proof.
  intros Hvlan Htier1 Hwrap Hpatch Hdump Hfound Hset. cbv zeta in Hwrap.
  unfold createChildSubnets. rewrite Hvlan. cbn [sbind]. rewrite Htier1. cbn [sbind].
  cbv zeta. rewrite Hwrap. cbn [sbind fst snd deref].
  unfold InfraClient_Patch. cbn [fst snd]. rewrite Hpatch.
  unfold handlePatchError. rewrite Hdump, Hfound. cbn [sbind].
  cbn [exhaustedIPBlock setNSX]. rewrite Hset. reflexivity.
Qed.

End childsubnet_facts.

(** C8 on one parent path: a nil entry, then the binding map. *)
Lemma buildSegmentConnectionBindingMaps_one_parent :
  childsubnet.buildSegmentConnectionBindingMaps sampleChildSubnet sampleParentConfig 1 []
  = [None;
     Some (SegmentConnectionBindingMap.mk (Some "scbm_uid-1_parent1")
             (Some "scbm-child1-parent1") (Some "/infra/segments/parent1") None (Some 1%Z)
             [mkTag (Some "nsx-op/parent_config_uid") (Some "vnet-uid")] None None)].
Proof. reflexivity. Qed.

(** C6, an input on which the claim as stated fails: two binding maps that
    differ in the VLAN traffic tag and in nothing else have the same
    [Value()]. *)
Lemma C6_vlan_change_unseen :
  SegmentConnectionBindingMap.VlanTrafficTag (sampleBindingMap "scbm_u1_p1" 10)
  <> SegmentConnectionBindingMap.VlanTrafficTag (sampleBindingMap "scbm_u1_p1" 11)
  /\ ~ (childsubnet.Value (Some (sampleBindingMap "scbm_u1_p1" 10))
        <> childsubnet.Value (Some (sampleBindingMap "scbm_u1_p1" 11))).
Proof. split; [discriminate|]. intros Hne. by apply Hne. Qed.

Lemma C6_value_of_id_name_tags_witness :
  childsubnet.Value (Some (sampleBindingMap "scbm_u1_p1" 10))
  = childsubnet.Value (Some (sampleBindingMap "scbm_u1_p1" 11)).
Proof.
  apply (C6_value_of_id_name_tags (sampleBindingMap "scbm_u1_p1" 10)
           (sampleBindingMap "scbm_u1_p1" 11)); reflexivity.
Defined.

(** C5 on a store that lists, for the parent segment, binding maps with the
    VLAN tags 1, 2 and 3: the next tag is 4. *)
Lemma nextVlan_after_three :
  childsubnet.nextVlan
    (sampleService [] [] []
       [sampleBindingMap "scbm_u1_p1" 1; sampleBindingMap "scbm_u2_p1" 2;
        sampleBindingMap "scbm_u3_p1" 3] None quietNSX)
    sampleChildSubnet sampleParentConfig
  = Ret 4%Z.
Proof. vm_compute. reflexivity. Qed.

Lemma C5_nextVlan_smallest_unused_witness :
  let service :=
    sampleService [] [] []
      [sampleBindingMap "scbm_u1_p1" 1; sampleBindingMap "scbm_u2_p1" 2;
       sampleBindingMap "scbm_u3_p1" 3] None quietNSX in
  (exists v, childsubnet.nextVlan service sampleChildSubnet sampleParentConfig = Ret v
             /\ (1 <= v <= 4094)%Z
             /\ ~ usedVlan service sampleParentConfig v
             /\ forall j, (1 <= j < v)%Z -> usedVlan service sampleParentConfig j)
  \/ (childsubnet.nextVlan service sampleChildSubnet sampleParentConfig
      = Fail (Errorf ("no valid VLAN for segment connection binding maps for ChildSubnet "
                      +:+ UID sampleChildSubnet +:+ " to parent "
                      +:+ Spec_Parent sampleChildSubnet))
      /\ forall j, (1 <= j <= 4094)%Z -> usedVlan service sampleParentConfig j).
Proof.
  intros service.
  apply (C5_nextVlan_smallest_unused service sampleChildSubnet sampleParentConfig).
  intros parentPath bindingMaps Hin Hlist.
  unfold sampleParentConfig in Hin. cbn [segmentPaths] in Hin.
  apply elem_of_singleton in Hin. subst parentPath.
  vm_compute in Hlist. apply Ret_inj in Hlist. subst bindingMaps.
  repeat constructor; eexists; reflexivity.
Defined.

Lemma C10_delete_nothing_created_witness :
  childsubnet.DeleteChildSubnet (sampleService [] [] [] [] None quietNSX) sampleChildSubnet
  = (Ret (), sampleService [] [] [] [] None quietNSX).
Proof.
  apply (C10_delete_nothing_created (sampleService [] [] [] [] None quietNSX) sampleChildSubnet).
  reflexivity.
Defined.

(** C9, the failing input: the child segment of the ChildSubnet is in the
    store, no IP pool and no IP pool block subnet are.  The delete request
    goes to the backend and the call panics in the store update. *)
Lemma DeleteChildSubnet_absent_block_subnet_panics :
  let service := sampleService [] [] [sampleSegment] [] None quietNSX in
  exists infra,
    childsubnet.DeleteChildSubnet service sampleChildSubnet
    = (Panic InterfaceConversion,
       childsubnet.setNSX
         (mkNSXClient (patchReply quietNSX) (listReply quietNSX) [infra] 0) service).
Proof. eexists. vm_compute. reflexivity. Qed.

(** The same with the IP pool in the store: the call panics on the absent
    block subnet while it builds the request. *)
Lemma DeleteChildSubnet_pool_without_block_subnet_panics :
  let service := sampleService [sampleIPPool] [] [sampleSegment] [] None quietNSX in
  childsubnet.DeleteChildSubnet service sampleChildSubnet = (Panic NilDereference, service).
Proof. vm_compute. reflexivity. Qed.

Lemma C9_absent_block_subnet_faults_witness :
  let service := sampleService [] [] [sampleSegment] [] None quietNSX in
  (childsubnet.DeleteChildSubnet service sampleChildSubnet).1 <> Ret ()
  /\ childsubnet.releaseExhaustedIPBlock service None = (Panic NilDereference, service).
Proof.
  intros service.
  apply (C9_absent_block_subnet_faults service sampleChildSubnet sampleSegment); reflexivity.
Defined.

(** C4, an input on which the claim as stated fails: the block
    [/infra/ip-blocks/block-test] is in the exhausted set, the store still
    holds another pool subnet carved from it, and the bookkeeping for the
    deleted pool subnet takes the block out of the set. *)
Lemma C4_released_while_others_remain :
  let block := "/infra/ip-blocks/block-test" in
  let service :=
    sampleService [] [sampleIPSubnet "ibs_uid-2" block] [] [] (Some {[block]}) quietNSX in
  (exists other,
     other ∈ objects (childsubnet.ipBlockSubnetStore service)
     /\ IpAddressPoolBlockSubnet.IpBlockPath other = Some block)
  /\ childsubnet.Has (childsubnet.exhaustedIPBlock service) block = true
  /\ exists service',
       childsubnet.releaseExhaustedIPBlock service (Some (sampleIPSubnet "ibs_uid-1" block))
       = (Ret (), service')
       /\ childsubnet.Has (childsubnet.exhaustedIPBlock service') block = false.
Proof.
  intros block service. split; [|split].
  - exists (sampleIPSubnet "ibs_uid-2" block). split; [|done]. simpl. left.
  - by vm_compute.
  - eexists. split; [reflexivity|]. by vm_compute.
Qed.

Lemma C4_release_on_any_delete_witness :
  let block := "/infra/ip-blocks/block-test" in
  let service :=
    sampleService [] [sampleIPSubnet "ibs_uid-2" block] [] [] (Some {[block]}) quietNSX in
  exists exhausted,
    childsubnet.releaseExhaustedIPBlock service (Some (sampleIPSubnet "ibs_uid-1" block))
    = (Ret (), childsubnet.setExhaustedIPBlock exhausted service)
    /\ childsubnet.Has exhausted block = false
    /\ forall path, path <> block ->
         childsubnet.Has exhausted path
         = childsubnet.Has (childsubnet.exhaustedIPBlock service) path.
Proof.
  intros block service.
  apply (C4_release_on_any_delete service (sampleIPSubnet "ibs_uid-1" block) block).
  reflexivity.
Defined.

(** C2, the failing input: the backend accepts the IP pool and its block
    subnet and then never shows the realized subnet.  After the four
    listings of the budget the call panics; the only request sent is the
    one that created the pool. *)
Lemma createChildSubnets_polling_exhausted_panics :
  let service := sampleService [] [] [] [] (Some ∅) quietNSX in
  exists infraIPPool,
    childsubnet.createChildSubnets service sampleChildSubnet sampleParentConfig [sampleUIDTag]
    = (Panic NilDereference,
       childsubnet.setNSX
         (mkNSXClient (patchReply quietNSX) (listReply quietNSX) [infraIPPool] 4) service).
Proof. eexists. vm_compute. reflexivity. Qed.

Lemma C2_polling_exhausted_no_rollback_witness :
  let service := sampleService [] [] [] [] (Some ∅) quietNSX in
  exists infraIPPool service',
    childsubnet.createChildSubnets service sampleChildSubnet sampleParentConfig [sampleUIDTag]
    = (Panic NilDereference, service')
    /\ patched (childsubnet.NSX service')
       = patched (childsubnet.NSX service) ++ [infraIPPool].
Proof.
  intros service. eexists.
  eapply (C2_polling_exhausted_no_rollback service sampleChildSubnet sampleParentConfig
            [sampleUIDTag] 1%Z None).
  - vm_compute. reflexivity.
  - reflexivity.
  - reflexivity.
  - reflexivity.
  - intros k _. exists []. split; [reflexivity|exact I].
Defined.

(** A hard error of the realized-state listing, by contrast, is rolled
    back: the second request to the backend is the delete of the pool. *)
Lemma createChildSubnets_listing_error_rolls_back :
  let nsx := mkNSXClient (fun _ _ => None) (fun _ _ => inl (Errorf "unavailable")) [] 0 in
  let service := sampleService [] [] [] [] (Some ∅) nsx in
  exists create delete service',
    childsubnet.createChildSubnets service sampleChildSubnet sampleParentConfig [sampleUIDTag]
    = (Fail (Errorf "unavailable"), service')
    /\ patched (childsubnet.NSX service') = [create; delete].
Proof. do 3 eexists. split; vm_compute; reflexivity. Qed.

(** With a realized subnet and a parent configuration that has a segment
    path, the nil entry that [buildSegmentConnectionBindingMaps] puts first
    makes the wrapper of the binding maps panic; again nothing is rolled
    back. *)
Lemma createChildSubnets_nil_binding_map_panics :
  let service := sampleService [] [] [] [] (Some ∅) realizedNSX in
  exists infraIPPool,
    childsubnet.createChildSubnets service sampleChildSubnet sampleParentConfig [sampleUIDTag]
    = (Panic NilDereference,
       childsubnet.setNSX
         (mkNSXClient (patchReply realizedNSX) (listReply realizedNSX) [infraIPPool] 1) service).
Proof. eexists. vm_compute. reflexivity. Qed.

(** C3, the pattern on the message of the scenario. *)
Lemma exhaustedBlockPath_of_capacity_error :
  childsubnet.exhaustedBlockPath
    (RelatedErrors (default (mkApiError []) (childsubnet.DumpAPIError capacityError)))
  = Ret (Some "/infra/ip-blocks/block-test").
Proof. vm_compute. reflexivity. Qed.

(** C3, the failing input: a service as [InitializeChildSubnet] builds it,
    and a backend that answers the create with the capacity error. *)
Lemma C3_capacity_error_unmade_set_witness :
  let service := sampleService [] [] [] [] None fullBlockNSX in
  exists infraIPPool,
    childsubnet.createChildSubnets service sampleChildSubnet sampleParentConfig [sampleUIDTag]
    = (Panic NilMapAssignment,
       childsubnet.setNSX (InfraClient_Patch (childsubnet.NSX service) infraIPPool).2 service).
Proof.
  intros service. eexists.
  eapply (C3_capacity_error_unmade_set service sampleChildSubnet sampleParentConfig
            [sampleUIDTag] 1%Z None).
  - vm_compute. reflexivity.
  - reflexivity.
  - reflexivity.
  - reflexivity.
  - reflexivity.
  - vm_compute. reflexivity.
  - reflexivity.
Defined.

(** The same backend and a service whose exhausted set was made, empty or
    already holding the block: the block is in the set afterwards and the
    typed error is returned. *)
Lemma createChildSubnets_capacity_error_recorded :
  let block := "/infra/ip-blocks/block-test" in
  forall exhausted, exhausted = ∅ \/ exhausted = {[block]} ->
  let service := sampleService [] [] [] [] (Some exhausted) fullBlockNSX in
  exists service',
    childsubnet.createChildSubnets service sampleChildSubnet sampleParentConfig [sampleUIDTag]
    = (Fail (IPBlockExhaustedError "ip block /infra/ip-blocks/block-test is exhausted"),
       service')
    /\ childsubnet.exhaustedIPBlock service' = Some {[block]}.
Proof.
  intros block exhausted Hex service.
  edestruct (createChildSubnets_capacity_error service sampleChildSubnet sampleParentConfig
               [sampleUIDTag] 1%Z None) as [Hrun Hin].
  - vm_compute. reflexivity.
  - reflexivity.
  - reflexivity.
  - reflexivity.
  - reflexivity.
  - vm_compute. reflexivity.
  - reflexivity.
  - eexists. split; [exact Hrun|]. cbn. f_equal.
    destruct Hex as [->| ->].
    + apply leibniz_equiv. intros x. rewrite elem_of_union. split; [intros [?|?]; done|by left].
    + apply Hin. by apply elem_of_singleton.
Qed.

(** * Further properties *)

(** ** The ChildSubnet service: builders, wrappers, stores and entry points *)

Section more_childsubnet_facts.
Context `{Env} `{Indexer} `{Common}.
Import childsubnet.

Lemma append_String c (s t : string) : String c s +:+ t = String c (s +:+ t).
Proof. reflexivity. Qed.

Lemma append_nil_r (s : string) : s +:+ "" = s.
Proof. induction s as [|c s IH]; [done|]. by rewrite append_String, IH. Qed.

Lemma append_assoc (a b c : string) : (a +:+ b) +:+ c = a +:+ (b +:+ c).
Proof. induction a as [|x a IH]; [done|]. by rewrite !append_String, IH. Qed.

Lemma lastItem_no_slash s : forall acc,
  hasSlash s = false -> lastItem acc s = acc +:+ s.
Proof.
  induction s as [|c s IH]; intros acc Hs; simpl in *.
  - by rewrite append_nil_r.
  - apply orb_false_iff in Hs as [Hc Hs]. rewrite Hc.
    rewrite IH by done. by rewrite append_assoc.
Qed.

Lemma lastItem_after_slash pre id : forall acc,
  hasSlash id = false -> lastItem acc (pre +:+ "/" +:+ id) = id.
Proof.
  induction pre as [|c pre IH]; intros acc Hid.
  - change ("" +:+ "/" +:+ id) with (String "/" id). simpl.
    by rewrite lastItem_no_slash.
  - rewrite append_String. simpl. case_bool_decide; by apply IH.
Qed.

Lemma hasSlash_app a b : hasSlash (a +:+ b) = hasSlash a || hasSlash b.
Proof.
  induction a as [|c a IH]; [done|]. rewrite append_String. simpl.
  by rewrite IH, orb_assoc.
Qed.

Lemma lastItem_hasSlash s : forall acc,
  hasSlash acc = false -> hasSlash (lastItem acc s) = false.
Proof.
  induction s as [|c s IH]; intros acc Hacc; simpl; [done|].
  case_bool_decide as Hc; apply IH; [done|].
  rewrite hasSlash_app, Hacc. simpl. by rewrite bool_decide_eq_false_2.
Qed.

(** X1.  [getSegmentIDFromPath] returns what follows the last slash of a path,
    and the whole of a text that has no slash; what it returns never holds a
    slash. *)
Theorem getSegmentIDFromPath_after_last_slash pre id :
  hasSlash id = false ->
  getSegmentIDFromPath (pre +:+ "/" +:+ id) = id
  /\ getSegmentIDFromPath id = id
  /\ forall path, hasSlash (getSegmentIDFromPath path) = false.
Proof.
  intros Hid. unfold getSegmentIDFromPath. split; [|split].
  - by apply lastItem_after_slash.
  - by rewrite lastItem_no_slash.
  - intros path. by apply lastItem_hasSlash.
Qed.


Lemma foldM_snoc2 {A B C : Type} (f : list B * list C -> option A -> outcome (list B * list C))
    (g : A -> B) (h : A -> C) :
  (forall acc x, f acc (Some x) = Ret (acc.1 ++ [g x], acc.2 ++ [h x])) ->
  forall l acc, foldM f acc (Some <$> l) = Ret (acc.1 ++ (g <$> l), acc.2 ++ (h <$> l)).
Proof.
  intros Hf. induction l as [|x l IH]; intros acc.
  - simpl. rewrite !app_nil_r. by destruct acc.
  - rewrite fmap_cons. cbn [foldM]. rewrite Hf.
    change (Ret ?x ≫= ?f) with (f x). cbv beta.
    rewrite IH. cbn [fst snd]. by rewrite <- !app_assoc.
Qed.

Lemma foldM_nil_element {A B : Type} (f : B -> option A -> outcome B) :
  (forall b, f b None = Panic NilDereference) ->
  (forall b x, exists b', f b (Some x) = Ret b') ->
  forall l b, None ∈ l -> foldM f b l = Panic NilDereference.
Proof.
  intros Hnil Hsome. induction l as [|x l IH]; intros b Hin.
  - by apply elem_of_nil in Hin.
  - cbn [foldM]. destruct x as [x|].
    + destruct (Hsome b x) as [b' ->].
      change (Ret ?x ≫= ?f) with (f x). cbv beta.
      apply IH. apply elem_of_cons in Hin as [?|?]; done.
    + by rewrite Hnil.
Qed.




(** X4.  [equals] compares two parent configurations field by field and leaves
    the tombstone flag out; on a nil configuration, on either side, it
    panics. *)
Theorem equals_up_to_tombstone (c config : ParentConfig) :
  equals (Some c) (Some config) = Ret (bool_decide (unmarked c = unmarked config))
  /\ equals (Some c) None = Panic NilDereference
  /\ (forall config', equals None config' = Panic NilDereference).
Proof.
  split; [|by split].
  unfold equals. cbn [deref]. change (Ret ?x ≫= ?f) with (f x). cbv beta.
  change (Ret ?x ≫= ?f) with (f x). cbv beta.
  destruct c as [i n ns t1 tz sp pub priv m], config as [i' n' ns' t1' tz' sp' pub' priv' m'].
  unfold unmarked. cbn.
  repeat (case_bool_decide; cbn; [f_equal; symmetry; apply bool_decide_eq_false; congruence|]).
  f_equal. apply bool_decide_ext. repeat match goal with
    | H : ¬ (_ <> _) |- _ => apply dec_stable in H end.
  subst. split; [by intros ->|by intros [=]].
Qed.

(** X5.  The adapters: a binding map or a segment turned into a comparable and
    back is the same pointer; the conversion back panics on a nil comparable
    and on the other adapter type.  The conversions of lists put as many nil
    entries in front as the list has elements, so that a list of binding
    maps that is not empty, converted to comparables and back, panics on the
    first nil comparable. *)
Theorem comparable_round_trips :
  (forall p, ComparableToSegmentConnectionBindingMap (SegmentConnectionBindingMapToComparable p)
             = Ret p)
  /\ (forall s, ComparableToSegment (SegmentToComparable s) = Ret s)
  /\ ComparableToSegmentConnectionBindingMap C_nil = Panic InterfaceConversion
  /\ ComparableToSegment C_nil = Panic InterfaceConversion
  /\ (forall s, ComparableToSegmentConnectionBindingMap (SegmentToComparable s)
                = Panic InterfaceConversion)
  /\ (forall p, ComparableToSegment (SegmentConnectionBindingMapToComparable p)
                = Panic InterfaceConversion)
  /\ (forall l, ComparableToSegmentConnectionBindingMaps (C_SegmentConnectionBindingMap <$> l)
                = Ret (replicate (length l) None ++ l))
  /\ (forall l, ComparableToSegments (C_Segment <$> l) = Ret (replicate (length l) None ++ l))
  /\ (forall l, SegmentsToComparable l = replicate (length l) C_nil ++ (C_Segment <$> l))
  /\ (forall p l, ComparableToSegmentConnectionBindingMaps
                    (SegmentConnectionBindingMapsToComparable (p :: l))
                  = Panic InterfaceConversion)
  /\ (forall s l, ComparableToSegments (SegmentsToComparable (s :: l))
                  = Panic InterfaceConversion).
Proof.
  assert (Hb : forall (l : list (option SegmentConnectionBindingMap.t)) acc,
             foldM (fun bindingMaps scbm =>
                      bindingMap ← ComparableToSegmentConnectionBindingMap scbm;
                      Ret (bindingMaps ++ [bindingMap])) acc (C_SegmentConnectionBindingMap <$> l)
             = Ret (acc ++ l)).
  { induction l as [|x l IH]; intros acc; simpl; [by rewrite app_nil_r|].
    change (Ret ?x ≫= ?f) with (f x). cbv beta. rewrite IH. by rewrite <- app_assoc. }
  assert (Hs : forall (l : list (option Segment.t)) acc,
             foldM (fun segments s =>
                      segment ← ComparableToSegment s;
                      Ret (segments ++ [segment])) acc (C_Segment <$> l)
             = Ret (acc ++ l)).
  { induction l as [|x l IH]; intros acc; simpl; [by rewrite app_nil_r|].
    change (Ret ?x ≫= ?f) with (f x). cbv beta. rewrite IH. by rewrite <- app_assoc. }
  split_and!; try done.
  - intros l. unfold ComparableToSegmentConnectionBindingMaps.
    by rewrite Hb, length_fmap.
  - intros l. unfold ComparableToSegments. by rewrite Hs, length_fmap.
  - intros l. unfold SegmentsToComparable.
    apply (fold_left_snoc SegmentToComparable).
  - intros p l. unfold ComparableToSegmentConnectionBindingMaps,
      SegmentConnectionBindingMapsToComparable.
    by rewrite (fold_left_snoc SegmentConnectionBindingMapToComparable).
  - intros s l. unfold ComparableToSegments, SegmentsToComparable.
    by rewrite (fold_left_snoc SegmentToComparable).
Qed.

Lemma ConvertToVapi_Ret v : (forall v, converterError v = None) -> ConvertToVapi v = Ret v.
Proof. intros Hconv. unfold ConvertToVapi. by rewrite Hconv. Qed.

Ltac run_converted Hconv :=
  repeat first
    [ rewrite (ConvertToVapi_Ret _ Hconv)
    | progress cbn [deref foldM fst snd app]
    | progress (change (Ret ?x ≫= ?f) with (f x); cbv beta zeta) ].

Lemma wrapSegmentConnectionBindingMap_all bms :
  (forall v, converterError v = None) ->
  wrapSegmentConnectionBindingMap (Some <$> bms)
  = Ret (bindingMapWrapper <$> bms, (fun b => Some (typedBindingMap b)) <$> bms).
Proof.
  intros Hconv. unfold wrapSegmentConnectionBindingMap.
  rewrite (foldM_snoc2 _ bindingMapWrapper (fun b => Some (typedBindingMap b))); [done|].
  intros acc x. cbn [deref]. change (Ret ?x ≫= ?f) with (f x). cbv beta zeta.
  by rewrite ConvertToVapi_Ret.
Qed.

Lemma wrapSegmentConnectionBindingMap_nil_entry bms :
  None ∈ bms -> (forall v, converterError v = None) ->
  wrapSegmentConnectionBindingMap bms = Panic NilDereference.
Proof.
  intros Hin Hconv. unfold wrapSegmentConnectionBindingMap.
  apply foldM_nil_element; [done| |done].
  intros b x. cbn [deref]. change (Ret ?x ≫= ?f) with (f x). cbv beta zeta.
  rewrite ConvertToVapi_Ret by done. by eexists.
Qed.

Lemma Segment_setChildren_same s : Segment.setChildren (Segment.Children s) s = s.
Proof. by destruct s. Qed.

(** X6.  [WrapHierarchyChildSegment] on a segment and binding maps that are not
    nil, when the converter reports no error: the request is an Infra with
    one child, the wrapper of the segment; the segment has the children it
    had followed by one wrapper for every binding map, in order, and every
    wrapper carries the id and the tombstone flag of its binding map. *)
Theorem WrapHierarchyChildSegment_appends_wrappers s bms :
  (forall v, converterError v = None) ->
  let children := Segment.Children s ++ (bindingMapWrapper <$> bms) in
  WrapHierarchyChildSegment (Some s) (Some <$> bms)
  = Ret (Some (mkInfra [segmentWrapper children s] (Some "Infra")),
         Some (typedSegment children s),
         (fun b => Some (typedBindingMap b)) <$> bms).
Proof.
  intros Hconv children. unfold WrapHierarchyChildSegment, wrapSegmentAndConnectionBindingMaps.
  rewrite wrapSegmentConnectionBindingMap_all by done.
  change (Ret ?x ≫= ?f) with (f x). cbv beta. cbn [fst snd].
  assert (Hseg : (if bool_decide (0 < length (bindingMapWrapper <$> bms))
                  then s0 ← deref (Some s);
                       Ret (Some (Segment.setChildren
                                    (Segment.Children s0 ++ (bindingMapWrapper <$> bms)) s0))
                  else Ret (Some s))
                 = Ret (Some (Segment.setChildren children s))).
  { case_bool_decide as Hlen; [done|]. subst children.
    destruct bms; [|simpl in Hlen; lia]. simpl. rewrite app_nil_r.
    by rewrite Segment_setChildren_same. }
  rewrite Hseg. change (Ret ?x ≫= ?f) with (f x). cbv beta.
  unfold wrapSegments. cbn [deref]. change (Ret ?x ≫= ?f) with (f x). cbv beta zeta.
  rewrite ConvertToVapi_Ret by done. reflexivity.
Qed.

(** X7.  [WrapHierarchyIPPool] adds the wrapper of the block subnet to the
    children the pool object has and never takes one away.  Wrapping the
    same pool a second time with the tombstone flag set, as the rollback of
    [createChildSubnets] does, gives a request in which the pool has two
    children for the block subnet, the first of them not tombstoned. *)
Theorem WrapHierarchyIPPool_accumulates p s :
  (forall v, converterError v = None) ->
  let children := IpAddressPool.Children p ++ [ipSubnetWrapper s] in
  let p1 := typedIPPool children p in
  let s1 := typedIPSubnet s in
  let p2 := IpAddressPool.setMarkedForDelete (Some true) p1 in
  let s2 := IpAddressPoolBlockSubnet.setMarkedForDelete (Some true) s1 in
  WrapHierarchyIPPool (Some p) (Some s)
  = Ret (Some (mkInfra [ipPoolWrapper children p] (Some "Infra")), Some p1, Some s1)
  /\ WrapHierarchyIPPool (Some p2) (Some s2)
     = Ret (Some (mkInfra
                    [ipPoolWrapper (IpAddressPool.Children p
                                    ++ [ipSubnetWrapper s; ipSubnetWrapper s2]) p2]
                    (Some "Infra")),
            Some (typedIPPool (IpAddressPool.Children p
                               ++ [ipSubnetWrapper s; ipSubnetWrapper s2]) p2),
            Some (typedIPSubnet s2)).
Proof.
  intros Hconv children p1 s1 p2 s2.
  assert (Hwrap : forall p s,
            WrapHierarchyIPPool (Some p) (Some s)
            = Ret (Some (mkInfra [ipPoolWrapper (IpAddressPool.Children p ++ [ipSubnetWrapper s]) p]
                           (Some "Infra")),
                   Some (typedIPPool (IpAddressPool.Children p ++ [ipSubnetWrapper s]) p),
                   Some (typedIPSubnet s))).
  { intros q t. unfold WrapHierarchyIPPool, wrapIPPoolAndSubnets, wrapIPSubnets, wrapIPPool.
    run_converted Hconv. reflexivity. }
  split; [apply Hwrap|]. rewrite Hwrap. subst p2 p1 children. cbn [IpAddressPool.Children
    IpAddressPool.setMarkedForDelete typedIPPool IpAddressPool.setResourceType
    IpAddressPool.setChildren].
  by rewrite <- app_assoc.
Qed.

(** X8.  [WrapHierarchyInfra] returns a nil request exactly when it was given
    nothing to send: no IP pool, no segment, and no tier-1 or no NAT rule.
    A request that is not nil is an Infra with at least one child. *)
Theorem WrapHierarchyInfra_nil_iff ipPool ipSubnet segment bindingMaps tier1 nat natRules
    infraUpdate w :
  WrapHierarchyInfra ipPool ipSubnet segment bindingMaps tier1 nat natRules
  = Ret (infraUpdate, w) ->
  (infraUpdate = None
   <-> ipPool = None /\ segment = None /\ (tier1 = None \/ natRules = []))
  /\ (forall infra, infraUpdate = Some infra ->
        Infra_ResourceType infra = Some "Infra" /\ Infra_Children infra <> []).
Proof.
  unfold WrapHierarchyInfra. cbv zeta.
  set (step1 := match ipPool with Some _ => _ | None => _ end).
  intros Hrun.
  assert (Hs1 : forall r1, step1 = Ret r1 ->
                 (r1.1 = [] <-> ipPool = None)).
  { subst step1. intros r1. destruct ipPool as [p|].
    - destruct (wrapIPPoolAndSubnets _ _) as [r| |]; [|done..].
      cbn. intros [= <-]. cbn. split; intros [=].
    - intros [= <-]. done. }
  destruct step1 as [r1| |]; [|done..].
  specialize (Hs1 r1 eq_refl).
  change (Ret r1 ≫= ?f) with (f r1) in Hrun. cbv beta in Hrun.
  set (step2 := match segment with Some _ => _ | None => _ end) in Hrun.
  assert (Hs2 : forall r2, step2 = Ret r2 ->
                 (r2.1 = [] <-> r1.1 = [] /\ segment = None)).
  { subst step2. intros r2. destruct segment as [s|].
    - destruct (wrapSegmentAndConnectionBindingMaps _ _) as [r| |]; [|done..].
      cbn. intros [= <-]. cbn. split; [|by intros [_ ?]].
      intros Hnil. by apply app_nil in Hnil as [_ ?].
    - intros [= <-]. tauto. }
  destruct step2 as [r2| |]; [|done..].
  specialize (Hs2 r2 eq_refl).
  change (Ret r2 ≫= ?f) with (f r2) in Hrun. cbv beta in Hrun.
  set (step3 := if _ && _ then _ else _) in Hrun.
  assert (Hs3 : forall r3, step3 = Ret r3 ->
                 (r3.1 = [] <-> r2.1 = [] /\ (tier1 = None \/ natRules = []))).
  { subst step3. intros r3.
    destruct (bool_decide (tier1 <> None)) eqn:Ht; cbn [andb].
    - destruct (bool_decide (0 < length natRules)) eqn:Hn.
      + destruct (wrapTier1AndNATRules _ _ _) as [r| |]; [|done..].
        cbn. intros [= <-]. cbn. apply bool_decide_eq_true in Ht, Hn.
        split.
        * intros Hnil. by apply app_nil in Hnil as [_ ?].
        * intros [_ [? | ->]]; [done|simpl in Hn; lia].
      + intros [= <-]. apply bool_decide_eq_false in Hn.
        split; [|tauto]. intros ?. split; [done|]. right.
        destruct natRules; [done|simpl in Hn; lia].
    - intros [= <-]. apply bool_decide_eq_false in Ht.
      split; [|tauto]. intros ?. split; [done|]. left. by apply dec_stable. }
  destruct step3 as [r3| |]; [|done..].
  specialize (Hs3 r3 eq_refl).
  change (Ret r3 ≫= ?f) with (f r3) in Hrun. cbv beta in Hrun.
  case_bool_decide as Hlen.
  - apply Ret_inj in Hrun. injection Hrun as <- <-.
    apply length_zero_iff_nil in Hlen. split; [|done].
    split; [intros _|done]. tauto.
  - unfold wrapInfra in Hrun. change (Ret ?x ≫= ?f) with (f x) in Hrun. cbv beta in Hrun.
    apply Ret_inj in Hrun. injection Hrun as <- <-.
    assert (Hne : r3.1 <> []) by (intros E; by rewrite E in Hlen).
    split.
    + split; [done|]. intros (Hp & Hs & Ht). exfalso. apply Hne. tauto.
    + intros infra [= <-]. done.
Qed.

Lemma acquireAttempts_client retry intentPath : forall c,
  exists n, (1 <= n <= retry + 1)%nat
            /\ (acquireAttempts retry intentPath c).2
               = mkNSXClient (patchReply c) (listReply c) (patched c) (listed c + n).
Proof.
  induction retry as [|retry IH]; intros c; cbn [acquireAttempts].
  - cbn [InfraRealizedStateClient_List fst snd]. exists 1%nat. split; [lia|].
    rewrite Nat.add_1_r.
    destruct (listReply c (listed c) intentPath) as [err|results]; [done|].
    destruct (readRealized results) as [[[cidr|] [gw|]]| |]; done.
  - cbn [InfraRealizedStateClient_List fst snd].
    destruct (IH (mkNSXClient (patchReply c) (listReply c) (patched c) (S (listed c))))
      as (n & Hn & Hc).
    cbn [patchReply listReply patched listed] in Hc.
    assert (Hone : mkNSXClient (patchReply c) (listReply c) (patched c) (S (listed c))
                   = mkNSXClient (patchReply c) (listReply c) (patched c) (listed c + 1))
      by (by rewrite Nat.add_1_r).
    assert (Hmore : (acquireAttempts retry intentPath
                       (mkNSXClient (patchReply c) (listReply c) (patched c) (S (listed c)))).2
                    = mkNSXClient (patchReply c) (listReply c) (patched c) (listed c + S n)).
    { rewrite Hc. f_equal. lia. }
    destruct (listReply c (listed c) intentPath) as [err|results];
      [exists 1%nat; split; [lia|done]|].
    destruct (readRealized results) as [[[cidr|] [gw|]]| |];
      first [ by exists 1%nat; split; [lia|]
            | by exists (S n); split; [lia|] ].
Qed.

(** X9.  [acquireSegmentCIDRAndGateway] only reads: it lists the realized state
    at least once and at most [retry + 1] times, sends no request that
    writes, and leaves every store and the exhausted set as they were. *)
Theorem acquireSegmentCIDRAndGateway_reads_within_budget service childSubnet retry :
  exists n,
    (1 <= n <= Z.to_nat retry + 1)%nat
    /\ (acquireSegmentCIDRAndGateway service childSubnet retry).2
       = setNSX (mkNSXClient (patchReply (NSX service)) (listReply (NSX service))
                   (patched (NSX service)) (listed (NSX service) + n)) service.
Proof.
  unfold acquireSegmentCIDRAndGateway. cbn [snd].
  destruct (acquireAttempts_client (Z.to_nat retry) (buildIPSubnetIntentPath childSubnet)
              (NSX service)) as (n & Hn & Hc).
  exists n. split; [done|]. by rewrite Hc.
Qed.

Lemma acquireAttempts_unfold retry intentPath c :
  acquireAttempts retry intentPath c
  = match listReply c (listed c) intentPath with
    | inl err => (Fail err, mkNSXClient (patchReply c) (listReply c) (patched c) (S (listed c)))
    | inr results =>
        match readRealized results with
        | Ret (Some cidr, Some gw) =>
            (Ret (Some cidr, Some gw),
             mkNSXClient (patchReply c) (listReply c) (patched c) (S (listed c)))
        | Ret _ =>
            match retry with
            | S retry' =>
                acquireAttempts retry' intentPath
                  (mkNSXClient (patchReply c) (listReply c) (patched c) (S (listed c)))
            | O => (Ret (None, None),
                    mkNSXClient (patchReply c) (listReply c) (patched c) (S (listed c)))
            end
        | Fail e => (Fail e, mkNSXClient (patchReply c) (listReply c) (patched c) (S (listed c)))
        | Panic f => (Panic f, mkNSXClient (patchReply c) (listReply c) (patched c) (S (listed c)))
        end
    end.
Proof.
  destruct retry; cbn [acquireAttempts InfraRealizedStateClient_List fst snd];
    destruct (listReply c (listed c) intentPath) as [err|results]; try done;
    destruct (readRealized results) as [[[cidr|] [gw|]]| |]; done.
Qed.

Lemma acquireAttempts_skip k intentPath : forall retry c,
  (k <= retry)%nat ->
  (forall j, (j < k)%nat ->
     exists results, listReply c (listed c + j) intentPath = inr results
                     /\ unrealized results) ->
  acquireAttempts retry intentPath c
  = acquireAttempts (retry - k) intentPath
      (mkNSXClient (patchReply c) (listReply c) (patched c) (listed c + k)).
Proof.
  induction k as [|k IH]; intros retry c Hk Hpoll.
  - rewrite Nat.sub_0_r, Nat.add_0_r. by destruct c.
  - destruct retry as [|retry]; [lia|].
    rewrite acquireAttempts_unfold.
    destruct (Hpoll 0%nat) as (results & Hlist & Hun); [lia|].
    rewrite Nat.add_0_r in Hlist. rewrite Hlist. unfold unrealized in Hun.
    assert (Hnext : acquireAttempts retry intentPath
                      (mkNSXClient (patchReply c) (listReply c) (patched c) (S (listed c)))
                    = acquireAttempts (S retry - S k) intentPath
                        (mkNSXClient (patchReply c) (listReply c) (patched c)
                           (listed c + S k))).
    { rewrite (IH retry); [|lia|].
      - cbn [patchReply listReply patched listed]. do 2 f_equal. lia.
      - intros j Hj. cbn [listReply listed].
        destruct (Hpoll (S j)) as (r & Hr & Hu); [lia|].
        exists r. split; [|done]. rewrite <- Hr. f_equal. lia. }
    destruct (readRealized results) as [[[cidr|] [gw|]]| |]; done.
Qed.

(** X10.  The polling of [acquireSegmentCIDRAndGateway] is decided by the first
    listing, within the budget, that is an error or shows both the address
    block and the gateway: an error is returned as it is, the realized
    values are returned as they are read, and no further listing is made. *)
Theorem acquireSegmentCIDRAndGateway_first_decisive service childSubnet retry k :
  (k <= Z.to_nat retry)%nat ->
  (forall j, (j < k)%nat ->
     exists results,
       listReply (NSX service) (listed (NSX service) + j) (buildIPSubnetIntentPath childSubnet)
       = inr results
       /\ unrealized results) ->
  let after :=
    setNSX (mkNSXClient (patchReply (NSX service)) (listReply (NSX service))
              (patched (NSX service)) (listed (NSX service) + k + 1)) service in
  (forall err,
     listReply (NSX service) (listed (NSX service) + k) (buildIPSubnetIntentPath childSubnet)
     = inl err ->
     acquireSegmentCIDRAndGateway service childSubnet retry = (Fail err, after))
  /\ (forall results cidr gw,
        listReply (NSX service) (listed (NSX service) + k) (buildIPSubnetIntentPath childSubnet)
        = inr results ->
        readRealized results = Ret (Some cidr, Some gw) ->
        acquireSegmentCIDRAndGateway service childSubnet retry
        = (Ret (Some cidr, Some gw), after)).
Proof.
  intros Hk Hpoll after. unfold acquireSegmentCIDRAndGateway.
  rewrite (acquireAttempts_skip k) by done. rewrite acquireAttempts_unfold.
  cbn [patchReply listReply patched listed]. subst after. rewrite Nat.add_1_r.
  split.
  - intros err Herr. by rewrite Herr.
  - intros results cidr gw Hlist Hread. by rewrite Hlist, Hread.
Qed.

Lemma sameStores_refl service : sameStores service service.
Proof. exists (NSX service), (exhaustedIPBlock service). by destruct service. Qed.

Lemma sameStores_setNSX service service' c :
  sameStores service service' -> sameStores service (setNSX c service').
Proof. intros (c' & e & ->). by exists c, e. Qed.

Lemma sameStores_setExhaustedIPBlock service service' e :
  sameStores service service' -> sameStores service (setExhaustedIPBlock e service').
Proof. intros (c & e' & ->). by exists c, e. Qed.

Lemma sameStores_trans a b c : sameStores a b -> sameStores b c -> sameStores a c.
Proof. intros (c1 & e1 & ->) (c2 & e2 & ->). by exists c2, e2. Qed.

Lemma handlePatchError_run service err :
  match (handlePatchError service err).1 with Ret _ => False | _ => True end
  /\ sameStores service (handlePatchError service err).2.
Proof.
  unfold handlePatchError. destruct (DumpAPIError err) as [apiErr|];
    [|split; [done|apply sameStores_refl]].
  destruct (exhaustedBlockPath (RelatedErrors apiErr)) as [[path|]| |]; cbn [sbind];
    try (split; [done|apply sameStores_refl]).
  destruct (Has (exhaustedIPBlock service) path); [split; [done|apply sameStores_refl]|].
  destruct (Insert (exhaustedIPBlock service) path) as [e| |]; cbn [sbind];
    try (split; [done|apply sameStores_refl]).
  split; [done|]. apply sameStores_setExhaustedIPBlock, sameStores_refl.
Qed.

Lemma rollbackIPPool_run nsxErr nsxIPPool nsxIPPoolSubnet service :
  sameStores service (rollbackIPPool nsxErr nsxIPPool nsxIPPoolSubnet service).2.
Proof.
  unfold rollbackIPPool. destruct nsxErr as [e|]; [|apply sameStores_refl].
  destruct nsxIPPool as [p|]; cbn [deref sbind]; [|apply sameStores_refl].
  destruct nsxIPPoolSubnet as [s|]; cbn [deref sbind]; [|apply sameStores_refl].
  destruct (match WrapHierarchyIPPool _ _ with Ret r => _ | _ => _ end) as [infra|];
    cbn [deref sbind]; [|apply sameStores_refl].
  cbn [snd]. apply sameStores_setNSX, sameStores_refl.
Qed.

Lemma createSegmentAndNAT_run service childSubnet parentConfig tags vlan tier1
    nsxIPPool nsxIPPoolSubnet :
  let body := createSegmentAndNAT service childSubnet parentConfig tags vlan tier1
                nsxIPPool nsxIPPoolSubnet in
  match body.1.1 with Ret _ => False | _ => True end
  /\ sameStores service body.1.2.
Proof.
  cbv zeta. unfold createSegmentAndNAT. cbv zeta.
  assert (Ha : sameStores service (acquireSegmentCIDRAndGateway service childSubnet
                                     RealizeMaxRetries).2).
  { unfold acquireSegmentCIDRAndGateway. cbn [snd]. apply sameStores_setNSX, sameStores_refl. }
  destruct (acquireSegmentCIDRAndGateway service childSubnet RealizeMaxRetries)
    as [[[cidr gw]| |] service1]; cbn [fst snd] in *; [|done..].
  destruct cidr as [c|]; [|done].
  destruct (_ ≫= _) as [[[infraUpdate w]| |]| |]; cbn [fst snd]; try done.
  destruct infraUpdate as [infra|]; cbn [fst snd]; [|done].
  unfold InfraClient_Patch. cbn [fst snd].
  destruct (patchReply (NSX service1) (length (patched (NSX service1))) infra) as [e|];
    cbn [fst snd].
  - split; [done|]. by apply sameStores_setNSX.
  - rewrite applyResourcesInStore_panics. cbn [fst snd sbind].
    split; [done|]. by apply sameStores_setNSX.
Qed.

Lemma createChildSubnets_run service childSubnet parentConfig tags :
  match (createChildSubnets service childSubnet parentConfig tags).1 with
  | Ret _ => False
  | _ => True
  end
  /\ sameStores service (createChildSubnets service childSubnet parentConfig tags).2.
Proof.
  unfold createChildSubnets.
  destruct (nextVlan service childSubnet parentConfig) as [vlan| |]; cbn [sbind];
    try (split; [done|apply sameStores_refl]).
  destruct (getTier1ByParent service (UID childSubnet) parentConfig) as [tier1| |];
    cbn [sbind]; try (split; [done|apply sameStores_refl]).
  cbv zeta.
  destruct (WrapHierarchyIPPool _ _) as [[[infraIPPool nsxIPPool] nsxIPPoolSubnet]| |];
    cbn [sbind fst snd]; try (split; [done|apply sameStores_refl]).
  destruct infraIPPool as [infra|]; cbn [deref sbind];
    try (split; [done|apply sameStores_refl]).
  cbn [InfraClient_Patch fst snd].
  set (service1 := setNSX _ service).
  assert (Hpatched : sameStores service service1).
  { unfold service1. apply sameStores_setNSX. apply sameStores_refl. }
  destruct (patchReply (NSX service) (length (patched (NSX service))) infra) as [err|].
  - destruct (handlePatchError_run service1 err) as [Hr Hs].
    cbv beta iota. split; [done|]. eapply sameStores_trans; [exact Hpatched|exact Hs].
  - pose proof (createSegmentAndNAT_run service1 childSubnet parentConfig tags vlan tier1
                  nsxIPPool nsxIPPoolSubnet) as [Hr Hs]. cbv zeta in Hr, Hs.
    set (body := createSegmentAndNAT _ _ _ _ _ _ _ _) in *.
    pose proof (rollbackIPPool_run body.2 nsxIPPool nsxIPPoolSubnet body.1.2) as Hd.
    set (d := rollbackIPPool _ _ _ _) in *.
    assert (Hrolled : sameStores service d.2).
    { eapply sameStores_trans; [exact Hpatched|]. eapply sameStores_trans; [exact Hs|exact Hd]. }
    cbv beta iota zeta. fold body. fold d.
    destruct d.1; cbn [fst snd]; split; try done.
Qed.

(** X11.  [createChildSubnets] never returns a result: on every service, for
    every ChildSubnet, parent configuration and tags, it returns an error or
    panics, and no store is changed on the way, whatever has been sent to
    the backend. *)
Theorem createChildSubnets_never_returns service childSubnet parentConfig tags :
  (forall r, (createChildSubnets service childSubnet parentConfig tags).1 <> Ret r)
  /\ sameStores service (createChildSubnets service childSubnet parentConfig tags).2.
Proof.
  destruct (createChildSubnets_run service childSubnet parentConfig tags) as [Hr Hs].
  split; [|done]. intros r Heq. by rewrite Heq in Hr.
Qed.

Lemma replicate_S_None {A B : Type} (l : list A) (x : B) :
  l <> [] -> replicate (length l) x = x :: replicate (pred (length l)) x.
Proof. by destruct l. Qed.

Lemma ComparableToSegmentConnectionBindingMaps_head scbms bindingMaps :
  scbms <> [] ->
  ComparableToSegmentConnectionBindingMaps scbms = Ret bindingMaps ->
  exists rest, bindingMaps = None :: rest.
Proof.
  intros Hne. unfold ComparableToSegmentConnectionBindingMaps.
  rewrite replicate_S_None by done.
  generalize (replicate (pred (length scbms)) (None : option SegmentConnectionBindingMap.t)).
  clear Hne. revert bindingMaps.
  induction scbms as [|x l IH]; intros bindingMaps acc; cbn [foldM].
  - intros [= <-]. by eexists.
  - destruct (ComparableToSegmentConnectionBindingMap x) as [b| |]; [|done..].
    change (Ret ?x ≫= ?f) with (f x). cbv beta.
    change (Ret ?x ≫= ?f) with (f x). cbv beta.
    change ((None :: acc) ++ [b]) with (None :: (acc ++ [b])). apply IH.
Qed.

Lemma WrapHierarchyChildSegment_nil_head segment rest :
  WrapHierarchyChildSegment segment (None :: rest) = Panic NilDereference.
Proof. reflexivity. Qed.

(** The run of [updateChildSubnetBindingMaps]: the service it leaves and
    the only way it returns without error. *)
Lemma updateChildSubnetBindingMaps_run service childSubnet parentConfig childSegment tags :
  (updateChildSubnetBindingMaps service childSubnet parentConfig childSegment tags).2 = service
  /\ ((updateChildSubnetBindingMaps service childSubnet parentConfig childSegment tags).1 = Ret ()
      -> exists existingBindingMaps,
           listByChildSubnet (connectionBindingMapStore service) (UID childSubnet)
           = Ret existingBindingMaps
           /\ CompareResources
                (SegmentConnectionBindingMapsToComparable (Some <$> existingBindingMaps))
                (SegmentConnectionBindingMapsToComparable
                   (buildSegmentConnectionBindingMaps childSubnet parentConfig
                      (Status_Vlan childSubnet) tags))
              = Ret ([], [])).
Proof.
  unfold updateChildSubnetBindingMaps. cbv zeta.
  destruct (listByChildSubnet _ _) as [existingBindingMaps| |]; cbn [sbind]; [|done..].
  destruct (CompareResources _ _) as [[changed staled]| |] eqn:Hcmp; cbn [sbind fst snd];
    [|done..].
  case_bool_decide as Hc; cbn [andb].
  - case_bool_decide as Hs; cbn [andb].
    + apply length_zero_iff_nil in Hc, Hs. subst. split; [done|]. intros _.
      by exists existingBindingMaps.
    + destruct (ComparableToSegmentConnectionBindingMaps changed) as [cb| |];
        cbn [sbind]; [|done..].
      destruct (ComparableToSegmentConnectionBindingMaps staled) as [sb| |] eqn:Hsb;
        cbn [sbind]; [|done..].
      destruct (ComparableToSegmentConnectionBindingMaps_head staled sb) as [rest ->];
        [by intros ->|done|].
      cbn [foldM deref]. done.
  - destruct (ComparableToSegmentConnectionBindingMaps changed) as [cb| |] eqn:Hcb;
      cbn [sbind]; [|done..].
    destruct (ComparableToSegmentConnectionBindingMaps_head changed cb) as [rest ->];
      [by intros ->|done|].
    destruct (ComparableToSegmentConnectionBindingMaps staled) as [sb| |];
      cbn [sbind]; [|done..].
    destruct (foldM _ [] sb) as [marked| |]; cbn [sbind]; [|done..].
    unfold ApplySegmentConnectionBindingMaps.
    change ((None :: rest) ++ marked) with (None :: (rest ++ marked)).
    rewrite WrapHierarchyChildSegment_nil_head. done.
Qed.

(** X12.  [updateChildSubnetBindingMaps] never sends a request and never changes
    a store: when the comparison reports a changed or a stale binding map,
    the conversion back from comparables puts a nil entry first, and the
    call panics on it before anything is sent.  It returns without error
    only when the comparison reports nothing. *)
Theorem updateChildSubnetBindingMaps_sends_nothing service childSubnet parentConfig
    childSegment tags :
  (updateChildSubnetBindingMaps service childSubnet parentConfig childSegment tags).2 = service
  /\ ((updateChildSubnetBindingMaps service childSubnet parentConfig childSegment tags).1 = Ret ()
      -> exists existingBindingMaps,
           listByChildSubnet (connectionBindingMapStore service) (UID childSubnet)
           = Ret existingBindingMaps
           /\ CompareResources
                (SegmentConnectionBindingMapsToComparable (Some <$> existingBindingMaps))
                (SegmentConnectionBindingMapsToComparable
                   (buildSegmentConnectionBindingMaps childSubnet parentConfig
                      (Status_Vlan childSubnet) tags))
              = Ret ([], [])).
Proof.
  apply updateChildSubnetBindingMaps_run.
Qed.

(** X13.  [CreateOrUpdateChildSubnet] never writes a status.  It reports success
    only for a ChildSubnet whose child segment is in the store and whose
    binding maps the comparison finds unchanged, and then it has sent
    nothing and changed nothing; for a ChildSubnet with no child segment it
    never reports success. *)
Theorem CreateOrUpdateChildSubnet_success service childSubnet ok err status service' :
  CreateOrUpdateChildSubnet service childSubnet = (Ret (ok, err, status), service') ->
  status = None
  /\ sameStores service service'
  /\ (ok = true -> err = None ->
      service' = service
      /\ exists childSegment,
           getByChildSubnet (childSegmentStore service) (UID childSubnet)
           = Ret (Some childSegment)).
Proof.
  unfold CreateOrUpdateChildSubnet.
  destruct (getParentConfig service childSubnet) as [parentConfig|e|f].
  - destruct (getByChildSubnet (childSegmentStore service) (UID childSubnet))
      as [[childSegment|]|e|f].
    + pose proof (updateChildSubnetBindingMaps_run service childSubnet parentConfig
                    (Some childSegment) (BuildBasicTags NSXConfig_Cluster childSubnet ""))
        as [Hs _].
      destruct (updateChildSubnetBindingMaps _ _ _ _ _) as [[[]|e|f] s]; cbn [fst snd] in *;
        subst s; intros [= <- <- <- <-]; (split; [done|]); (split; [apply sameStores_refl|]);
        [|done]. intros _ _. split; [done|]. by exists childSegment.
    + pose proof (createChildSubnets_run service childSubnet parentConfig
                    (BuildBasicTags NSXConfig_Cluster childSubnet "")) as [Hr Hs].
      destruct (createChildSubnets _ _ _ _) as [[r|e|f] s]; cbn [fst snd] in *; [done| |done].
      intros [= <- <- <- <-]. split; [done|]. split; [done|]. done.
    + intros [= <- <- <- <-]. split; [done|]. split; [apply sameStores_refl|done].
    + done.
  - intros [= <- <- <- <-]. split; [done|]. split; [apply sameStores_refl|done].
  - done.
Qed.

Lemma dropPrefix_Some p : forall s rest, dropPrefix p s = Some rest <-> s = p +:+ rest.
Proof.
  induction p as [|a p IH]; intros s rest.
  - simpl. split; [by intros [= ->]|by intros ->].
  - rewrite append_String. destruct s as [|b s]; simpl; [done|].
    case_bool_decide as Hab.
    + subst b. rewrite IH. split; [by intros ->|by intros [= ->]].
    + split; [done|]. intros [= ? ?]. done.
Qed.

Lemma spanNotBracket_spec s :
  s = (spanNotBracket s).1 +:+ (spanNotBracket s).2
  /\ hasBracket (spanNotBracket s).1 = false
  /\ ((spanNotBracket s).2 = "" \/ exists t, (spanNotBracket s).2 = String "]" t).
Proof.
  induction s as [|c s (IH1 & IH2 & IH3)]; simpl.
  - split; [done|]. split; [done|]. by left.
  - case_bool_decide as Hc; simpl.
    + subst c. split; [done|]. split; [done|]. right. by exists s.
    + rewrite append_String, <- IH1. split; [done|]. split; [|done].
      by rewrite bool_decide_eq_false_2.
Qed.

Lemma spanNotBracket_app a t :
  hasBracket a = false -> spanNotBracket (a +:+ String "]" t) = (a, String "]" t).
Proof.
  induction a as [|c a IH]; intros Ha.
  - reflexivity.
  - simpl in Ha. apply orb_false_iff in Ha as [Hc Ha].
    rewrite append_String. simpl. rewrite Hc. by rewrite IH.
Qed.

Lemma matchPathHere_Some s p :
  matchPathHere s = Some p
  <-> p <> "" /\ hasBracket p = false /\ exists post, s = "path=[" +:+ p +:+ "]" +:+ post.
Proof.
  unfold matchPathHere. split.
  - destruct (dropPrefix "path=[" s) as [rest|] eqn:Hd; [|done].
    apply dropPrefix_Some in Hd.
    destruct (spanNotBracket_spec rest) as (Hr & Hb & Ht).
    destruct (spanNotBracket rest).1 as [|c q] eqn:Hrun; [done|].
    destruct (spanNotBracket rest).2 as [|d t] eqn:Hrest; [done|].
    intros [= <-]. split; [done|]. split; [done|].
    destruct Ht as [|[t' [= -> ->]]]; [done|].
    exists t'. by rewrite Hd, Hr.
  - intros (Hne & Hb & post & ->).
    assert (Hd : dropPrefix "path=[" ("path=[" +:+ p +:+ "]" +:+ post)
                 = Some (p +:+ "]" +:+ post)) by by apply dropPrefix_Some.
    rewrite Hd. change ("]" +:+ post) with (String "]" post).
    rewrite spanNotBracket_app by done. cbn [fst snd]. by destruct p.
Qed.

Lemma matchPathHere_None s :
  matchPathHere s = None ->
  forall p post, p <> "" -> hasBracket p = false -> s <> "path=[" +:+ p +:+ "]" +:+ post.
Proof.
  intros Hnone p post Hne Hb Heq.
  assert (matchPathHere s = Some p) by (apply matchPathHere_Some; eauto).
  congruence.
Qed.

(** X14.  The pattern [path=\[([^\]]+)\]] of [createChildSubnets].  A path is
    found exactly when the message holds, somewhere, the text "path=["
    followed by a run of characters other than a closing bracket that is not
    empty and by a closing bracket; the path found is that run, at the
    leftmost place where the message has this form. *)
Theorem FindStringSubmatch_leftmost_bracketed msg :
  match FindStringSubmatch msg with
  | Some path =>
      path <> "" /\ hasBracket path = false
      /\ exists pre post,
           msg = pre +:+ "path=[" +:+ path +:+ "]" +:+ post
           /\ forall pre' path' post',
                path' <> "" -> hasBracket path' = false ->
                msg = pre' +:+ "path=[" +:+ path' +:+ "]" +:+ post' ->
                (String.length pre <= String.length pre')%nat
  | None =>
      forall pre path post,
        path <> "" -> hasBracket path = false ->
        msg <> pre +:+ "path=[" +:+ path +:+ "]" +:+ post
  end.
Proof.
  induction msg as [|c msg IH].
  - cbn [FindStringSubmatch]. destruct (matchPathHere "") eqn:Hm; [done|].
    intros pre path post _ _. by destruct pre.
  - cbn [FindStringSubmatch]. destruct (matchPathHere (String c msg)) as [p|] eqn:Hm.
    + apply matchPathHere_Some in Hm as (Hne & Hb & post & Heq).
      split; [done|]. split; [done|]. exists "", post. split; [done|].
      intros. simpl. lia.
    + destruct (FindStringSubmatch msg) as [p|].
      * destruct IH as (Hne & Hb & pre & post & Heq & Hmin).
        split; [done|]. split; [done|]. exists (String c pre), post.
        split; [by rewrite append_String, <- Heq|].
        intros pre' path' post' Hne' Hb' Heq'. destruct pre' as [|c' pre'].
        -- exfalso. by eapply (matchPathHere_None _ Hm path' post').
        -- rewrite append_String in Heq'. injection Heq' as -> Heq'.
           simpl. apply le_n_S. by eapply Hmin.
      * intros pre path post Hne Hb Heq. destruct pre as [|c' pre].
        -- by eapply (matchPathHere_None _ Hm path post).
        -- rewrite append_String in Heq. injection Heq as -> Heq.
           by eapply IH.
Qed.

(** X15.  The loop of [createChildSubnets] over the related errors of a backend
    error stops at the first capacity error (code 520012) whose message
    names a path and takes that path; related errors with other codes, and
    capacity errors whose message names no path, are passed over. *)
Theorem exhaustedBlockPath_first_capacity_error items :
  Forall readable items ->
  exhaustedBlockPath items = Ret (head (omap capacityPathOf items)).
Proof.
  induction items as [|item items IH]; intros Hall; [done|].
  apply Forall_cons in Hall as [Hitem Hall]. specialize (IH Hall).
  change (omap capacityPathOf (item :: items))
    with (match capacityPathOf item with
          | Some y => y :: omap capacityPathOf items
          | None => omap capacityPathOf items
          end).
  cbn [exhaustedBlockPath]. unfold readable, capacityPathOf in *.
  destruct (rel_ErrorCode item) as [code|]; [|done]. cbn [deref].
  change (Ret ?x ≫= ?f) with (f x). cbv beta.
  case_bool_decide as Hcode.
  - destruct (Hitem Hcode) as [msg ->]. cbn [deref].
    change (Ret ?x ≫= ?f) with (f x). cbv beta.
    destruct (FindStringSubmatch msg) as [path|]; [done|]. exact IH.
  - destruct (rel_ErrorMessage item); exact IH.
Qed.

(** X16.  A backend error that is not a capacity error naming a path is returned
    by [createChildSubnets] as it came, after the one request that failed:
    the set of exhausted blocks is not touched, nothing is polled, and
    nothing is rolled back. *)
Theorem createChildSubnets_other_error service childSubnet parentConfig tags
    vlan tier1 infraIPPool nsxIPPool nsxIPPoolSubnet err :
  nextVlan service childSubnet parentConfig = Ret vlan ->
  getTier1ByParent service (UID childSubnet) parentConfig = Ret tier1 ->
  (let b := buildIPPoolWithSubnets childSubnet
              (Some (getValidIPBlockPath (Spec_AccessMode childSubnet) parentConfig)) tags in
   WrapHierarchyIPPool b.1 b.2) = Ret (Some infraIPPool, nsxIPPool, nsxIPPoolSubnet) ->
  patchReply (NSX service) (length (patched (NSX service))) infraIPPool = Some err ->
  match DumpAPIError err with
  | Some apiErr => exhaustedBlockPath (RelatedErrors apiErr) = Ret None
  | None => True
  end ->
  createChildSubnets service childSubnet parentConfig tags
  = (Fail err, setNSX (InfraClient_Patch (NSX service) infraIPPool).2 service).
Proof.
  intros Hvlan Htier1 Hwrap Hpatch Hother. cbv zeta in Hwrap.
  unfold createChildSubnets. rewrite Hvlan. cbn [sbind]. rewrite Htier1. cbn [sbind].
  cbv zeta. rewrite Hwrap. cbn [sbind fst snd deref].
  unfold InfraClient_Patch. cbn [fst snd]. rewrite Hpatch.
  unfold handlePatchError. destruct (DumpAPIError err) as [apiErr|]; [|done].
  by rewrite Hother.
Qed.

(** X17.  [DeleteChildSubnet] changes no store and leaves the set of exhausted
    blocks as it was, on every service and for every ChildSubnet: the
    service after the call is the service before it, or differs from it in
    the one request that was sent to the backend. *)
Theorem DeleteChildSubnet_stores_untouched service childSubnet :
  (DeleteChildSubnet service childSubnet).2 = service
  \/ exists infraUpdate,
       (DeleteChildSubnet service childSubnet).2
       = setNSX (InfraClient_Patch (NSX service) infraUpdate).2 service.
Proof.
  unfold DeleteChildSubnet.
  destruct (getByChildSubnet (childSegmentStore service) (UID childSubnet))
    as [[segment|]| |]; cbn [sbind]; try by left.
  destruct (getParentConfig service childSubnet) as [parentConfig| |]; cbn [sbind];
    try by left.
  destruct (getTier1ByParent service (UID childSubnet) parentConfig) as [tier1| |];
    cbn [sbind]; try by left.
  destruct (listByChildSubnet (natRuleStore service) (UID childSubnet)) as [natRules| |];
    cbn [sbind]; try by left.
  destruct (getByChildSubnet (ipPoolStore service) (UID childSubnet)) as [ipPool| |];
    cbn [sbind]; try by left.
  destruct (getByChildSubnet (ipBlockSubnetStore service) (UID childSubnet))
    as [ipPoolSubnet| |]; cbn [sbind]; try by left.
  destruct (WrapHierarchyInfra _ _ _ _ _ _ _) as [[infraUpdate w]| |];
    cbn [sbind fst snd]; try by left.
  destruct infraUpdate as [infra|]; cbn [fst snd].
  - right. exists infra. unfold InfraClient_Patch. cbn [fst snd].
    destruct (patchReply (NSX service) (length (patched (NSX service))) infra); [done|].
    by rewrite applyResourcesInStore_panics.
  - left. by rewrite applyResourcesInStore_panics.
Qed.

(** X18.  Without a parent configuration for the ChildSubnet [DeleteChildSubnet]
    sends nothing: for a ChildSubnet whose child segment is in the store it
    returns the error that names the ChildSubnet and its parent, and leaves
    the service as it was. *)
Theorem DeleteChildSubnet_without_parent_config service childSubnet segment :
  getByChildSubnet (childSegmentStore service) (UID childSubnet) = Ret (Some segment) ->
  getByNamespaceName (parentConfigStore service) (Spec_Parent childSubnet)
    (Namespace childSubnet) = Ret None ->
  DeleteChildSubnet service childSubnet
  = (Fail (Errorf ("no parent configuration found for ChildSubnet " +:+ UID childSubnet
                   +:+ " with value " +:+ Spec_Parent childSubnet)),
     service).
Proof.
  intros Hseg Hpc. unfold DeleteChildSubnet. rewrite Hseg. cbn [sbind].
  unfold getParentConfig. rewrite Hpc. reflexivity.
Qed.

Lemma foldM_app {A B : Type} (f : B -> A -> outcome B) (l1 l2 : list A) : forall b,
  foldM f b (l1 ++ l2) = foldM f b l1 ≫= fun b' => foldM f b' l2.
Proof.
  induction l1 as [|x l1 IH]; intros b; [done|].
  cbn [foldM app]. destruct (f b x) as [b'| |]; [|done..].
  change (Ret ?x ≫= ?f) with (f x). cbv beta. apply IH.
Qed.

(** X19.  The [Apply] of a store that takes a slice works through it in order
    and stops at the first object whose update fails or that is nil: the
    objects before it stay applied. *)
Theorem applyObjects_in_sequence {T : Type} (marked : T -> option bool) (store : Cache T)
    (l1 l2 : list (option T)) :
  applyObjects marked store (l1 ++ l2)
  = match applyObjects marked store l1 with
    | (Ret _, store1) => applyObjects marked store1 l2
    | failed => failed
    end.
Proof.
  revert store. induction l1 as [|p l1 IH]; intros store; [done|].
  cbn [applyObjects app]. destruct p as [o|]; [|done].
  destruct (applyObject marked store o) as [err|store']; [done|]. apply IH.
Qed.

(** X20.  [parseParentPathFromBindingMaps] collects the parent paths of the
    binding maps: a path is in the result exactly when one of the binding
    maps has it as its parent path. *)
Theorem parseParentPathFromBindingMaps_members bindingMaps :
  Forall (fun b => is_Some (SegmentConnectionBindingMap.ParentPath b)) bindingMaps ->
  exists parentPaths,
    parseParentPathFromBindingMaps (Some <$> bindingMaps) = Ret parentPaths
    /\ forall path, path ∈ parentPaths
                    <-> exists b, b ∈ bindingMaps
                                  /\ SegmentConnectionBindingMap.ParentPath b = Some path.
Proof.
  unfold parseParentPathFromBindingMaps.
  assert (Hgen : forall (init : gset string),
            Forall (fun b => is_Some (SegmentConnectionBindingMap.ParentPath b)) bindingMaps ->
            exists parentPaths,
              foldM (fun (parentPaths : gset string) bindingMap =>
                       b ← deref bindingMap;
                       p ← deref (SegmentConnectionBindingMap.ParentPath b);
                       Ret ({[p]} ∪ parentPaths)) init (Some <$> bindingMaps)
              = Ret parentPaths
              /\ forall path, path ∈ parentPaths
                   <-> path ∈ init
                       \/ exists b, b ∈ bindingMaps
                                    /\ SegmentConnectionBindingMap.ParentPath b = Some path).
  { induction bindingMaps as [|b l IH]; intros init Hall.
    - exists init. split; [done|]. intros path. split; [tauto|].
      intros [?|(b & Hb & _)]; [done|]. by apply elem_of_nil in Hb.
    - apply Forall_cons in Hall as [[p Hp] Hall].
      destruct (IH ({[p]} ∪ init) Hall) as (paths & Hrun & Hspec).
      exists paths. split.
      + rewrite fmap_cons. cbn [foldM deref].
        change (Ret ?x ≫= ?f) with (f x). cbv beta. rewrite Hp. exact Hrun.
      + intros path. rewrite Hspec, elem_of_union, elem_of_singleton. split.
        * intros [[->|?]|(b' & Hin & Hb')]; [right|by left|right].
          -- exists b. split; [left|done].
          -- exists b'. split; [by right|done].
        * intros [?|(b' & Hin & Hb')]; [by left; right|].
          apply elem_of_cons in Hin as [->|Hin].
          -- left; left. congruence.
          -- right. by exists b'. }
  intros Hall. destruct (Hgen ∅ Hall) as (paths & Hrun & Hspec).
  exists paths. split; [done|]. intros path. rewrite Hspec. split; [|tauto].
  intros [Hin|?]; [|done]. by apply elem_of_empty in Hin.
Qed.

(** X21.  The polling reads the entities of type IpBlockSubnet and no others:
    taking the other entities out of a listing, wherever they stand, changes
    nothing in what is read. *)
Theorem readRealized_reads_block_subnets results :
  Forall (fun realizedEntity => is_Some (EntityType realizedEntity)) results ->
  readRealized results = readRealized (filter isIpBlockSubnet results).
Proof.
  unfold readRealized.
  match goal with |- context [foldM ?f _ results] => set (body := f) end.
  generalize (None : option IPNet, None : option net_IP).
  induction results as [|e l IH]; intros acc Hall; [done|].
  apply Forall_cons in Hall as [[t Ht] Hall].
  destruct (decide (isIpBlockSubnet e)) as [He|He].
  - rewrite filter_cons_True by done. cbn [foldM].
    destruct (body acc e) as [acc'| |]; [|done..].
    change (Ret ?x ≫= ?f) with (f x). cbv beta. by apply IH.
  - rewrite filter_cons_False by done. cbn [foldM].
    assert (Hb : body acc e = Ret acc).
    { unfold body. rewrite Ht. cbn [deref]. change (Ret ?x ≫= ?f) with (f x). cbv beta.
      unfold isIpBlockSubnet in He. rewrite Ht in He.
      rewrite bool_decide_eq_false_2 by congruence. done. }
    rewrite Hb. change (Ret ?x ≫= ?f) with (f x). cbv beta. by apply IH.
Qed.

(** X22.  [buildParentConfigByVNet] never returns a parent configuration.  For
    a VirtualNetwork with no segment in the store it returns nil and no
    error; for one with segments, once the IP block of the cluster is found,
    it panics at the first segment, on the insertion of the segment's path
    into the set of segment paths, which was never made. *)
Theorem buildParentConfigByVNet_never_builds service parents vnet :
  (forall pc, buildParentConfigByVNet service parents vnet <> Ret (Some pc))
  /\ (listByParent (parentSegmentStore parents) (vnet_UID vnet) = Ret []
      -> buildParentConfigByVNet service parents vnet = Ret None)
  /\ (forall segment segments ipBlock,
        listByParent (parentSegmentStore parents) (vnet_UID vnet) = Ret (segment :: segments) ->
        GetBySupervisorCluster (ipBlockStore parents) NSXConfig_Cluster = Ret ipBlock ->
        buildParentConfigByVNet service parents vnet
        = Panic (match Segment.Path segment with
                 | Some _ => NilMapAssignment
                 | None => NilDereference
                 end)).
Proof.
  assert (Hpanic : forall segment segments ipBlock,
            listByParent (parentSegmentStore parents) (vnet_UID vnet) = Ret (segment :: segments) ->
            GetBySupervisorCluster (ipBlockStore parents) NSXConfig_Cluster = Ret ipBlock ->
            buildParentConfigByVNet service parents vnet
            = Panic (match Segment.Path segment with
                 | Some _ => NilMapAssignment
                 | None => NilDereference
                 end)).
  { intros segment segments ipBlock Hlist Hblock. unfold buildParentConfigByVNet.
    rewrite Hlist. change (Ret ?x ≫= ?f) with (f x). cbv beta.
    rewrite bool_decide_eq_false_2 by done. rewrite Hblock.
    change (Ret ?x ≫= ?f) with (f x). cbv beta. cbn [foldM fst snd].
    by destruct (Segment.Path segment). }
  split; [|split; [|exact Hpanic]].
  - intros pc. unfold buildParentConfigByVNet.
    destruct (listByParent _ _) as [[|segment segments]| |] eqn:Hlist; [done| |done..].
    change (Ret ?x ≫= ?f) with (f x). cbv beta.
    rewrite bool_decide_eq_false_2 by done.
    destruct (GetBySupervisorCluster _ _) as [ipBlock| |] eqn:Hblock; [|done..].
    change (Ret ?x ≫= ?f) with (f x). cbv beta. cbn [foldM fst snd].
    by destruct (Segment.Path segment).
  - intros Hlist. unfold buildParentConfigByVNet. by rewrite Hlist.
Qed.

Lemma hasClusterTag_true tags :
  Forall (fun tag => is_Some (Scope tag)) tags ->
  hasClusterTag tags = Ret (bool_decide (Exists (fun tag => Scope tag = Some TagScopeNCPCluster) tags)).
Proof.
  induction tags as [|tag tags IH]; intros Hall.
  - cbn [hasClusterTag]. rewrite bool_decide_eq_false_2; [done|]. by intros ?%Exists_nil.
  - apply Forall_cons in Hall as [[scope Hs] Hall]. cbn [hasClusterTag]. rewrite Hs.
    cbn [deref]. change (Ret ?x ≫= ?f) with (f x). cbv beta.
    destruct (decide (scope = TagScopeNCPCluster)) as [Hc|Hc].
    + rewrite (bool_decide_eq_true_2 (scope = _)) by done.
      rewrite bool_decide_eq_true_2; [done|]. left. by rewrite Hs, Hc.
    + rewrite (bool_decide_eq_false_2 (scope = _)) by done.
      rewrite IH by done. f_equal. apply bool_decide_ext. rewrite Exists_cons.
      split; [tauto|]. intros [Heq|?]; [|done]. congruence.
Qed.

(** X23.  [ipBlockByOnlyClusterIndexFunc] files an IP block that carries a tag
    of the cluster scope under no value at all.  A block without such a tag
    is filed under the value of its first tag, whatever the scope of that
    tag is, and for a block with no tag the function panics. *)
Theorem ipBlockByOnlyClusterIndexFunc_first_tag (ipBlock : IpAddressBlock.t) :
  Forall (fun tag => is_Some (Scope tag)) (IpAddressBlock.Tags ipBlock) ->
  ipBlockByOnlyClusterIndexFunc (Some (Some ipBlock))
  = if bool_decide (Exists (fun tag => Scope tag = Some TagScopeNCPCluster)
                      (IpAddressBlock.Tags ipBlock))
    then Ret []
    else match IpAddressBlock.Tags ipBlock with
         | [] => Panic IndexOutOfRange
         | tag :: _ => match TagValue tag with
                       | Some v => Ret [v]
                       | None => Panic NilDereference
                       end
         end.
Proof.
  intros Hall. unfold ipBlockByOnlyClusterIndexFunc. cbn [deref].
  change (Ret ?x ≫= ?f) with (f x). cbv beta. rewrite hasClusterTag_true by done.
  change (Ret ?x ≫= ?f) with (f x). cbv beta.
  case_bool_decide; [done|]. destruct (IpAddressBlock.Tags ipBlock) as [|tag ?]; [done|].
  by destruct (TagValue tag).
Qed.

(** X24.  [parseNamespaceIDFromTier1] returns the value of the first tag of the
    tier-1 that has the project scope, whatever tags follow it. *)
Theorem parseNamespaceIDFromTier1_first_project_tag (tier1 : Tier1.t) before tag after uid :
  Tier1.Tags tier1 = before ++ tag :: after ->
  Forall (fun t => exists scope, Scope t = Some scope /\ scope <> TagScopeNCPProjectUID) before ->
  Scope tag = Some TagScopeNCPProjectUID ->
  TagValue tag = Some uid ->
  parseNamespaceIDFromTier1 (Some tier1) = Ret uid.
Proof.
  intros Htags Hbefore Hscope Hvalue. unfold parseNamespaceIDFromTier1. cbn [deref].
  change (Ret ?x ≫= ?f) with (f x). cbv beta. rewrite Htags.
  clear Htags. induction before as [|t before IH]; cbn [app].
  - rewrite Hscope. cbn [deref]. change (Ret ?x ≫= ?f) with (f x). cbv beta.
    rewrite bool_decide_eq_true_2 by done. by rewrite Hvalue.
  - apply Forall_cons in Hbefore as [(scope & Hs & Hne) Hbefore].
    rewrite Hs. cbn [deref]. change (Ret ?x ≫= ?f) with (f x). cbv beta.
    rewrite bool_decide_eq_false_2 by done. by apply IH.
Qed.

(** X25.  The binding maps [buildSegmentConnectionBindingMaps] builds for a
    parent configuration that has a segment path cannot be wrapped: the nil
    entry the list starts with makes every wrapper of the child segment
    panic before a request exists. *)
Theorem built_binding_maps_not_wrapped childSubnet parentConfig vlanTag tags :
  segmentPaths parentConfig <> ∅ ->
  (forall segment,
     WrapHierarchyChildSegment segment
       (buildSegmentConnectionBindingMaps childSubnet parentConfig vlanTag tags)
     = Panic NilDereference)
  /\ (forall segment tier1 nat natRules,
        WrapHierarchySegmentAndNAT segment
          (buildSegmentConnectionBindingMaps childSubnet parentConfig vlanTag tags)
          tier1 nat natRules
        = Panic NilDereference)
  /\ (forall ipSubnet segment tier1 nat natRules,
        WrapHierarchyInfra None ipSubnet (Some segment)
          (buildSegmentConnectionBindingMaps childSubnet parentConfig vlanTag tags)
          tier1 nat natRules
        = Panic NilDereference).
Proof.
  intros Hne.
  assert (Hhead : exists rest,
            buildSegmentConnectionBindingMaps childSubnet parentConfig vlanTag tags
            = None :: rest).
  { assert (Hb : buildSegmentConnectionBindingMaps childSubnet parentConfig vlanTag tags
                 = replicate (size (segmentPaths parentConfig)) None
                   ++ (bindingMapFor childSubnet parentConfig vlanTag tags
                       <$> elements (segmentPaths parentConfig))).
    { unfold buildSegmentConnectionBindingMaps.
      apply (fold_left_snoc (bindingMapFor childSubnet parentConfig vlanTag tags)). }
    rewrite Hb.
    destruct (size (segmentPaths parentConfig)) as [|n] eqn:Hsize.
    - apply size_empty_iff in Hsize. by apply leibniz_equiv in Hsize.
    - by eexists. }
  destruct Hhead as [rest ->]. by split_and!.
Qed.

(** X26.  [Segment.Value], like the [Value] of a binding map, is made from the
    id, the display name and the tags: two segments that agree on these
    have the same value, whatever their connectivity paths, transport zones
    and subnets are. *)
Theorem Segment_Value_of_id_name_tags (a b : Segment.t) :
  Segment.Id a = Segment.Id b ->
  Segment.DisplayName a = Segment.DisplayName b ->
  Segment.Tags a = Segment.Tags b ->
  Segment_Value (Some a) = Segment_Value (Some b).
Proof. intros Hid Hname Htags. unfold Segment_Value. simpl. by rewrite Hid, Hname, Htags. Qed.

Lemma replaceAll_slash_head s t : replaceAll "/" "\/" s <> String "/" t.
Proof.
  destruct s as [|c s]; [done|]. cbn [replaceAll]. case_bool_decide as Hc.
  - rewrite !append_String. intros [=].
  - rewrite append_String. intros [= ?]. done.
Qed.

Lemma replaceAll_slash_inj a : forall b,
  replaceAll "/" "\/" a = replaceAll "/" "\/" b -> a = b.
Proof.
  induction a as [|x a IH]; intros [|y b]; cbn [replaceAll].
  - done.
  - case_bool_decide; rewrite !append_String; intros [=].
  - case_bool_decide; rewrite !append_String; intros [=].
  - case_bool_decide as Hx; case_bool_decide as Hy; rewrite !append_String.
    + intros [= Heq]. subst. f_equal. by apply IH.
    + intros [= <- Heq]. symmetry in Heq. by apply replaceAll_slash_head in Heq.
    + intros [= -> Heq]. by apply replaceAll_slash_head in Heq.
    + intros [= -> Heq]. f_equal. by apply IH.
Qed.

Lemma generateQueryParams_loop tags : forall tagParams,
  Forall (fun tag => is_Some (Scope tag)) tags ->
  foldM (fun tagParams tag =>
           scope ← deref (Scope tag);
           let tagKey := replaceAll "/" "\/" scope in
           let tagParams := tagParams ++ ["tags.scope:" +:+ tagKey] in
           match TagValue tag with
           | Some v =>
               let tagValue := replaceAll ":" "\:" v in
               Ret (tagParams ++ ["tags.tag:" +:+ tagValue])
           | None => Ret tagParams
           end) tagParams tags
  = Ret (tagParams ++ (tags ≫= tagTerms)).
Proof.
  induction tags as [|tag tags IH]; intros tagParams Hall.
  - simpl. by rewrite app_nil_r.
  - apply Forall_cons in Hall as [[scope Hs] Hall]. cbn [foldM]. rewrite Hs. cbn [deref].
    change (Ret ?x ≫= ?f) with (f x). cbv beta zeta.
    rewrite bind_cons. unfold tagTerms at 1. rewrite Hs.
    destruct (TagValue tag) as [v|];
      change (Ret ?x ≫= ?f) with (f x); cbv beta; rewrite IH by done;
      by rewrite <- !app_assoc.
Qed.

(** X27.  [generateQueryParams] joins with " AND " the term of the resource
    type and, for every tag in order, the term of its scope and, if the tag
    has a value, the term of the value.  Escaping the slashes of a scope
    loses nothing: two tags without value that give the same query have the
    same scope. *)
Theorem generateQueryParams_terms resourceTypeValue tags :
  Forall (fun tag => is_Some (Scope tag)) tags ->
  generateQueryParams resourceTypeValue tags
  = Ret (String.concat " AND "
           ((ResourceType +:+ ":" +:+ resourceTypeValue) :: (tags ≫= tagTerms)))
  /\ (forall a b,
        generateQueryParams resourceTypeValue [mkTag (Some a) None]
        = generateQueryParams resourceTypeValue [mkTag (Some b) None] ->
        a = b).
Proof.
  intros Hall. split.
  - unfold generateQueryParams. by rewrite generateQueryParams_loop.
  - intros a b. unfold generateQueryParams. cbn [foldM deref Scope TagValue].
    change (Ret ?x ≫= ?f) with (f x). cbv beta zeta.
    change (Ret ?x ≫= ?f) with (f x). cbv beta zeta.
    cbn [app String.concat]. intros Heq. apply Ret_inj in Heq.
    rewrite !append_assoc in Heq.
    do 4 apply String.app_inj in Heq. cbn [String.concat] in Heq.
    apply String.app_inj in Heq. by apply replaceAll_slash_inj.
Qed.

(** X28.  [ApplySegmentConnectionBindingMaps] sends one request, the child
    segment with its binding maps, and touches the store of binding maps
    only after the backend has accepted it.  When the backend rejects the
    request its error is returned and every store is as it was; when it
    accepts, every wrapped binding map is deleted from the store if it
    carries the tombstone flag and added to it otherwise, in the order of
    the list, and nothing else changes. *)
Theorem ApplySegmentConnectionBindingMaps_patch_then_store service childSubnetID childSegment
    finalBindingMaps infraSegment segment bindingMaps :
  WrapHierarchyChildSegment childSegment finalBindingMaps
  = Ret (Some infraSegment, Some segment, bindingMaps) ->
  ApplySegmentConnectionBindingMaps service childSubnetID childSegment finalBindingMaps
  = match patchReply (NSX service) (length (patched (NSX service))) infraSegment with
    | Some err => (Fail err, setNSX (InfraClient_Patch (NSX service) infraSegment).2 service)
    | None =>
        let applied := applyObjects SegmentConnectionBindingMap.MarkedForDelete
                         (connectionBindingMapStore service) bindingMaps in
        (applied.1,
         mkService (ipPoolStore service) (ipBlockSubnetStore service)
           (childSegmentStore service) applied.2 (tier1Store service) (natRuleStore service)
           (parentConfigStore service) (exhaustedIPBlock service)
           (InfraClient_Patch (NSX service) infraSegment).2)
    end.
Proof.
  intros Hwrap. unfold ApplySegmentConnectionBindingMaps.
  rewrite Hwrap. cbn [sbind fst snd deref]. unfold InfraClient_Patch. cbn [fst snd].
  destruct (patchReply (NSX service) (length (patched (NSX service))) infraSegment) as [err|];
    [done|].
  cbn [SegmentConnectionBindingMapStore_Apply].
  cbn [ipPoolStore ipBlockSubnetStore childSegmentStore connectionBindingMapStore tier1Store
       natRuleStore parentConfigStore exhaustedIPBlock NSX setNSX].
  cbv zeta.
  by destruct (applyObjects _ _ _).1 as [[]| |].
Qed.

End more_childsubnet_facts.

(** ** The hierarchical builder: the leaves of the merged tree *)

Section more_builder_facts.
Context `{Env}.
Import subnetbinding.

Lemma leafPaths_ancestorChain_leaf info id bm :
  leafPaths (ancestorChain info [leafNode id bm])
  = [([("Org", OrgID info); ("Project", ProjectID info); ("Vpc", VPCID info);
       ("Subnet", ID info)], (id, Some bm))].
Proof.
  unfold ancestorChain, leafNode, leafType. cbn [leafPaths].
  repeat (case_bool_decide; [try done | try done]).
Qed.

Lemma insertBindingMap_cases markForDelete subnetPath rootNode b :
  insertBindingMap markForDelete subnetPath rootNode (Some b)
  = match parentPathOf subnetPath b with
    | None => Panic NilDereference
    | Some path =>
        match ParseVPCResourcePath path with
        | inl _ =>
            match SubnetConnectionBindingMap.Path b with
            | Some _ => Ret rootNode
            | None => Panic NilDereference
            end
        | inr info =>
            match SubnetConnectionBindingMap.Id b with
            | Some id =>
                Ret (mergeChildNode
                       (ancestorChain info [leafNode id (marked markForDelete b)]) rootNode)
            | None => Panic NilDereference
            end
        end
    end.
Proof.
  unfold insertBindingMap, parentPathOf, buildHNodeFromSubnetConnectionBindingMap.
  destruct b as [id name pp path sp vlan tags mfd rt].
  destruct markForDelete as [m|]; case_bool_decide; destruct pp as [pp|];
    cbn -[mergeChildNode]; try reflexivity;
    match goal with |- context [ParseVPCResourcePath ?p] =>
      destruct (ParseVPCResourcePath p) as [err|info] end;
    cbn -[mergeChildNode]; destruct id as [id|], path as [path|]; reflexivity.
Qed.

Lemma insertedLeaves_leafOf markForDelete subnetPath bm o :
  insertedNode markForDelete subnetPath bm = Ret o ->
  below ("OrgRoot", "") <$> insertedLeaves markForDelete subnetPath bm
  = option_list (leafOf markForDelete subnetPath bm).
Proof.
  unfold insertedLeaves. intros Hnode. rewrite Hnode. revert Hnode.
  unfold insertedNode. destruct bm as [b|].
  - rewrite insertBindingMap_cases. unfold leafOf. cbn [mbind option_bind].
    destruct (parentPathOf subnetPath b) as [path|]; [|done].
    destruct (ParseVPCResourcePath path) as [err|info] eqn:Hparse.
    + destruct (SubnetConnectionBindingMap.Path b); [|done].
      change (Ret ?x ≫= ?f) with (f x). cbv beta. cbn [childNodes head].
      intros [= <-]. destruct (SubnetConnectionBindingMap.Id b); simpl; [|done].
      by rewrite Hparse.
    + destruct (SubnetConnectionBindingMap.Id b) as [id|]; [|done].
      rewrite mergeChildNode_nil by done.
      change (Ret ?x ≫= ?f) with (f x). cbv beta. cbn [childNodes head].
      intros [= <-]. rewrite (leafPaths_ancestorChain_leaf info id).
      simpl. by rewrite Hparse.
  - unfold insertBindingMap. destruct markForDelete; [done|].
    change (Ret ?x ≫= ?f) with (f x). cbv beta.
    case_bool_decide; [done|].
    change (Ret ?x ≫= ?f) with (f x). cbv beta.
    unfold buildHNodeFromSubnetConnectionBindingMap.
    by destruct (ParseVPCResourcePath subnetPath).
Qed.

(** X29.  The merged tree holds, up to their order, exactly the leaves of the
    binding maps of the batch whose parent path parses, each below the
    organization, project, VPC and subnet of its path and with the tombstone
    flag it was given: no leaf is lost, none is added, and a binding map
    that occurs twice gives two leaves. *)
Theorem mergedRoot_leaves bindingMaps markForDelete subnetPath rootNode :
  mergedRoot bindingMaps markForDelete subnetPath = Ret rootNode ->
  leafPaths rootNode ≡ₚ omap (leafOf markForDelete subnetPath) bindingMaps.
Proof.
  intros Hrun. unfold mergedRoot in Hrun.
  assert (Hroot : isAncestor (mkHNode "OrgRoot" "" None [])) by done.
  destruct (foldM_insert_leafPaths _ _ _ _ _ Hroot Hrun) as [Hall Hpaths].
  rewrite Hpaths. clear Hpaths Hrun.
  assert (Hnil : leafPaths (mkHNode "OrgRoot" "" None []) = []) by reflexivity.
  rewrite Hnil. cbn [app].
  change (segmentOf (mkHNode "OrgRoot" "" None [])) with ("OrgRoot", "").
  induction bindingMaps as [|bm l IH]; [done|].
  apply Forall_cons in Hall as [[o Ho] Hall].
  rewrite bind_cons, fmap_app, (insertedLeaves_leafOf _ _ _ _ Ho), IH by done.
  change (omap (leafOf markForDelete subnetPath) (bm :: l))
    with (match leafOf markForDelete subnetPath bm with
          | Some y => y :: omap (leafOf markForDelete subnetPath) l
          | None => omap (leafOf markForDelete subnetPath) l
          end).
  by destruct (leafOf markForDelete subnetPath bm).
Qed.

(** X30.  A binding map whose parent path does not parse is passed over: the
    request built from the batch is the request built from the batch
    without it, provided the binding map has its own path set, which the log
    line reads. *)
Theorem buildOrgRoot_skips_unparsed before after markForDelete subnetPath bm path err :
  parentPathOf subnetPath bm = Some path ->
  ParseVPCResourcePath path = inl err ->
  is_Some (SubnetConnectionBindingMap.Path bm) ->
  buildOrgRootBySubnetConnectionBindingMaps (before ++ Some bm :: after)
    markForDelete subnetPath
  = buildOrgRootBySubnetConnectionBindingMaps (before ++ after) markForDelete subnetPath.
Proof.
  intros Hpath Hparse [q Hq].
  unfold buildOrgRootBySubnetConnectionBindingMaps, mergedRoot.
  rewrite !foldM_app. destruct (foldM _ _ before) as [root| |]; [|done..].
  change (Ret ?x ≫= ?f) with (f x). cbv beta.
  assert (Hskip : insertBindingMap markForDelete subnetPath root (Some bm) = Ret root).
  { by rewrite insertBindingMap_cases, Hpath, Hparse, Hq. }
  cbn [foldM]. rewrite Hskip. reflexivity.
Qed.

End more_builder_facts.

(** ** The properties on the samples *)

(** X1 on the samples. *)
Lemma getSegmentIDFromPath_after_last_slash_witness :
  childsubnet.getSegmentIDFromPath ("/infra/segments" +:+ "/" +:+ "parent1") = "parent1"
  /\ childsubnet.getSegmentIDFromPath "parent1" = "parent1"
  /\ forall path, hasSlash (childsubnet.getSegmentIDFromPath path) = false.
Proof.
  apply (getSegmentIDFromPath_after_last_slash "/infra/segments" "parent1"). reflexivity.
Defined.

(** X6 on the samples. *)
Lemma WrapHierarchyChildSegment_appends_wrappers_witness :
  let s := sampleSegment in
  let bms := [sampleBindingMap "scbm_u1_p1" 10; sampleBindingMap "scbm_u1_p2" 10] in
  let children := Segment.Children s ++ (bindingMapWrapper <$> bms) in
  childsubnet.WrapHierarchyChildSegment (Some s) (Some <$> bms)
  = Ret (Some (mkInfra [segmentWrapper children s] (Some "Infra")),
         Some (typedSegment children s),
         (fun b => Some (typedBindingMap b)) <$> bms).
Proof.
  intros s bms. apply (WrapHierarchyChildSegment_appends_wrappers s bms).
  intros v. reflexivity.
Defined.

(** X7 on the samples. *)
Lemma WrapHierarchyIPPool_accumulates_witness :
  let p := sampleIPPool in
  let s := sampleIPSubnet "ibs_uid-1" "/infra/ip-blocks/block-test" in
  let children := IpAddressPool.Children p ++ [ipSubnetWrapper s] in
  let p1 := typedIPPool children p in
  let s1 := typedIPSubnet s in
  let p2 := IpAddressPool.setMarkedForDelete (Some true) p1 in
  let s2 := IpAddressPoolBlockSubnet.setMarkedForDelete (Some true) s1 in
  childsubnet.WrapHierarchyIPPool (Some p) (Some s)
  = Ret (Some (mkInfra [ipPoolWrapper children p] (Some "Infra")), Some p1, Some s1)
  /\ childsubnet.WrapHierarchyIPPool (Some p2) (Some s2)
     = Ret (Some (mkInfra
                    [ipPoolWrapper (IpAddressPool.Children p
                                    ++ [ipSubnetWrapper s; ipSubnetWrapper s2]) p2]
                    (Some "Infra")),
            Some (typedIPPool (IpAddressPool.Children p
                               ++ [ipSubnetWrapper s; ipSubnetWrapper s2]) p2),
            Some (typedIPSubnet s2)).
Proof.
  intros p s. apply (WrapHierarchyIPPool_accumulates p s). intros v. reflexivity.
Defined.

(** X8 on the samples. *)
Lemma WrapHierarchyInfra_nil_iff_witness :
  exists infraUpdate w,
    childsubnet.WrapHierarchyInfra None None (Some sampleSegment) [] None None []
    = Ret (infraUpdate, w)
    /\ (infraUpdate = None
        <-> (None : option IpAddressPool.t) = None /\ Some sampleSegment = None
            /\ ((None : option Tier1.t) = None \/ ([] : list (option PolicyNatRule.t)) = []))
    /\ (forall infra, infraUpdate = Some infra ->
          Infra_ResourceType infra = Some "Infra" /\ Infra_Children infra <> []).
Proof.
  do 2 eexists. split; [vm_compute; reflexivity|].
  eapply (WrapHierarchyInfra_nil_iff None None (Some sampleSegment) [] None None []).
  reflexivity.
Defined.

(** X10 on the samples. *)
Lemma acquireSegmentCIDRAndGateway_first_decisive_witness :
  let service := sampleService [] [] [] [] None slowNSX in
  let after :=
    childsubnet.setNSX
      (mkNSXClient (patchReply (childsubnet.NSX service)) (listReply (childsubnet.NSX service))
         (patched (childsubnet.NSX service)) (listed (childsubnet.NSX service) + 1 + 1))
      service in
  (forall err,
     listReply (childsubnet.NSX service) (listed (childsubnet.NSX service) + 1)
       (childsubnet.buildIPSubnetIntentPath sampleChildSubnet) = inl err ->
     childsubnet.acquireSegmentCIDRAndGateway service sampleChildSubnet 3 = (Fail err, after))
  /\ (forall results cidr gw,
        listReply (childsubnet.NSX service) (listed (childsubnet.NSX service) + 1)
          (childsubnet.buildIPSubnetIntentPath sampleChildSubnet) = inr results ->
        childsubnet.readRealized results = Ret (Some cidr, Some gw) ->
        childsubnet.acquireSegmentCIDRAndGateway service sampleChildSubnet 3
        = (Ret (Some cidr, Some gw), after)).
Proof.
  intros service.
  apply (acquireSegmentCIDRAndGateway_first_decisive service sampleChildSubnet 3 1).
  - simpl. lia.
  - intros j Hj. assert (j = 0)%nat as -> by lia. exists []. split; [reflexivity|exact I].
Defined.

(** X13 on the samples. *)
Lemma CreateOrUpdateChildSubnet_success_witness :
  let service := sampleServiceOf [sampleSegment] [sampleBareParentConfig] quietNSX in
  childsubnet.CreateOrUpdateChildSubnet service sampleChildSubnet
  = (Ret (true, None, None), service)
  /\ (None : option childsubnet.StatusUpdate) = None
  /\ sameStores service service
  /\ (true = true -> (None : option error) = None ->
      service = service
      /\ exists childSegment,
           childsubnet.getByChildSubnet (childsubnet.childSegmentStore service)
             (UID sampleChildSubnet)
           = Ret (Some childSegment)).
Proof.
  intros service. split; [vm_compute; reflexivity|].
  apply (CreateOrUpdateChildSubnet_success service sampleChildSubnet true None None service).
  vm_compute. reflexivity.
Defined.

(** X15 on the samples. *)
Lemma exhaustedBlockPath_first_capacity_error_witness :
  let items :=
    [mkRelatedApiError (Some 500012%Z) None;
     mkRelatedApiError (Some 520012%Z) (Some "no spare capacity");
     mkRelatedApiError (Some 520012%Z)
       (Some "IpAddressBlock path=[/infra/ip-blocks/block-test] does not have spare capacity");
     mkRelatedApiError (Some 520012%Z) (Some "path=[/infra/ip-blocks/other]")] in
  childsubnet.exhaustedBlockPath items = Ret (head (omap capacityPathOf items)).
Proof.
  intros items. apply (exhaustedBlockPath_first_capacity_error items).
  repeat constructor; try (intros _; by eexists). intros [=].
Defined.

(** X16 on the samples. *)
Lemma createChildSubnets_other_error_witness :
  let service := sampleService [] [] [] [] None unavailableNSX in
  exists infraIPPool,
    childsubnet.createChildSubnets service sampleChildSubnet sampleParentConfig [sampleUIDTag]
    = (Fail (BackendError None "Service Unavailable"),
       childsubnet.setNSX (InfraClient_Patch (childsubnet.NSX service) infraIPPool).2 service).
Proof.
  intros service. eexists.
  eapply (createChildSubnets_other_error service sampleChildSubnet sampleParentConfig
            [sampleUIDTag] 1%Z None).
  - vm_compute. reflexivity.
  - reflexivity.
  - reflexivity.
  - reflexivity.
  - exact I.
Defined.

(** X18 on the samples. *)
Lemma DeleteChildSubnet_without_parent_config_witness :
  let service := sampleServiceOf [sampleSegment] [] quietNSX in
  childsubnet.DeleteChildSubnet service sampleChildSubnet
  = (Fail (Errorf ("no parent configuration found for ChildSubnet " +:+ UID sampleChildSubnet
                   +:+ " with value " +:+ Spec_Parent sampleChildSubnet)),
     service).
Proof.
  intros service.
  apply (DeleteChildSubnet_without_parent_config service sampleChildSubnet sampleSegment);
    reflexivity.
Defined.

(** X20 on the samples. *)
Lemma parseParentPathFromBindingMaps_members_witness :
  let bindingMaps := [sampleBindingMap "scbm_u1_p1" 10; sampleBindingMap "scbm_u1_p2" 10] in
  exists parentPaths,
    childsubnet.parseParentPathFromBindingMaps (Some <$> bindingMaps) = Ret parentPaths
    /\ forall path, path ∈ parentPaths
                    <-> exists b, b ∈ bindingMaps
                                  /\ SegmentConnectionBindingMap.ParentPath b = Some path.
Proof.
  intros bindingMaps. apply (parseParentPathFromBindingMaps_members bindingMaps).
  repeat constructor; by eexists.
Defined.

(** X21 on the samples. *)
Lemma readRealized_reads_block_subnets_witness :
  let results :=
    [mkRealized (Some "RealizedLogicalSwitch") [mkAttributeVal (Some "cidr") ["192.168.0.0/16"]];
     sampleRealizedSubnet;
     mkRealized (Some "RealizedLogicalPort") [mkAttributeVal None []]] in
  childsubnet.readRealized results
  = childsubnet.readRealized (filter isIpBlockSubnet results).
Proof.
  intros results. apply (readRealized_reads_block_subnets results).
  repeat constructor; by eexists.
Defined.

(** X29 on the samples. *)
Lemma mergedRoot_leaves_witness :
  let bindingMaps := [Some (sampleSubnetBindingMap "bm1"); Some sampleStraySubnetBindingMap;
                      Some (sampleSubnetBindingMap "bm2"); Some (sampleSubnetBindingMap "bm1")] in
  exists rootNode,
    subnetbinding.mergedRoot bindingMaps (Some true) "" = Ret rootNode
    /\ leafPaths rootNode ≡ₚ omap (leafOf (Some true) "") bindingMaps.
Proof.
  intros bindingMaps. eexists. split; [vm_compute; reflexivity|].
  apply (mergedRoot_leaves bindingMaps (Some true) ""). vm_compute. reflexivity.
Defined.

(** X30 on the samples. *)
Lemma buildOrgRoot_skips_unparsed_witness :
  subnetbinding.buildOrgRootBySubnetConnectionBindingMaps
    ([Some (sampleSubnetBindingMap "bm1")]
     ++ Some sampleStraySubnetBindingMap :: [Some (sampleSubnetBindingMap "bm2")]) None ""
  = subnetbinding.buildOrgRootBySubnetConnectionBindingMaps
      ([Some (sampleSubnetBindingMap "bm1")] ++ [Some (sampleSubnetBindingMap "bm2")]) None "".
Proof.
  apply (buildOrgRoot_skips_unparsed [Some (sampleSubnetBindingMap "bm1")]
           [Some (sampleSubnetBindingMap "bm2")] None "" sampleStraySubnetBindingMap
           "/infra/segments/s3" (Errorf "invalid path '/infra/segments/s3'")).
  - reflexivity.
  - reflexivity.
  - by eexists.
Defined.

(** X23 on the samples. *)
Lemma ipBlockByOnlyClusterIndexFunc_first_tag_witness :
  let ipBlock :=
    IpAddressBlock.mk (Some "block-test") (Some "/infra/ip-blocks/block-test")
      [mkTag (Some "nsx-op/child_subnet_block") (Some "shared");
       mkTag (Some "ncp/cluster") (Some "k8scl-one")] None in
  childsubnet.ipBlockByOnlyClusterIndexFunc (Some (Some ipBlock))
  = if bool_decide (Exists (fun tag => Scope tag = Some TagScopeNCPCluster)
                      (IpAddressBlock.Tags ipBlock))
    then Ret []
    else match IpAddressBlock.Tags ipBlock with
         | [] => Panic IndexOutOfRange
         | tag :: _ => match TagValue tag with
                       | Some v => Ret [v]
                       | None => Panic NilDereference
                       end
         end.
Proof.
  intros ipBlock. apply (ipBlockByOnlyClusterIndexFunc_first_tag ipBlock).
  repeat constructor; by eexists.
Defined.

(** X24 on the samples. *)
Lemma parseNamespaceIDFromTier1_first_project_tag_witness :
  let tier1 :=
    Tier1.mk (Some "t1") (Some "/infra/tier-1s/t1")
      [mkTag (Some "ncp/cluster") (Some "k8scl-one");
       mkTag (Some "ncp/project_uid") (Some "ns-uid-1");
       mkTag (Some "ncp/project_uid") (Some "ns-uid-2")] None None [] in
  childsubnet.parseNamespaceIDFromTier1 (Some tier1) = Ret "ns-uid-1".
Proof.
  intros tier1.
  apply (parseNamespaceIDFromTier1_first_project_tag tier1
           [mkTag (Some "ncp/cluster") (Some "k8scl-one")]
           (mkTag (Some "ncp/project_uid") (Some "ns-uid-1"))
           [mkTag (Some "ncp/project_uid") (Some "ns-uid-2")] "ns-uid-1").
  - reflexivity.
  - repeat constructor. exists "ncp/cluster". split; [reflexivity|discriminate].
  - reflexivity.
  - reflexivity.
Defined.

(** X25 on the samples. *)
Lemma built_binding_maps_not_wrapped_witness :
  (forall segment,
     childsubnet.WrapHierarchyChildSegment segment
       (childsubnet.buildSegmentConnectionBindingMaps sampleChildSubnet sampleParentConfig 1
          [sampleUIDTag])
     = Panic NilDereference)
  /\ (forall segment tier1 nat natRules,
        childsubnet.WrapHierarchySegmentAndNAT segment
          (childsubnet.buildSegmentConnectionBindingMaps sampleChildSubnet sampleParentConfig 1
             [sampleUIDTag])
          tier1 nat natRules
        = Panic NilDereference)
  /\ (forall ipSubnet segment tier1 nat natRules,
        childsubnet.WrapHierarchyInfra None ipSubnet (Some segment)
          (childsubnet.buildSegmentConnectionBindingMaps sampleChildSubnet sampleParentConfig 1
             [sampleUIDTag])
          tier1 nat natRules
        = Panic NilDereference).
Proof.
  apply (built_binding_maps_not_wrapped sampleChildSubnet sampleParentConfig 1 [sampleUIDTag]).
  apply (non_empty_inhabited_L "/infra/segments/parent1").
  change ("/infra/segments/parent1" ∈ ({["/infra/segments/parent1"]} : gset string)).
  apply elem_of_singleton_2. reflexivity.
Defined.

(** X26 on the samples. *)
Lemma Segment_Value_of_id_name_tags_witness :
  let a := sampleSegment in
  let b := Segment.mk (Some "cs_uid-1") (Some "cs-child1") (Some "/infra/tier-1s/t2")
             (Some "/infra/sites/default/transport-zones/tz2") (Some "/infra/segments/cs_uid-1")
             [Some "10.0.0.1/24"] None [sampleUIDTag] None None [] in
  childsubnet.Segment_Value (Some a) = childsubnet.Segment_Value (Some b).
Proof.
  intros a b. apply (Segment_Value_of_id_name_tags a b); reflexivity.
Defined.

(** X27 on the samples. *)
Lemma generateQueryParams_terms_witness :
  let tags := [mkTag (Some "ncp/vnet_uid") (Some "uid:1"); mkTag (Some "ncp/cluster") None] in
  childsubnet.generateQueryParams "Segment" tags
  = Ret (String.concat " AND "
           ((ResourceType +:+ ":" +:+ "Segment") :: (tags ≫= tagTerms)))
  /\ (forall a b,
        childsubnet.generateQueryParams "Segment" [mkTag (Some a) None]
        = childsubnet.generateQueryParams "Segment" [mkTag (Some b) None] ->
        a = b).
Proof.
  intros tags. apply (generateQueryParams_terms "Segment" tags).
  repeat constructor; by eexists.
Defined.

(** X28 on the samples. *)
Lemma ApplySegmentConnectionBindingMaps_patch_then_store_witness :
  let service := sampleServiceOf [sampleSegment] [sampleBareParentConfig] quietNSX in
  let finalBindingMaps :=
    [Some (sampleBindingMap "scbm_u1_p1" 10);
     Some (SegmentConnectionBindingMap.setMarkedForDelete (Some true)
             (sampleBindingMap "scbm_u1_p2" 10))] in
  exists infraSegment segment bindingMaps,
    childsubnet.WrapHierarchyChildSegment (Some sampleSegment) finalBindingMaps
    = Ret (Some infraSegment, Some segment, bindingMaps)
    /\ childsubnet.ApplySegmentConnectionBindingMaps service "uid-1" (Some sampleSegment)
         finalBindingMaps
       = match patchReply (childsubnet.NSX service)
                 (length (patched (childsubnet.NSX service))) infraSegment with
         | Some err =>
             (Fail err,
              childsubnet.setNSX (InfraClient_Patch (childsubnet.NSX service) infraSegment).2
                service)
         | None =>
             let applied :=
               childsubnet.applyObjects SegmentConnectionBindingMap.MarkedForDelete
                 (childsubnet.connectionBindingMapStore service) bindingMaps in
             (applied.1,
              childsubnet.mkService (childsubnet.ipPoolStore service)
                (childsubnet.ipBlockSubnetStore service) (childsubnet.childSegmentStore service)
                applied.2 (childsubnet.tier1Store service) (childsubnet.natRuleStore service)
                (childsubnet.parentConfigStore service) (childsubnet.exhaustedIPBlock service)
                (InfraClient_Patch (childsubnet.NSX service) infraSegment).2)
         end.
Proof.
  intros service finalBindingMaps. do 3 eexists. split; [vm_compute; reflexivity|].
  eapply (ApplySegmentConnectionBindingMaps_patch_then_store service "uid-1"
            (Some sampleSegment) finalBindingMaps).
  reflexivity.
Defined.
